(** * Hyperliquid perps automation: reconciliation core

    A shallow embedding of [src/server.ts] (the decider, the sizing
    calculator, the order executor with its retry loops and the trade
    orchestrator) together with the properties its specification states
    about them; then the endpoints of the server, its start-up report and
    the delivery of [src/discordWebhook.ts], with properties read off
    the code.

    Conventions of the embedding.
    - A JavaScript number is a [number]: an exact rational, or one of
      [+Infinity], [-Infinity], [NaN].  Finite arithmetic is exact: the
      rounding and the overflow of binary64 and the sign of zero are not
      represented.  The operations return fractions in lowest terms, so
      that equal finite numbers are equal terms.
    - A JavaScript string is a [string] of bytes; letters and white space
      are the ASCII ones.
    - An [async] function is a computation [M A]: it reads the process
      environment and the exchange through [Env], threads the module's
      global variables and the history of external calls through [World],
      and completes normally, by a thrown value, or not at all.
    - [console.log] output is not represented. *)

From Stdlib Require Import ZArith QArith Qround Qabs String Ascii List Bool Lia Lqa.
From Stdlib Require Import DecimalString.
From Stdlib Require DecimalPos DecimalN.
Import ListNotations.

Set Implicit Arguments.

(* ================================================================== *)
(** * JavaScript values used by the server *)
(* ================================================================== *)

Module JS.

(** ** Numbers *)

Inductive number : Type :=
| Fin (q : Q)
| PInf
| NInf
| NaN.

Definition Qsgn (q : Q) : Z := Z.sgn (Qnum q).

(** [x * y] *)
Definition mul (x y : number) : number :=
  match x, y with
  | NaN, _ | _, NaN => NaN
  | Fin a, Fin b => Fin (Qred (a * b))
  | Fin a, PInf | PInf, Fin a =>
      match Qsgn a with Z0 => NaN | Zpos _ => PInf | Zneg _ => NInf end
  | Fin a, NInf | NInf, Fin a =>
      match Qsgn a with Z0 => NaN | Zpos _ => NInf | Zneg _ => PInf end
  | PInf, PInf | NInf, NInf => PInf
  | PInf, NInf | NInf, PInf => NInf
  end.

(** [x / y]; the only zero of the model is [+0] *)
Definition div (x y : number) : number :=
  match x, y with
  | NaN, _ | _, NaN => NaN
  | Fin a, Fin b =>
      match Qsgn b with
      | Z0 => match Qsgn a with Z0 => NaN | Zpos _ => PInf | Zneg _ => NInf end
      | _ => Fin (Qred (a / b))
      end
  | Fin _, PInf | Fin _, NInf => Fin 0
  | PInf, Fin b => match Qsgn b with Zneg _ => NInf | _ => PInf end
  | NInf, Fin b => match Qsgn b with Zneg _ => PInf | _ => NInf end
  | PInf, PInf | PInf, NInf | NInf, PInf | NInf, NInf => NaN
  end.

(** [x - y] *)
Definition sub (x y : number) : number :=
  match x, y with
  | NaN, _ | _, NaN => NaN
  | Fin a, Fin b => Fin (Qred (a - b))
  | Fin _, PInf => NInf
  | Fin _, NInf => PInf
  | PInf, Fin _ | PInf, NInf => PInf
  | NInf, Fin _ | NInf, PInf => NInf
  | PInf, PInf | NInf, NInf => NaN
  end.

(** [x > y] *)
Definition gt (x y : number) : bool :=
  match x, y with
  | NaN, _ | _, NaN => false
  | Fin a, Fin b => negb (Qle_bool a b)
  | PInf, PInf => false
  | PInf, _ => true
  | _, NInf => match x with NInf => false | _ => true end
  | _, _ => false
  end.

(** [x === y] on numbers *)
Definition strictEq (x y : number) : bool :=
  match x, y with
  | Fin a, Fin b => Qeq_bool a b
  | PInf, PInf | NInf, NInf => true
  | _, _ => false
  end.

(** [Math.abs] *)
Definition Math_abs (x : number) : number :=
  match x with
  | Fin a => Fin (Qred (Qabs a))
  | PInf | NInf => PInf
  | NaN => NaN
  end.

(** [Math.round]: the closest integer, ties towards [+Infinity] *)
Definition Math_round (x : number) : number :=
  match x with
  | Fin a => Fin (inject_Z (Qfloor (a + (1 # 2))))
  | _ => x
  end.

(** ** Strings *)

Local Open Scope string_scope.

Definition isWhiteSpace (c : ascii) : bool :=
  match nat_of_ascii c with
  | 9%nat | 10%nat | 11%nat | 12%nat | 13%nat | 32%nat => true
  | _ => false
  end.

Fixpoint trimStart (s : string) : string :=
  match s with
  | String c s' => if isWhiteSpace c then trimStart s' else s
  | EmptyString => s
  end.

Definition digitOf (c : ascii) : option Z :=
  let n := Z.of_nat (nat_of_ascii c) in
  if ((48 <=? n) && (n <=? 57))%Z then Some (n - 48)%Z else None.

(** The longest run of decimal digits at the head of [s]: its value on top
    of [acc], how many digits were read, and what follows. *)
Fixpoint readDigits (s : string) (acc : Z) (n : nat) : Z * nat * string :=
  match s with
  | String c s' =>
      match digitOf c with
      | Some d => readDigits s' (10 * acc + d)%Z (S n)
      | None => (acc, n, s)
      end
  | EmptyString => (acc, n, s)
  end.

Definition pow10 (n : nat) : Z := (10 ^ Z.of_nat n)%Z.

(** The optional exponent part [e|E [+|-] digits]; an [e] that is not
    followed by digits does not belong to the literal. *)
Definition readExponent (s : string) : Q :=
  match s with
  | String c s' =>
      if (Ascii.eqb c "e" || Ascii.eqb c "E")%bool then
        let '(neg, s'') :=
          match s' with
          | String "-" t => (true, t)
          | String "+" t => (false, t)
          | _ => (false, s')
          end in
        let '(e, ne, _) := readDigits s'' 0%Z 0%nat in
        match ne with
        | O => 1
        | S _ => if neg then 1 # Z.to_pos (pow10 (Z.to_nat e))
                 else inject_Z (pow10 (Z.to_nat e))
        end
      else 1
  | EmptyString => 1
  end.

(** [StrUnsignedDecimalLiteral], longest prefix *)
Definition parseUnsigned (s : string) : number :=
  if prefix "Infinity" s then PInf
  else
    let '(ip, ni, r1) := readDigits s 0%Z 0%nat in
    let '(fp, nf, r2) :=
      match r1 with
      | String "." t => readDigits t 0%Z 0%nat
      | _ => (0%Z, 0%nat, r1)
      end in
    match ni, nf with
    | O, O => NaN
    | _, _ =>
        Fin (Qred ((inject_Z ip + (fp # Z.to_pos (pow10 nf))) * readExponent r2))
    end.

Definition neg (x : number) : number :=
  match x with
  | Fin a => Fin (Qred (- a))
  | PInf => NInf
  | NInf => PInf
  | NaN => NaN
  end.

(** [parseFloat] on a string: leading white space is skipped, the longest
    prefix that is a decimal literal is read, [NaN] when there is none. *)
Definition parseFloat (s : string) : number :=
  match trimStart s with
  | String "-" t => neg (parseUnsigned t)
  | String "+" t => parseUnsigned t
  | t => parseUnsigned t
  end.

Definition string_of_Z (z : Z) : string :=
  NilZero.string_of_uint (N.to_uint (Z.to_N z)).

Fixpoint padStart (width : nat) (s : string) : string :=
  if (String.length s <? width)%nat then
    match width with
    | O => s
    | S w => String "0" (padStart w s)
    end
  else s.

(** [x.toFixed(digits)] in fixed notation: [n] is the integer with
    [n / 10^digits] closest to [|x|], the larger one on a tie.  (From
    [10^21] on JavaScript prints the exponent form of the binary64 value,
    which reads back as the same number; the model keeps fixed notation.) *)
Definition toFixed (digits : nat) (x : number) : string :=
  match x with
  | NaN => "NaN"
  | PInf => "Infinity"
  | NInf => "-Infinity"
  | Fin a =>
      let s := if Qle_bool 0 a then "" else "-" in
      let n := Qfloor (Qabs a * inject_Z (pow10 digits) + (1 # 2)) in
      let ip := string_of_Z (n / pow10 digits) in
      match digits with
      | O => s ++ ip
      | S _ => s ++ ip ++ "." ++ padStart digits (string_of_Z (n mod pow10 digits))
      end
  end.

(** [s.toUpperCase()] on ASCII letters *)
Definition upcase (c : ascii) : ascii :=
  let n := nat_of_ascii c in
  if ((97 <=? n) && (n <=? 122))%nat then ascii_of_nat (n - 32) else c.

Fixpoint toUpperCase (s : string) : string :=
  match s with
  | String c s' => String (upcase c) (toUpperCase s')
  | EmptyString => EmptyString
  end.

(** [s.split(sep)[0]] for a one-character separator *)
Fixpoint splitHead (sep : ascii) (s : string) : string :=
  match s with
  | String c s' => if Ascii.eqb c sep then EmptyString else String c (splitHead sep s')
  | EmptyString => EmptyString
  end.

Fixpoint drop (n : nat) (s : string) : string :=
  match n, s with
  | S n', String _ s' => drop n' s'
  | _, _ => s
  end.

(** [s.replace(pat, by)] with a string pattern: the first occurrence only *)
Fixpoint replace (pat by_ s : string) : string :=
  if prefix pat s then by_ ++ drop (String.length pat) s
  else match s with
       | String c s' => String c (replace pat by_ s')
       | EmptyString => EmptyString
       end.

(** [s.includes(pat)] *)
Fixpoint includes (pat s : string) : bool :=
  if prefix pat s then true
  else match s with
       | String _ s' => includes pat s'
       | EmptyString => false
       end.

(** ** Loosely typed values in an order acknowledgement *)

Inductive value : Type :=
| VUndefined
| VNull
| VBool (b : bool)
| VNum (x : number)
| VStr (s : string)
| VObj.

(** [ToBoolean] *)
Definition truthy (v : value) : bool :=
  match v with
  | VUndefined | VNull => false
  | VBool b => b
  | VNum x => match x with
              | Fin a => negb (Qeq_bool a 0)
              | NaN => false
              | _ => true
              end
  | VStr s => negb (String.eqb s "")
  | VObj => true
  end.

(** [v === 'lit'] and [v !== 'lit'] against a string literal *)
Definition isStr (lit : string) (v : value) : bool :=
  match v with VStr s => String.eqb s lit | _ => false end.

(** ** Thrown values *)

Inductive thrown : Type :=
| Error (message : string)
| Other (v : value).

(** [error instanceof Error ? error.message : 'Unknown error'] *)
Definition messageOf (e : thrown) : string :=
  match e with
  | Error m => m
  | Other _ => "Unknown error"
  end.

End JS.
Export JS.

(* ================================================================== *)
(** * Data of [server.ts] and of the exchange client *)
(* ================================================================== *)

Inductive Side : Type := LONG | SHORT.

(** [interface Position] *)
Record Position : Type := {
  coin : string;
  side : Side;
  size : number;
  entryPrice : number;
  unrealizedPnl : number;
  leverage : number
}.

(** [interface WebhookPayload]; [order], [position] and [prevPosition]
    arrive as strings of the request body. *)
Record WebhookPayload : Type := {
  exchange : string;
  strategy : string;
  market : string;
  sizeByLeverage : number;
  reverse : bool;
  order : string;
  position : string;
  prevPosition : string;
  price : string
}.

(** An element [assetPos.position] of [userState.assetPositions] *)
Record AssetPosition : Type := {
  pos_coin : string;
  szi : string;
  entryPx : string;
  pos_unrealizedPnl : string;
  leverage_value : number
}.

(** The answer of [getClearinghouseState], with the two fields of
    [marginSummary] that are read. *)
Record ClearinghouseState : Type := {
  assetPositions : list AssetPosition;
  accountValue : string;
  totalMarginUsed : string
}.

(** The literal passed to [sdk.exchange.placeOrder] *)
Record OrderRequest : Type := {
  order_coin : string;
  is_buy : bool;
  sz : number;
  limit_px : number;
  tif : string;
  reduce_only : bool
}.

(** One element of [statuses] *)
Record OrderStatus : Type := {
  filled : value;
  status : value
}.

(** The answer of [placeOrder]; [statuses] is
    [result.response?.data?.statuses], [None] when a link is missing. *)
Record OrderResult : Type := {
  statuses : option (list OrderStatus)
}.

(** An awaited promise of a collaborator resolves or rejects. *)
Inductive reply (A : Type) : Type :=
| Resolved (a : A)
| Rejected (e : thrown).
Arguments Rejected {A} e.

(** What the process did to the outside, in order, with what came back. *)
Inductive Event : Type :=
| EvConnect (r : reply unit)
| EvGetClearinghouseState (address : string) (r : reply ClearinghouseState)
| EvGetAllMids (r : reply (list (string * string)))
| EvUpdateLeverage (c mode : string) (lev : number) (r : reply unit)
| EvPlaceOrder (req : OrderRequest) (r : reply OrderResult)
| EvSleep (ms : Z)
| EvTradeAlert (payload : WebhookPayload) (filledSize : number)
| EvErrorAlert (payload : WebhookPayload) (message : string).

(** The surroundings: two variables of [process.env], the address the
    [ethers] wallet derives from a key, and the exchange, whose answers may
    depend on everything that happened before. *)
Record Env : Type := {
  HYPERLIQUID_PRIVATE_KEY : option string;
  DISCORD_WEBHOOK_URL : option string;
  Wallet_address : option string -> reply string;
  connect : list Event -> reply unit;
  getClearinghouseState : list Event -> string -> reply ClearinghouseState;
  getAllMids : list Event -> reply (list (string * string));
  updateLeverage : list Event -> string -> string -> number -> reply unit;
  placeOrder : list Event -> OrderRequest -> reply OrderResult
}.

(** The module's [let] variables and the history of external calls. *)
Record World : Type := {
  hyperliquidSDK : bool;
  walletAddress : string;
  history : list Event
}.

(* ================================================================== *)
(** * Computations *)
(* ================================================================== *)

Inductive completion (A : Type) : Type :=
| Normal (a : A)
| Throw (e : thrown)
| Diverge.
Arguments Throw {A} e.
Arguments Diverge {A}.

Definition M (A : Type) : Type := World -> completion A * World.

Definition ret {A} (a : A) : M A := fun w => (Normal a, w).

Definition throw {A} (e : thrown) : M A := fun w => (Throw e, w).

Definition diverge {A} : M A := fun w => (Diverge, w).

Definition bind {A B} (m : M A) (k : A -> M B) : M B :=
  fun w =>
    match m w with
    | (Normal a, w') => k a w'
    | (Throw e, w') => (Throw e, w')
    | (Diverge, w') => (Diverge, w')
    end.

(** [try { body } catch (error) { handler }] *)
Definition tryCatch {A} (body : M A) (handler : thrown -> M A) : M A :=
  fun w =>
    match body w with
    | (Throw e, w') => handler e w'
    | r => r
    end.

Declare Scope js_scope.
Delimit Scope js_scope with js.
Notation "x <- m ;; k" := (bind m (fun x => k))
  (at level 61, m at next level, right associativity) : js_scope.
Notation "m ;; k" := (bind m (fun _ => k))
  (at level 61, right associativity) : js_scope.
Open Scope js_scope.

Definition record (e : Event) (w : World) : World :=
  {| hyperliquidSDK := hyperliquidSDK w;
     walletAddress := walletAddress w;
     history := history w ++ [e] |}.

(** [await] of a call to a collaborator *)
Definition await {A} (ask : list Event -> reply A) (ev : reply A -> Event) : M A :=
  fun w =>
    let r := ask (history w) in
    match r with
    | Resolved a => (Normal a, record (ev r) w)
    | Rejected e => (Throw e, record (ev r) w)
    end.

(** [await new Promise(resolve => setTimeout(resolve, ms))] *)
Definition sleep (ms : Z) : M unit := fun w => (Normal tt, record (EvSleep ms) w).

Definition emit (e : Event) : M unit := fun w => (Normal tt, record e w).

Definition when (b : bool) (m : M unit) : M unit := if b then m else ret tt.

Definition truthyString (s : option string) : bool :=
  match s with
  | Some s => negb (String.eqb s "")
  | None => false
  end.

(* ================================================================== *)
(** * The functions of [server.ts] *)
(* ================================================================== *)

Local Open Scope string_scope.

(** [convertMarketToCoin]: [BTC_USD] becomes [BTC-PERP] *)
Definition convertMarketToCoin (market : string) : string :=
  let coin := toUpperCase (splitHead "_"%char market) in
  coin ++ "-PERP".

(** [calculatePositionSize] *)
Definition calculatePositionSize (availableBalance leverage marketPrice : number) : number :=
  let positionValue := mul availableBalance leverage in
  let size := div positionValue marketPrice in
  div (Math_round (mul size (Fin 10000))) (Fin 10000).

(** [determineAction].  Inside the branches for ['long'] and ['short'] the
    two tests on [currentPosition.side] cover the type of [side], so the
    fall-through to the statements below them is not taken. *)
Definition determineAction (desiredPosition : string)
    (currentPosition : option Position) : string :=
  if String.eqb desiredPosition "flat" then
    match currentPosition with
    | Some _ => "CLOSE"
    | None => "NONE"
    end
  else if String.eqb desiredPosition "long" then
    match currentPosition with
    | None => "OPEN_LONG"
    | Some p =>
        match side p with
        | LONG => "NONE"
        | SHORT => "REVERSE_TO_LONG"
        end
    end
  else if String.eqb desiredPosition "short" then
    match currentPosition with
    | None => "OPEN_SHORT"
    | Some p =>
        match side p with
        | SHORT => "NONE"
        | LONG => "REVERSE_TO_SHORT"
        end
    end
  else "NONE".

Definition maxAttempts : nat := 3.

(** The test of [statuses.every(...)] on one element *)
Definition legFilled (s : OrderStatus) : bool :=
  truthy (filled s)
  || isStr "filled" (status s)
  || (truthy (filled s) && negb (isStr "0" (filled s))).

Definition allFilled (sts : list OrderStatus) : bool := forallb legFilled sts.

Definition lookupMid (allMids : list (string * string)) (c : string) : option string :=
  match find (fun kv => String.eqb (fst kv) c) allMids with
  | Some kv => Some (snd kv)
  | None => None
  end.

(** [parseFloat(allMids[coin])]; a missing key reads [undefined] *)
Definition midPrice (allMids : list (string * string)) (c : string) : number :=
  match lookupMid allMids c with
  | Some s => parseFloat s
  | None => NaN
  end.

Section Server.

Variable env : Env.

Definition getWalletAddress : M string := fun w => (Normal (walletAddress w), w).

Definition setWalletAddress (a : string) : M unit :=
  fun w => (Normal tt, {| hyperliquidSDK := hyperliquidSDK w;
                          walletAddress := a;
                          history := history w |}).

Definition setHyperliquidSDK : M unit :=
  fun w => (Normal tt, {| hyperliquidSDK := true;
                          walletAddress := walletAddress w;
                          history := history w |}).

(** [new Wallet(key).address], a computation of the process itself *)
Definition newWallet (key : option string) : M string :=
  match Wallet_address env key with
  | Resolved a => ret a
  | Rejected e => throw e
  end.

(** [getHyperliquidClient] *)
Definition getHyperliquidClient : M unit :=
  fun w =>
    if hyperliquidSDK w then ret tt w
    else
      let privateKey := HYPERLIQUID_PRIVATE_KEY env in
      if negb (truthyString privateKey) then
        throw (Error "HYPERLIQUID_PRIVATE_KEY not configured") w
      else
        (setHyperliquidSDK ;;
         await (connect env) EvConnect ;;
         address <- newWallet privateKey ;;
         setWalletAddress address) w.

(** The guard [if (!walletAddress) { ... }] shared by the readers *)
Definition ensureWalletAddress : M unit :=
  a <- getWalletAddress ;;
  if String.eqb a "" then
    address <- newWallet (HYPERLIQUID_PRIVATE_KEY env) ;;
    setWalletAddress address
  else ret tt.

(** [getCurrentPosition] *)
Definition getCurrentPosition (coin : string) : M (option Position) :=
  getHyperliquidClient ;;
  ensureWalletAddress ;;
  a <- getWalletAddress ;;
  userState <- await (fun h => getClearinghouseState env h a)
                     (EvGetClearinghouseState a) ;;
  let coinBase := replace "-PERP" "" coin in
  match find (fun assetPos => String.eqb (pos_coin assetPos) coinBase)
             (assetPositions userState) with
  | None => ret None
  | Some pos =>
      let size := parseFloat (szi pos) in
      if strictEq size (Fin 0) then ret None
      else
        ret (Some {| coin := pos_coin pos;
                     side := if gt size (Fin 0) then LONG else SHORT;
                     size := Math_abs size;
                     entryPrice := parseFloat (entryPx pos);
                     unrealizedPnl := parseFloat (pos_unrealizedPnl pos);
                     leverage := leverage_value pos |})
  end.

(** [getAvailableBalance] *)
Definition getAvailableBalance : M number :=
  getHyperliquidClient ;;
  ensureWalletAddress ;;
  a <- getWalletAddress ;;
  userState <- await (fun h => getClearinghouseState env h a)
                     (EvGetClearinghouseState a) ;;
  let accountValue := parseFloat (accountValue userState) in
  let marginUsed := parseFloat (totalMarginUsed userState) in
  let availableMargin := sub accountValue marginUsed in
  ret availableMargin.

(** [getMarketPrice] *)
Definition getMarketPrice (coin : string) : M number :=
  getHyperliquidClient ;;
  allMids <- await (getAllMids env) EvGetAllMids ;;
  ret (midPrice allMids coin).

(** One pass through the body of the [while] loop that [closePosition] and
    [openPosition] both contain; the two copies differ in the order they
    build from the fetched price.  [Some result] is the [return] of the
    enclosing function, [None] runs on to the loop test. *)
Definition attemptOrder (coin : string) (build : number -> OrderRequest)
    (attempt : nat) : M (option OrderResult) :=
  tryCatch
    (marketPrice <- getMarketPrice coin ;;
     let orderRequest := build marketPrice in
     result <- await (fun h => placeOrder env h orderRequest)
                     (EvPlaceOrder orderRequest) ;;
     match statuses result with
     | Some statuses =>
         if allFilled statuses then ret (Some result)
         else
           when (attempt <? maxAttempts)%nat (sleep 3000) ;;
           ret None
     | None =>
         when (attempt <? maxAttempts)%nat (sleep 1000) ;;
         ret None
     end)
    (fun error =>
       if (attempt <? maxAttempts)%nat then sleep 1000 ;; ret None
       else throw error).

(** [while (attempt < maxAttempts) { attempt++; ... }] followed by the
    [throw] after the loop; [kind] is the first word of its message. *)
Fixpoint orderLoop (fuel : nat) (kind coin : string)
    (build : number -> OrderRequest) (attempt : nat) : M OrderResult :=
  if (attempt <? maxAttempts)%nat then
    match fuel with
    | O => diverge
    | S fuel' =>
        let attempt := S attempt in
        r <- attemptOrder coin build attempt ;;
        match r with
        | Some result => ret result
        | None => orderLoop fuel' kind coin build attempt
        end
    end
  else
    throw (Error (kind ++ " order failed after "
                       ++ string_of_Z (Z.of_nat maxAttempts) ++ " attempts")).

Definition closeOrder (coin : string) (currentPosition : Position) (isBuy : bool)
    (marketPrice : number) : OrderRequest :=
  {| order_coin := coin;
     is_buy := isBuy;
     sz := size currentPosition;
     limit_px := marketPrice;
     tif := "Ioc";
     reduce_only := true |}.

Definition openOrder (coin : string) (isBuy : bool) (size : number)
    (marketPrice : number) : OrderRequest :=
  let limitPrice := parseFloat (toFixed 2 marketPrice) in
  {| order_coin := coin;
     is_buy := isBuy;
     sz := size;
     limit_px := limitPrice;
     tif := "Ioc";
     reduce_only := false |}.

(** [closePosition] *)
Definition closePosition (coin : string) (currentPosition : Position) : M unit :=
  getHyperliquidClient ;;
  let isBuy := match side currentPosition with SHORT => true | LONG => false end in
  orderLoop maxAttempts "Close" coin (closeOrder coin currentPosition isBuy) 0 ;;
  ret tt.

(** [openPosition] *)
Definition openPosition (coin : string) (isBuy : bool) (size leverage : number)
    : M OrderResult :=
  getHyperliquidClient ;;
  await (fun h => updateLeverage env h coin "cross" leverage)
        (EvUpdateLeverage coin "cross" leverage) ;;
  orderLoop maxAttempts "Open" coin (openOrder coin isBuy size) 0.

(** [executeLong] and [executeShort]; the result is the [size] field of the
    object they return. *)
Definition executeLong (coin : string) (leverage : number) : M number :=
  availableBalance <- getAvailableBalance ;;
  marketPrice <- getMarketPrice coin ;;
  let size := calculatePositionSize availableBalance leverage marketPrice in
  openPosition coin true size leverage ;;
  ret size.

Definition executeShort (coin : string) (leverage : number) : M number :=
  availableBalance <- getAvailableBalance ;;
  marketPrice <- getMarketPrice coin ;;
  let size := calculatePositionSize availableBalance leverage marketPrice in
  openPosition coin false size leverage ;;
  ret size.

(** [discordWebhook] is an object exactly when the variable is set; its
    two methods catch whatever delivery raises, so each is one event that
    completes normally. *)
Definition discordWebhook : bool := truthyString (DISCORD_WEBHOOK_URL env).

Definition sendTradeAlert (payload : WebhookPayload) (filledSize : number) : M unit :=
  emit (EvTradeAlert payload filledSize).

Definition sendErrorAlert (payload : WebhookPayload) (message : string) : M unit :=
  emit (EvErrorAlert payload message).

(** The statements after the [switch], inside the [try] *)
Definition afterSwitch (payload : WebhookPayload) (orderResult : option number) : M unit :=
  match orderResult with
  | Some filledSize => when discordWebhook (sendTradeAlert payload filledSize)
  | None => ret tt
  end.

Definition closeIfHeld (coin : string) (currentPosition : option Position) : M unit :=
  match currentPosition with
  | Some p => closePosition coin p
  | None => ret tt
  end.

(** The [switch (action)] with what follows it in the [try] block; the
    case ['NONE'] returns from the function, a string no case names leaves
    [orderResult] at [null]. *)
Definition dispatch (payload : WebhookPayload) (coin : string)
    (currentPosition : option Position) (action : string) : M unit :=
  if String.eqb action "OPEN_LONG" then
    size <- executeLong coin (sizeByLeverage payload) ;;
    afterSwitch payload (Some size)
  else if String.eqb action "OPEN_SHORT" then
    size <- executeShort coin (sizeByLeverage payload) ;;
    afterSwitch payload (Some size)
  else if String.eqb action "CLOSE" then
    match currentPosition with
    | Some p =>
        closePosition coin p ;;
        afterSwitch payload (Some (size p))
    | None => afterSwitch payload None
    end
  else if String.eqb action "REVERSE_TO_LONG" then
    closeIfHeld coin currentPosition ;;
    size <- executeLong coin (sizeByLeverage payload) ;;
    afterSwitch payload (Some size)
  else if String.eqb action "REVERSE_TO_SHORT" then
    closeIfHeld coin currentPosition ;;
    size <- executeShort coin (sizeByLeverage payload) ;;
    afterSwitch payload (Some size)
  else if String.eqb action "NONE" then
    ret tt
  else afterSwitch payload None.

(** [executeTradeFromWebhook] *)
Definition executeTradeFromWebhook (payload : WebhookPayload) : M unit :=
  let coin := convertMarketToCoin (market payload) in
  currentPosition <- getCurrentPosition coin ;;
  let action := determineAction (position payload) currentPosition in
  tryCatch
    (dispatch payload coin currentPosition action)
    (fun error =>
       when discordWebhook (sendErrorAlert payload (messageOf error)) ;;
       throw error).

End Server.

(* ================================================================== *)
(** * The decider and the sizing rule in the specification's terms *)
(* ================================================================== *)

(** The desired positions a signal may name *)
Inductive Desired : Type := flat | long | short.

(** The closed enumeration of actions *)
Inductive Action : Type :=
| NONE | OPEN_LONG | OPEN_SHORT | CLOSE | REVERSE_TO_LONG | REVERSE_TO_SHORT.

Definition desiredName (d : Desired) : string :=
  match d with flat => "flat" | long => "long" | short => "short" end.

Definition actionName (a : Action) : string :=
  match a with
  | NONE => "NONE"
  | OPEN_LONG => "OPEN_LONG"
  | OPEN_SHORT => "OPEN_SHORT"
  | CLOSE => "CLOSE"
  | REVERSE_TO_LONG => "REVERSE_TO_LONG"
  | REVERSE_TO_SHORT => "REVERSE_TO_SHORT"
  end.

(** The table of section 4.1, cell by cell *)
Definition decideTable (d : Desired) (current : option Side) : Action :=
  match d, current with
  | flat, None => NONE
  | flat, Some LONG => CLOSE
  | flat, Some SHORT => CLOSE
  | long, None => OPEN_LONG
  | long, Some LONG => NONE
  | long, Some SHORT => REVERSE_TO_LONG
  | short, None => OPEN_SHORT
  | short, Some LONG => REVERSE_TO_SHORT
  | short, Some SHORT => NONE
  end.

(** The integer [Math.round] produces for the scaled quotient *)
Definition ticks (a l p : Q) : Z := Qfloor (a * l / p * 10000 + (1 # 2)).


(* ================================================================== *)
(** * The protocol of the retry loop, as the specification words it *)
(* ================================================================== *)

(** The wait after a failed attempt numbered [n]: none after the last. *)
Definition backoff (n : nat) (ms : Z) : list Event :=
  if (n <? maxAttempts)%nat then [EvSleep ms] else [].

(** What the attempt numbered [n] leaves in the history and how it ends:
    the price is fetched first and the order is built from it; an
    acknowledgement in which every leg is filled ends the operation; an
    acknowledgement with unfilled legs is followed by a wait of 3 s, one
    without statuses or an error by a wait of 1 s; an error in the last
    attempt is thrown on. *)
Inductive Attempt (c : string) (build : number -> OrderRequest) (n : nat)
  : list Event -> completion (option OrderResult) -> Prop :=
| price_failed e :
    Attempt c build n
      (EvGetAllMids (Rejected e) :: backoff n 1000)
      (if (n <? maxAttempts)%nat then Normal None else Throw e)
| submit_failed m e :
    Attempt c build n
      (EvGetAllMids (Resolved m)
         :: EvPlaceOrder (build (midPrice m c)) (Rejected e)
         :: backoff n 1000)
      (if (n <? maxAttempts)%nat then Normal None else Throw e)
| no_statuses m res :
    statuses res = None ->
    Attempt c build n
      (EvGetAllMids (Resolved m)
         :: EvPlaceOrder (build (midPrice m c)) (Resolved res)
         :: backoff n 1000)
      (Normal None)
| not_filled m res sts :
    statuses res = Some sts -> allFilled sts = false ->
    Attempt c build n
      (EvGetAllMids (Resolved m)
         :: EvPlaceOrder (build (midPrice m c)) (Resolved res)
         :: backoff n 3000)
      (Normal None)
| all_filled m res sts :
    statuses res = Some sts -> allFilled sts = true ->
    Attempt c build n
      [EvGetAllMids (Resolved m);
       EvPlaceOrder (build (midPrice m c)) (Resolved res)]
      (Normal (Some res)).

Definition exhaustedMessage (kind : string) : string :=
  kind ++ " order failed after 3 attempts".

(** The attempts after the first [n]: at most [maxAttempts] in all. *)
Inductive Attempts (kind c : string) (build : number -> OrderRequest)
  : nat -> list Event -> completion OrderResult -> Prop :=
| exhausted n :
    (maxAttempts <= n)%nat ->
    Attempts kind c build n [] (Throw (Error (exhaustedMessage kind)))
| returned n evs res :
    (n < maxAttempts)%nat ->
    Attempt c build (S n) evs (Normal (Some res)) ->
    Attempts kind c build n evs (Normal res)
| rethrown n evs e :
    (n < maxAttempts)%nat ->
    Attempt c build (S n) evs (Throw e) ->
    Attempts kind c build n evs (Throw e)
| retried n evs evs' r :
    (n < maxAttempts)%nat ->
    Attempt c build (S n) evs (Normal None) ->
    Attempts kind c build (S n) evs' r ->
    Attempts kind c build n (evs ++ evs')%list r.

(** ** Observations on a history *)

Definition orderReplies (evs : list Event) : list (reply OrderResult) :=
  flat_map (fun e => match e with EvPlaceOrder _ r => [r] | _ => [] end) evs.

Definition orderRequests (evs : list Event) : list OrderRequest :=
  flat_map (fun e => match e with EvPlaceOrder req _ => [req] | _ => [] end) evs.

Definition sleeps (evs : list Event) : list Z :=
  flat_map (fun e => match e with EvSleep ms => [ms] | _ => [] end) evs.

Definition priceFetches (evs : list Event) : nat :=
  length (filter (fun e => match e with EvGetAllMids _ => true | _ => false end) evs).

Definition leverageCalls (evs : list Event) : list (string * string * number) :=
  flat_map (fun e => match e with
                     | EvUpdateLeverage c mode lev _ => [(c, mode, lev)]
                     | _ => []
                     end) evs.

Definition alerts (evs : list Event) : list Event :=
  filter (fun e => match e with
                   | EvTradeAlert _ _ | EvErrorAlert _ _ => true
                   | _ => false
                   end) evs.

(** An acknowledgement came back and every leg in it is filled. *)
Definition fillsAll (r : reply OrderResult) : bool :=
  match r with
  | Resolved res =>
      match statuses res with
      | Some sts => allFilled sts
      | None => false
      end
  | Rejected _ => false
  end.


(** The submission completed, and not with every leg filled. *)
Definition completesUnfilled (r : reply OrderResult) : bool :=
  match r with
  | Resolved res =>
      match statuses res with
      | Some sts => negb (allFilled sts)
      | None => true
      end
  | Rejected _ => false
  end.

(** The wait the protocol prescribes after an event that fails an attempt *)
Definition backoffAfter (e : Event) : option Z :=
  match e with
  | EvGetAllMids (Rejected _) => Some 1000%Z
  | EvPlaceOrder _ (Rejected _) => Some 1000%Z
  | EvPlaceOrder _ (Resolved res) =>
      match statuses res with
      | None => Some 1000%Z
      | Some sts => if allFilled sts then None else Some 3000%Z
      end
  | _ => None
  end.

Definition filledOrder (e : Event) : bool :=
  match e with
  | EvPlaceOrder _ rep => fillsAll rep
  | _ => false
  end.

Definition succeeded {A} (r : completion A) : bool :=
  match r with Normal _ => true | _ => false end.

(** [P] holds of every event and the one that follows it. *)
Fixpoint eachPair (P : Event -> Event -> Prop) (evs : list Event) : Prop :=
  match evs with
  | e1 :: ((e2 :: _) as rest) => P e1 e2 /\ eachPair P rest
  | _ => True
  end.

(** An order directly follows the price fetch it is built from. *)
Definition pricedBefore (c : string) (build : number -> OrderRequest)
    (e1 e2 : Event) : Prop :=
  forall req rep, e2 = EvPlaceOrder req rep ->
    exists m, e1 = EvGetAllMids (Resolved m) /\ req = build (midPrice m c).

(** Nothing follows an order whose legs are all filled. *)
Definition lastWhenFilled (e1 e2 : Event) : Prop := filledOrder e1 = false.

(** A wait follows exactly the failed attempts, for the prescribed time. *)
Definition waitsAfter (e1 e2 : Event) : Prop :=
  (forall ms, backoffAfter e1 = Some ms -> e2 = EvSleep ms) /\
  (forall ms, e2 = EvSleep ms -> backoffAfter e1 = Some ms).

(** A run starts with neither an order nor a wait. *)
Definition startsClean (evs : list Event) : Prop :=
  match evs with
  | EvPlaceOrder _ _ :: _ | EvSleep _ :: _ => False
  | _ => True
  end.


(** What the specification asks of the events [evs] of one executor call
    that ended with success [ok]. *)
Definition RetryDiscipline (c : string) (build : number -> OrderRequest)
    (evs : list Event) (ok : bool) : Prop :=
  startsClean evs /\
  eachPair (pricedBefore c build) evs /\
  eachPair lastWhenFilled evs /\
  eachPair waitsAfter evs /\
  ok = existsb filledOrder evs.

(** [isBuy] of [closePosition]: sell a long, buy back a short *)
Definition closesWithBuy (p : Position) : bool :=
  match side p with SHORT => true | LONG => false end.

(** The completion of a call whose value is dropped *)
Definition unitOf {A} (r : completion A) : completion unit :=
  match r with
  | Normal _ => Normal tt
  | Throw e => Throw e
  | Diverge => Diverge
  end.

(** The common body of [executeLong] and [executeShort] *)
Definition executeOpen (env : Env) (isBuy : bool) (c : string) (lev : number)
    : M number :=
  availableBalance <- getAvailableBalance env ;;
  marketPrice <- getMarketPrice env c ;;
  let size := calculatePositionSize availableBalance lev marketPrice in
  openPosition env c isBuy size lev ;;
  ret size.

(** Events that are neither an order, a leverage call nor an alert *)
Definition quiet (evs : list Event) : Prop :=
  orderRequests evs = [] /\ leverageCalls evs = [] /\ alerts evs = [].

(** An order that opens a position in direction [isBuy] *)
Definition opens (isBuy : bool) (req : OrderRequest) : Prop :=
  reduce_only req = false /\ is_buy req = isBuy.

(** An order that closes the held position [p]: reduce-only, for its whole
    size, on the opposite side *)
Definition closes (p : Position) (req : OrderRequest) : Prop :=
  reduce_only req = true /\ sz req = size p /\ is_buy req = closesWithBuy p.

(** What the notification sink receives after the dispatch ended with [ro] *)
Definition notice (env : Env) (payload : WebhookPayload) (ro : completion number)
    : list Event :=
  match ro with
  | Normal filledSize =>
      if discordWebhook env then [EvTradeAlert payload filledSize] else []
  | Throw e =>
      if discordWebhook env then [EvErrorAlert payload (messageOf e)] else []
  | Diverge => []
  end.

(* ================================================================== *)
(** * Sample surroundings *)
(* ================================================================== *)

(** A fresh process: no client yet, no address, nothing done. *)
Definition world0 : World :=
  {| hyperliquidSDK := false; walletAddress := ""; history := [] |}.

Definition shortBTC : AssetPosition :=
  {| pos_coin := "BTC";
     szi := "-1.2";
     entryPx := "50000";
     pos_unrealizedPnl := "3.5";
     leverage_value := Fin 2 |}.

(** The position [getCurrentPosition] reads from [shortBTC] *)
Definition heldShort : Position :=
  {| coin := "BTC";
     side := SHORT;
     size := Fin (6 # 5);
     entryPrice := Fin 50000;
     unrealizedPnl := Fin (7 # 2);
     leverage := Fin 2 |}.

(** A holding whose size field is not a number *)
Definition unparsedBTC : AssetPosition :=
  {| pos_coin := "BTC";
     szi := "n/a";
     entryPx := "50000";
     pos_unrealizedPnl := "0";
     leverage_value := Fin 2 |}.

Definition unfilledAck : OrderResult :=
  {| statuses := Some [{| filled := VUndefined; status := VUndefined |}] |}.

Definition filledAck : OrderResult :=
  {| statuses := Some [{| filled := VObj; status := VUndefined |}] |}.

Definition statusesOf (res : OrderResult) : list OrderStatus :=
  match statuses res with Some sts => sts | None => [] end.

(** An exchange that holds [holdings] for the account, quotes [mid] for
    [BTC-PERP] and fills an order once [fillFrom] orders were placed
    before it, never when [fillFrom] is [None]. *)
Definition scripted (holdings : list AssetPosition) (mid : string)
    (fillFrom : option nat) : Env :=
  {| HYPERLIQUID_PRIVATE_KEY := Some "0xkey";
     DISCORD_WEBHOOK_URL := Some "https://discord.example/hook";
     Wallet_address := fun _ => Resolved "0xabc";
     connect := fun _ => Resolved tt;
     getClearinghouseState := fun _ _ =>
       Resolved {| assetPositions := holdings;
                   accountValue := "10000";
                   totalMarginUsed := "0" |};
     getAllMids := fun _ => Resolved [("BTC-PERP", mid)];
     updateLeverage := fun _ _ _ _ => Resolved tt;
     placeOrder := fun h _ =>
       Resolved match fillFrom with
                | Some n => if (n <=? length (orderReplies h))%nat
                            then filledAck else unfilledAck
                | None => unfilledAck
                end |}.

Definition signal (desired : string) : WebhookPayload :=
  {| exchange := "hyperliquid";
     strategy := "Configuration 3";
     market := "BTC_USD";
     sizeByLeverage := Fin (5 # 2);
     reverse := false;
     order := "buy";
     position := desired;
     prevPosition := "flat";
     price := "50000" |}.

(* ================================================================== *)
(** * The endpoints of [server.ts] and the start-up report *)
(* ================================================================== *)

(** The parsed body of a request to [POST /].  The four fields the handler
    tests may be missing; a field that is present has the type the
    interface [WebhookPayload] declares. *)
Record RequestBody : Type := {
  body_exchange : option string;
  body_strategy : string;
  body_market : option string;
  body_sizeByLeverage : number;
  body_reverse : bool;
  body_order : option string;
  body_position : option string;
  body_prevPosition : string;
  body_price : string
}.

(** A field inside a template literal; a missing one prints [undefined]. *)
Definition templateOf (v : option string) : string :=
  match v with
  | Some s => s
  | None => "undefined"
  end.

Definition fieldOf (v : option string) : string :=
  match v with
  | Some s => s
  | None => ""
  end.

(** [const payload: WebhookPayload = req.body].  The handler passes the
    payload on only after the four fields were found present. *)
Definition payloadOf (body : RequestBody) : WebhookPayload :=
  {| exchange := fieldOf (body_exchange body);
     strategy := body_strategy body;
     market := fieldOf (body_market body);
     sizeByLeverage := body_sizeByLeverage body;
     reverse := body_reverse body;
     order := fieldOf (body_order body);
     position := fieldOf (body_position body);
     prevPosition := body_prevPosition body;
     price := body_price body |}.

(** The object given to [res.json]; the [timestamp] fields are left out. *)
Inductive ResponseBody : Type :=
| Succeeded (message : string)
| Failed (error : string)
| Listed (positions : list Position) (count : nat).

(** [res.status(code).json(body)]; [res.json(body)] answers with 200. *)
Record HttpResponse : Type := {
  statusCode : Z;
  json : ResponseBody
}.

(** [v !== 'lit'] for a field that may be missing *)
Definition differsFrom (lit : string) (v : option string) : bool :=
  match v with
  | Some s => negb (String.eqb s lit)
  | None => true
  end.

(** The literal built from a holding, in [GET /positions] as in
    [getCurrentPosition] *)
Definition listedPosition (pos : AssetPosition) : Position :=
  let size := parseFloat (szi pos) in
  {| coin := pos_coin pos;
     side := if gt size (Fin 0) then LONG else SHORT;
     size := Math_abs size;
     entryPrice := parseFloat (entryPx pos);
     unrealizedPnl := parseFloat (pos_unrealizedPnl pos);
     leverage := leverage_value pos |}.

(** [assetPositions.filter(assetPos => parseFloat(assetPos.position.szi) !== 0)] *)
Definition activePositions (userState : ClearinghouseState) : list AssetPosition :=
  filter (fun assetPos => negb (strictEq (parseFloat (szi assetPos)) (Fin 0)))
         (assetPositions userState).

Section Endpoints.

Variable env : Env.

(** [app.post('/', ...)] *)
Definition postWebhook (body : RequestBody) : M HttpResponse :=
  tryCatch
    (if negb (truthyString (body_market body))
        || negb (truthyString (body_order body))
        || negb (truthyString (body_position body))
     then
       ret {| statusCode := 400;
              json := Failed "Missing required fields: market, order, or position" |}
     else if differsFrom "hyperliquid" (body_exchange body) then
       ret {| statusCode := 400;
              json := Failed ("Invalid exchange: " ++ templateOf (body_exchange body)
                                ++ ". Expected: hyperliquid") |}
     else
       executeTradeFromWebhook env (payloadOf body) ;;
       ret {| statusCode := 200; json := Succeeded "Trade executed successfully" |})
    (fun error => ret {| statusCode := 500; json := Failed (messageOf error) |}).

(** [app.get('/positions', ...)]: the address is read as it stands. *)
Definition getPositions : M HttpResponse :=
  tryCatch
    (getHyperliquidClient env ;;
     a <- getWalletAddress ;;
     userState <- await (fun h => getClearinghouseState env h a)
                        (EvGetClearinghouseState a) ;;
     let positions := map listedPosition (activePositions userState) in
     ret {| statusCode := 200; json := Listed positions (length positions) |})
    (fun error => ret {| statusCode := 500; json := Failed (messageOf error) |}).

(** [displayAccountInfo], run once when the server starts to listen: what
    it reads goes to the console only. *)
Definition displayAccountInfo : M unit :=
  tryCatch
    (getHyperliquidClient env ;;
     ensureWalletAddress env ;;
     a <- getWalletAddress ;;
     await (fun h => getClearinghouseState env h a) (EvGetClearinghouseState a) ;;
     ret tt)
    (fun _ => ret tt).

End Endpoints.

(** An exchange whose client cannot connect *)
Definition refusing : Env :=
  {| HYPERLIQUID_PRIVATE_KEY := Some "0xkey";
     DISCORD_WEBHOOK_URL := Some "https://discord.example/hook";
     Wallet_address := fun _ => Resolved "0xabc";
     connect := fun _ => Rejected (Error "connect refused");
     getClearinghouseState := fun _ _ =>
       Resolved {| assetPositions := [];
                   accountValue := "10000";
                   totalMarginUsed := "0" |};
     getAllMids := fun _ => Resolved [("BTC-PERP", "50000")];
     updateLeverage := fun _ _ _ _ => Resolved tt;
     placeOrder := fun _ _ => Resolved filledAck |}.

(** An exchange that holds a short, leaves two orders unfilled and
    rejects the third *)
Definition rejectingThird : Env :=
  {| HYPERLIQUID_PRIVATE_KEY := Some "0xkey";
     DISCORD_WEBHOOK_URL := Some "https://discord.example/hook";
     Wallet_address := fun _ => Resolved "0xabc";
     connect := fun _ => Resolved tt;
     getClearinghouseState := fun _ _ =>
       Resolved {| assetPositions := [shortBTC];
                   accountValue := "10000";
                   totalMarginUsed := "0" |};
     getAllMids := fun _ => Resolved [("BTC-PERP", "50000")];
     updateLeverage := fun _ _ _ _ => Resolved tt;
     placeOrder := fun h _ =>
       if (2 <=? length (orderReplies h))%nat
       then Rejected (Error "insufficient margin")
       else Resolved unfilledAck |}.

(** Surroundings without a private key *)
Definition unkeyed : Env :=
  {| HYPERLIQUID_PRIVATE_KEY := None;
     DISCORD_WEBHOOK_URL := Some "https://discord.example/hook";
     Wallet_address := fun _ => Rejected (Error "invalid private key");
     connect := fun _ => Resolved tt;
     getClearinghouseState := fun _ _ => Rejected (Error "unreachable");
     getAllMids := fun _ => Rejected (Error "unreachable");
     updateLeverage := fun _ _ _ _ => Rejected (Error "unreachable");
     placeOrder := fun _ _ => Rejected (Error "unreachable") |}.

(** The request body of the alert the repository documents *)
Definition sampleBody (desired : option string) : RequestBody :=
  {| body_exchange := Some "hyperliquid";
     body_strategy := "Configuration 3";
     body_market := Some "BTC_USD";
     body_sizeByLeverage := Fin (5 # 2);
     body_reverse := false;
     body_order := Some "buy";
     body_position := desired;
     body_prevPosition := "flat";
     body_price := "50000" |}.

(** ** More observations on a history *)

Definition connects (evs : list Event) : nat :=
  length (filter (fun e => match e with EvConnect _ => true | _ => false end) evs).

Definition stateReads (evs : list Event) : list string :=
  flat_map (fun e => match e with
                     | EvGetClearinghouseState a _ => [a]
                     | _ => []
                     end) evs.

(** The event is a call that was rejected with [e]. *)
Definition rejectedWith (e : thrown) (ev : Event) : Prop :=
  ev = EvGetAllMids (Rejected e) \/ exists req, ev = EvPlaceOrder req (Rejected e).

(** The events hold no alert but [last], which ends them. *)
Definition alertsAtEnd (evs last : list Event) : Prop :=
  exists front, evs = (front ++ last)%list /\ alerts front = [].

(** What a run of the [switch] adds to the history when the client is at
    hand: no connect; no alert when it fails; when it succeeds at most the
    trade alert, as the last event. *)
Definition dispatchOutcome (env : Env) (payload : WebhookPayload)
    (evs : list Event) (r : completion unit) : Prop :=
  connects evs = 0%nat /\
  match r with
  | Normal _ =>
      alertsAtEnd evs []
      \/ (discordWebhook env = true /\
          exists filledSize, alertsAtEnd evs [EvTradeAlert payload filledSize])
  | Throw _ => alerts evs = []
  | Diverge => False
  end.

(** The order [req] is one the branch of the [switch] for [action]
    places: a close of the held position, or an open in the direction the
    action names. *)
Definition orderOfAction (c : string) (cur : option Position) (action : string)
    (req : OrderRequest) : Prop :=
  (exists p px, cur = Some p /\ req = closeOrder c p (closesWithBuy p) px)
  \/ (exists size0 px,
        req = openOrder c true size0 px /\
        (action = "OPEN_LONG" \/ action = "REVERSE_TO_LONG"))
  \/ (exists size0 px,
        req = openOrder c false size0 px /\
        (action = "OPEN_SHORT" \/ action = "REVERSE_TO_SHORT")).

(** The order [req] is one the signal calls for: on instrument [c],
    immediate-or-cancel, and either reduce-only for the whole size of the
    position [cur] that is held, on the side that closes it, or not
    reduce-only on the side of the desired position. *)
Definition orderFollows (c : string) (cur : option Position) (desired : string)
    (req : OrderRequest) : Prop :=
  order_coin req = c /\ tif req = "Ioc" /\
  if reduce_only req then
    exists p, cur = Some p /\ sz req = size p /\ is_buy req = closesWithBuy p
  else
    (desired = "long" /\ is_buy req = true) \/ (desired = "short" /\ is_buy req = false).

(** The last event, when there is one *)
Definition final (evs : list Event) : option Event :=
  match rev evs with
  | e :: _ => Some e
  | [] => None
  end.

(** The request body is one the handler passes on to the orchestrator. *)
Definition wellFormed (body : RequestBody) : bool :=
  truthyString (body_market body)
  && truthyString (body_order body)
  && truthyString (body_position body)
  && negb (differsFrom "hyperliquid" (body_exchange body)).

(* ================================================================== *)
(** * [discordWebhook.ts] *)
(* ================================================================== *)

(** ** String methods the service uses *)

(** [s.endsWith(suffix)] *)
Definition endsWith (suffix s : string) : bool :=
  (String.length suffix <=? String.length s)%nat
  && String.eqb (drop (String.length s - String.length suffix) s) suffix.

(** [s.slice(0, -n)] *)
Definition sliceEnd (n : nat) (s : string) : string :=
  substring 0 (String.length s - n) s.

(** [s.replace(/[0-9]/g, '')] *)
Fixpoint removeDigits (s : string) : string :=
  match s with
  | String c s' =>
      match digitOf c with
      | Some _ => removeDigits s'
      | None => String c (removeDigits s')
      end
  | EmptyString => EmptyString
  end.

(** [s.replace(/c/g, by)] for a pattern of one literal character *)
Fixpoint replaceEach (c by_ : ascii) (s : string) : string :=
  match s with
  | String x s' => String (if Ascii.eqb x c then by_ else x) (replaceEach c by_ s')
  | EmptyString => EmptyString
  end.

Module Discord.

(** The [Response] of [fetch], as far as it is read; [response.ok] tells a
    status from 200 to 299. *)
Record Response : Type := {
  status : Z
}.

Definition ok (response : Response) : bool :=
  ((200 <=? status response) && (status response <=? 299))%Z.

Definition MAX_RETRIES : nat := 3.
Definition RETRY_DELAY_MS : Z := 1000.

(** [isEntryWebhook], [isExitWebhook], [getWebhookEmbedColor] *)
Definition isEntryWebhook (position : string) : bool :=
  String.eqb position "long" || String.eqb position "short".

Definition isExitWebhook (position : string) : bool :=
  String.eqb position "flat".

Definition getWebhookEmbedColor (isEntry : bool) (position : option string) : Z :=
  if isEntry then
    if negb (differsFrom "long" position) then 5763719%Z else 15548997%Z
  else 10070709%Z.

(** The loop [for (const sep of separators)] of [extractBaseToken] *)
Fixpoint splitAtFirst (separators : list ascii) (market : string) : option string :=
  match separators with
  | sep :: rest =>
      if includes (String sep EmptyString) market then Some (splitHead sep market)
      else splitAtFirst rest market
  | [] => None
  end.

(** [extractBaseToken] *)
Definition extractBaseToken (market : string) : string :=
  match splitAtFirst ["/"; "-"; "_"]%char market with
  | Some token => token
  | None =>
      if endsWith "USDC" (toUpperCase market) then sliceEnd 4 market
      else if endsWith "USDT" (toUpperCase market) then sliceEnd 4 market
      else if endsWith "USD" (toUpperCase market) then sliceEnd 3 market
      else substring 0 (String.length market / 2) (removeDigits market)
  end.

(** [getTokenEmoji]; [emojiMap[ticker] || ''] *)
Definition getTokenEmoji (market : string) : string :=
  let ticker := toUpperCase (substring 0 3 market) in
  if String.eqb ticker "BTC" then "<:btc:1373703264796672020>"
  else if String.eqb ticker "SOL" then "<:sol:1373702715389120633>"
  else if String.eqb ticker "ETH" then "<:eth:1373703078456590358>"
  else "".

(** [formatMarketPair] *)
Definition formatMarketPair (market : string) : string :=
  replaceEach "_" "/" market.

(** What the service did to the outside: the requests with what came back,
    and the waits. *)
Inductive Delivery (Payload : Type) : Type :=
| Fetch (url : string) (payload : Payload) (r : reply Response)
| Sleep (ms : Z).
Arguments Sleep {Payload} ms.

Section Service.

(** The bodies of the messages are built from the signal by template
    literals over [Intl] number formatting; the delivery does not look into
    them, and they are parameters here. *)
Variable Payload : Type.
Variable entryPayload exitPayload genericPayload : WebhookPayload -> number -> Payload.
Variable errorPayload : WebhookPayload -> string -> Payload.

(** [this.webhookUrl] and the answers of [fetch], which may depend on
    everything delivered before *)
Variable webhookUrl : string.
Variable fetch : list (Delivery Payload) -> string -> Payload -> reply Response.

Definition D (A : Type) : Type :=
  list (Delivery Payload) -> completion A * list (Delivery Payload).

(** [for (let attempt = 1; attempt <= this.MAX_RETRIES; attempt++)] with
    the [return null] behind it *)
Fixpoint retryFrom (fuel : nat) (payload : Payload) (attempt : nat)
    : D (option Response) :=
  fun h =>
    if (attempt <=? MAX_RETRIES)%nat then
      match fuel with
      | O => (Diverge, h)
      | S fuel' =>
          let r := fetch h webhookUrl payload in
          let h1 := (h ++ [Fetch webhookUrl payload r])%list in
          let again :=
            retryFrom fuel' payload (S attempt)
              (h1 ++ [Sleep (RETRY_DELAY_MS * Z.of_nat attempt)])%list in
          match r with
          | Resolved response =>
              if ok response then (Normal (Some response), h1)
              else if (attempt <? MAX_RETRIES)%nat && (500 <=? status response)%Z
              then again
              else (Normal (Some response), h1)
          | Rejected error =>
              if (attempt <? MAX_RETRIES)%nat then again
              else (Throw error, h1)
          end
      end
    else (Normal None, h).

(** [sendWebhookWithRetry] *)
Definition sendWebhookWithRetry (payload : Payload) : D (option Response) :=
  retryFrom MAX_RETRIES payload 1.

(** [sendEntryWebhook], [sendExitWebhook], [sendGenericWebhook]: each
    builds its payload and awaits the delivery, whose result it drops. *)
Definition deliver (payload : Payload) : D unit :=
  fun h => let '(r, h') := sendWebhookWithRetry payload h in (unitOf r, h').

(** [try { body } catch (error) { console.error(...) }] *)
Definition swallow (body : D unit) : D unit :=
  fun h =>
    match body h with
    | (Throw _, h') => (Normal tt, h')
    | r => r
    end.

(** [sendTradeAlert] *)
Definition sendTradeAlert (webhookPayload : WebhookPayload) (orderResult : number)
    : D unit :=
  fun h =>
    if String.eqb webhookUrl "" then (Normal tt, h)
    else
      swallow
        (if isEntryWebhook (position webhookPayload) then
           deliver (entryPayload webhookPayload orderResult)
         else if isExitWebhook (position webhookPayload) then
           deliver (exitPayload webhookPayload orderResult)
         else deliver (genericPayload webhookPayload orderResult)) h.

(** [sendErrorAlert] *)
Definition sendErrorAlert (webhookPayload : WebhookPayload) (error : string)
    : D unit :=
  fun h =>
    if String.eqb webhookUrl "" then (Normal tt, h)
    else swallow (deliver (errorPayload webhookPayload error)) h.

End Service.

(** ** Observations on what was delivered *)

Section Observations.
Variable Payload : Type.

Definition responses (ds : list (Delivery Payload)) : list (reply Response) :=
  flat_map (fun d => match d with Fetch _ _ r => [r] | Sleep _ => [] end) ds.

Definition payloads (ds : list (Delivery Payload)) : list Payload :=
  flat_map (fun d => match d with Fetch _ p _ => [p] | Sleep _ => [] end) ds.

Definition urls (ds : list (Delivery Payload)) : list string :=
  flat_map (fun d => match d with Fetch u _ _ => [u] | Sleep _ => [] end) ds.

Definition waits (ds : list (Delivery Payload)) : list Z :=
  flat_map (fun d => match d with Sleep ms => [ms] | Fetch _ _ _ => [] end) ds.

(** The answer asks for another try: a rejection, or a status from 500 on *)
Definition retriable (r : reply Response) : bool :=
  match r with
  | Resolved response => negb (ok response) && (500 <=? status response)%Z
  | Rejected _ => true
  end.

(** The answer to the last request, and those before it *)
Definition lastAnswer (ds : list (Delivery Payload)) : option (reply Response) :=
  match rev (responses ds) with
  | a :: _ => Some a
  | [] => None
  end.

Definition earlierAnswers (ds : list (Delivery Payload)) : list (reply Response) :=
  removelast (responses ds).

(** How the delivery ends on its last answer *)
Definition outcomeOf (a : reply Response) : completion (option Response) :=
  match a with
  | Resolved response => Normal (Some response)
  | Rejected e => Throw e
  end.

(** The waits between [n] requests: 1000 ms after the first, 2000 ms after
    the second *)
Definition linearBackoff (n : nat) : list Z :=
  map (fun k => RETRY_DELAY_MS * Z.of_nat k)%Z (seq 1 (n - 1)).

End Observations.

End Discord.

(* ================================================================== *)
(** * The model on sample arguments *)
(* ================================================================== *)

Example parseFloat_samples :
  map parseFloat ["50000"; "-1.2"; "0.0"; "  3.5e2x"; ".5"; "-Infinity"; "n/a"; ""]
  = [Fin 50000; Fin (-6 # 5); Fin 0; Fin 350; Fin (1 # 2); NInf; NaN; NaN].
Proof. reflexivity. Qed.

Example toFixed_samples :
  map (toFixed 2) [Fin (123456 # 1000); Fin (9 # 8); Fin (-9 # 8); Fin 3; NaN]
  = ["123.46"; "1.13"; "-1.13"; "3.00"; "NaN"].
Proof. reflexivity. Qed.

Example Math_round_samples :
  map Math_round [Fin (5 # 2); Fin (-5 # 2); Fin (12 # 5); PInf]
  = [Fin 3; Fin (-2); Fin 2; PInf].
Proof. reflexivity. Qed.

Example convertMarketToCoin_sample : convertMarketToCoin "btc_usd" = "BTC-PERP".
Proof. reflexivity. Qed.

Example allFilled_samples :
  map allFilled [[]; statusesOf filledAck; statusesOf unfilledAck;
                 [{| filled := VUndefined; status := VStr "filled" |}];
                 [{| filled := VObj; status := VUndefined |};
                  {| filled := VUndefined; status := VStr "resting" |}]]
  = [true; true; false; true; false].
Proof. reflexivity. Qed.

(** A signal for short with no position held: one leverage call, then one
    sell order that is not reduce-only, then the trade alert. *)
Example open_short_end_to_end :
  let run := executeTradeFromWebhook (scripted [] "50000" (Some 0%nat))
                                     (signal "short") world0 in
  fst run = Normal tt /\
  leverageCalls (history (snd run)) = [("BTC-PERP", "cross", Fin (5 # 2))] /\
  map (fun req => (is_buy req, sz req, reduce_only req))
      (orderRequests (history (snd run)))
  = [(false, Fin (1 # 2), false)] /\
  alerts (history (snd run)) = [EvTradeAlert (signal "short") (Fin (1 # 2))].
Proof. vm_compute. repeat split. Qed.

(** A signal for long with a short of 1.2 held: a reduce-only buy of 1.2,
    then a buy of the calculated size that is not reduce-only. *)
Example reverse_to_long_end_to_end :
  let run := executeTradeFromWebhook (scripted [shortBTC] "50000" (Some 0%nat))
                                     (signal "long") world0 in
  fst run = Normal tt /\
  map (fun req => (is_buy req, sz req, reduce_only req))
      (orderRequests (history (snd run)))
  = [(true, Fin (6 # 5), true); (true, Fin (1 # 2), false)].
Proof. vm_compute. repeat split. Qed.

(* ================================================================== *)
(** * Facts about numbers *)
(* ================================================================== *)

Lemma Qsgn_zero (q : Q) : Qsgn q = 0%Z <-> q == 0.
Proof.
  unfold Qsgn, Qeq. simpl. rewrite Z.sgn_null_iff. lia.
Qed.

Lemma Qsgn_pos (q : Q) : (exists p, Qsgn q = Zpos p) <-> 0 < q.
Proof.
  unfold Qsgn, Qlt; simpl. rewrite Z.mul_1_r. split.
  - intros [p H]. destruct (Qnum q); simpl in H; try discriminate; lia.
  - intros H. destruct (Qnum q) as [|n|n]; try lia. exists 1%positive. reflexivity.
Qed.

Lemma Qsgn_neg (q : Q) : (exists p, Qsgn q = Zneg p) <-> q < 0.
Proof.
  unfold Qsgn, Qlt; simpl. rewrite Z.mul_1_r. split.
  - intros [p H]. destruct (Qnum q); simpl in H; try discriminate; lia.
  - intros H. destruct (Qnum q) as [|n|n]; try lia. exists 1%positive. reflexivity.
Qed.

Lemma mul_Fin (a b : Q) : mul (Fin a) (Fin b) = Fin (Qred (a * b)).
Proof. reflexivity. Qed.

Lemma Math_round_Fin (a : Q) : Math_round (Fin a) = Fin (inject_Z (Qfloor (a + (1 # 2)))).
Proof. reflexivity. Qed.

Lemma div_Fin (a b : Q) : ~ b == 0 -> div (Fin a) (Fin b) = Fin (Qred (a / b)).
Proof.
  intros Hb. unfold div. destruct (Qsgn b) eqn:E; try reflexivity.
  apply Qsgn_zero in E. contradiction.
Qed.

Lemma div_Fin_zero (a b : Q) :
  b == 0 ->
  div (Fin a) (Fin b)
  = match Qsgn a with Z0 => NaN | Zpos _ => PInf | Zneg _ => NInf end.
Proof.
  intros Hb. apply Qsgn_zero in Hb. unfold div. rewrite Hb. reflexivity.
Qed.

Lemma calculatePositionSize_finite (a l p : Q) :
  ~ p == 0 ->
  calculatePositionSize (Fin a) (Fin l) (Fin p)
  = Fin (Qred (inject_Z (ticks a l p) / 10000)).
Proof.
  intros Hp. unfold calculatePositionSize, ticks.
  rewrite mul_Fin, div_Fin by exact Hp.
  rewrite mul_Fin, Math_round_Fin, div_Fin by discriminate.
  do 2 f_equal. f_equal. f_equal. apply Qfloor_comp.
  rewrite !Qred_correct. reflexivity.
Qed.

(** Rounding half up: the result lies within half a unit of the exact
    value, and on the upper side when both neighbours are as close. *)


Lemma calculatePositionSize_zero_price (a l : Q) :
  (0 < a * l -> calculatePositionSize (Fin a) (Fin l) (Fin 0) = PInf) /\
  (a * l < 0 -> calculatePositionSize (Fin a) (Fin l) (Fin 0) = NInf) /\
  (a * l == 0 -> calculatePositionSize (Fin a) (Fin l) (Fin 0) = NaN).
Proof.
  unfold calculatePositionSize. rewrite mul_Fin, div_Fin_zero by reflexivity.
  destruct (Qsgn (Qred (a * l))) eqn:E.
  - apply Qsgn_zero in E. rewrite Qred_correct in E.
    repeat split; intros H; try reflexivity; lra.
  - assert (H0 : 0 < Qred (a * l)) by (apply Qsgn_pos; eauto).
    rewrite Qred_correct in H0.
    repeat split; intros H; try reflexivity; lra.
  - assert (H0 : Qred (a * l) < 0) by (apply Qsgn_neg; eauto).
    rewrite Qred_correct in H0.
    repeat split; intros H; try reflexivity; lra.
Qed.

Lemma Qabs_zero_iff (q : Q) : Qabs q == 0 <-> q == 0.
Proof. apply Qabs_case; intros H; split; intros; lra. Qed.

Lemma Qabs_positive (q : Q) : ~ q == 0 -> 0 < Qabs q.
Proof.
  intros Hq. destruct (Qlt_le_dec 0 (Qabs q)) as [H|H]; [exact H|].
  exfalso. apply Hq. apply Qabs_zero_iff.
  pose proof (Qabs_nonneg q). lra.
Qed.

Lemma Qeq_bool_false (a b : Q) : Qeq_bool a b = false <-> ~ a == b.
Proof.
  split.
  - intros H E. apply Qeq_bool_iff in E. congruence.
  - intros H. apply not_true_is_false. intros E. apply Qeq_bool_iff in E. contradiction.
Qed.

Lemma strictEq_abs (x : number) :
  strictEq (Math_abs x) (Fin 0) = strictEq x (Fin 0).
Proof.
  destruct x as [q| | |]; try reflexivity.
  unfold Math_abs, strictEq.
  destruct (Qeq_bool q 0) eqn:E.
  - apply Qeq_bool_iff in E. apply Qeq_bool_iff.
    rewrite Qred_correct. apply Qabs_zero_iff, E.
  - apply Qeq_bool_false in E. apply Qeq_bool_false.
    rewrite Qred_correct. intros H. apply E, Qabs_zero_iff, H.
Qed.

Lemma gt_abs_zero (x : number) :
  x <> NaN -> strictEq x (Fin 0) = false -> gt (Math_abs x) (Fin 0) = true.
Proof.
  destruct x as [q| | |]; try reflexivity; [|congruence].
  intros _ E. unfold Math_abs, strictEq, gt in *.
  apply Qeq_bool_false in E. apply negb_true_iff.
  apply not_true_is_false. intros H. apply Qle_bool_iff in H.
  rewrite Qred_correct in H. pose proof (Qabs_positive E). lra.
Qed.

Lemma gt_zero_trichotomy (x : number) :
  x <> NaN -> strictEq x (Fin 0) = false ->
  (gt x (Fin 0) = false <-> gt (Fin 0) x = true).
Proof.
  destruct x as [q| | |]; try (intros; simpl; split; congruence).
  intros _ E. unfold strictEq, gt in *. apply Qeq_bool_false in E.
  rewrite negb_false_iff, negb_true_iff. split; intros H.
  - apply Qle_bool_iff in H. apply not_true_is_false. intros H'.
    apply Qle_bool_iff in H'. apply E. lra.
  - apply Qle_bool_iff. destruct (Qlt_le_dec 0 q) as [Hlt|Hle]; [|exact Hle].
    exfalso. assert (Qle_bool 0 q = true) by (apply Qle_bool_iff; lra). congruence.
Qed.

(* ================================================================== *)
(** * Facts about computations *)
(* ================================================================== *)

Section MonadLemmas.
Context {A B : Type}.

Lemma bind_Normal (m : M A) (k : A -> M B) w b w' :
  bind m k w = (Normal b, w') ->
  exists a w1, m w = (Normal a, w1) /\ k a w1 = (Normal b, w').
Proof.
  unfold bind. destruct (m w) as [[a|e|] w1]; intros H; try discriminate.
  exists a, w1. split; [reflexivity|exact H].
Qed.

Lemma bind_run (m : M A) (k : A -> M B) w r w' :
  bind m k w = (r, w') ->
  (exists a w1, m w = (Normal a, w1) /\ k a w1 = (r, w'))
  \/ (exists e, m w = (Throw e, w') /\ r = Throw e)
  \/ (m w = (Diverge, w') /\ r = Diverge).
Proof.
  unfold bind. destruct (m w) as [[a|e|] w1]; intros H.
  - left. exists a, w1. auto.
  - right. left. inversion H; subst. exists e. auto.
  - right. right. inversion H; subst. auto.
Qed.

End MonadLemmas.

Lemma await_run A (ask : list Event -> reply A) ev w r w' :
  await ask ev w = (r, w') ->
  w' = record (ev (ask (history w))) w /\
  r = match ask (history w) with Resolved a => Normal a | Rejected e => Throw e end.
Proof.
  unfold await. destruct (ask (history w)); intros H; inversion H; auto.
Qed.

Lemma ret_run A (a : A) w r w' : ret a w = (r, w') -> r = Normal a /\ w' = w.
Proof. unfold ret. intros H; inversion H; auto. Qed.

Lemma record_history e w : history (record e w) = (history w ++ [e])%list.
Proof. reflexivity. Qed.

Lemma record_sdk e w : hyperliquidSDK (record e w) = hyperliquidSDK w.
Proof. reflexivity. Qed.

(* ================================================================== *)
(** * The client *)
(* ================================================================== *)

Section Client.
Variable env : Env.

Lemma getHyperliquidClient_ready w :
  hyperliquidSDK w = true -> getHyperliquidClient env w = (Normal tt, w).
Proof. intros H. unfold getHyperliquidClient. rewrite H. reflexivity. Qed.

Lemma getHyperliquidClient_run w r w' :
  getHyperliquidClient env w = (r, w') ->
  exists cevs,
    history w' = (history w ++ cevs)%list /\
    (cevs = [] \/ exists rep, cevs = [EvConnect rep]) /\
    r <> Diverge /\
    (forall u, r = Normal u -> hyperliquidSDK w' = true).
Proof.
  unfold getHyperliquidClient.
  destruct (hyperliquidSDK w) eqn:Esdk.
  - intros H. apply ret_run in H as [-> ->]. exists []. rewrite app_nil_r.
    repeat split; auto. discriminate.
  - destruct (negb (truthyString (HYPERLIQUID_PRIVATE_KEY env))).
    + intros H. inversion H; subst. exists []. rewrite app_nil_r.
      repeat split; auto; discriminate.
    + unfold bind, setHyperliquidSDK, await, newWallet, setWalletAddress, ret, throw.
      cbn [history hyperliquidSDK walletAddress].
      destruct (connect env (history w)) as [[]|e];
        [destruct (Wallet_address env (HYPERLIQUID_PRIVATE_KEY env)) as [a|e]|];
        intros H; inversion H; subst; cbn;
        (eexists; split; [reflexivity|]; repeat split; eauto; discriminate).
Qed.

End Client.

(* ================================================================== *)
(** * The retry loop follows the protocol *)
(* ================================================================== *)

Section Loop.
Variable env : Env.

Lemma getMarketPrice_run c w :
  hyperliquidSDK w = true ->
  getMarketPrice env c w
  = match getAllMids env (history w) with
    | Resolved m => (Normal (midPrice m c), record (EvGetAllMids (Resolved m)) w)
    | Rejected e => (Throw e, record (EvGetAllMids (Rejected e)) w)
    end.
Proof.
  intros H. unfold getMarketPrice, bind.
  rewrite getHyperliquidClient_ready by exact H. unfold await.
  destruct (getAllMids env (history w)); reflexivity.
Qed.

Lemma attemptOrder_shape c build n w r w' :
  hyperliquidSDK w = true ->
  attemptOrder env c build n w = (r, w') ->
  exists evs,
    history w' = (history w ++ evs)%list /\
    hyperliquidSDK w' = true /\
    Attempt c build n evs r.
Proof.
  intros Hsdk. unfold attemptOrder, tryCatch, bind at 1.
  rewrite getMarketPrice_run by exact Hsdk.
  destruct (getAllMids env (history w)) as [m|e] eqn:Em.
  - unfold bind at 1, await.
    destruct (placeOrder env _ _) as [res|e] eqn:Ep.
    + destruct (statuses res) as [sts|] eqn:Es.
      * destruct (allFilled sts) eqn:Ef.
        -- intros H. apply ret_run in H as [-> ->].
           eexists. split; [|split; [exact Hsdk|eapply all_filled; eassumption]].
           rewrite !record_history, <- app_assoc. reflexivity.
        -- pose proof (not_filled c build n m res Es Ef) as HA.
           unfold backoff in HA. unfold when, bind, sleep, ret.
           destruct (n <? maxAttempts)%nat; intros H; inversion H; subst;
             (eexists; split; [|split; [exact Hsdk|exact HA]]);
             rewrite !record_history, <- !app_assoc; reflexivity.
      * pose proof (no_statuses c build n m res Es) as HA.
        unfold backoff in HA. unfold when, bind, sleep, ret.
        destruct (n <? maxAttempts)%nat; intros H; inversion H; subst;
          (eexists; split; [|split; [exact Hsdk|exact HA]]);
          rewrite !record_history, <- !app_assoc; reflexivity.
    + pose proof (submit_failed c build n m e) as HA.
      unfold backoff in HA. unfold bind, sleep, ret, throw.
      destruct (n <? maxAttempts)%nat; intros H; inversion H; subst;
        (eexists; split; [|split; [exact Hsdk|exact HA]]);
        rewrite !record_history, <- !app_assoc; reflexivity.
  - pose proof (price_failed c build n e) as HA.
    unfold backoff in HA. unfold bind, sleep, ret, throw.
    destruct (n <? maxAttempts)%nat; intros H; inversion H; subst;
      (eexists; split; [|split; [exact Hsdk|exact HA]]);
      rewrite !record_history, <- ?app_assoc; reflexivity.
Qed.

Lemma exhaustedMessage_eq kind :
  (kind ++ " order failed after " ++ string_of_Z (Z.of_nat maxAttempts) ++ " attempts")
  = exhaustedMessage kind.
Proof. reflexivity. Qed.

Lemma orderLoop_shape kind c build fuel : forall n w r w',
  hyperliquidSDK w = true ->
  (maxAttempts - n <= fuel)%nat ->
  orderLoop env fuel kind c build n w = (r, w') ->
  exists evs,
    history w' = (history w ++ evs)%list /\
    hyperliquidSDK w' = true /\
    Attempts kind c build n evs r.
Proof.
  induction fuel as [|fuel IH]; intros n w r w' Hsdk Hfuel.
  - cbn [orderLoop]. destruct (n <? maxAttempts)%nat eqn:En.
    + apply Nat.ltb_lt in En. lia.
    + apply Nat.ltb_ge in En. rewrite exhaustedMessage_eq.
      intros H. inversion H; subst. exists []. rewrite app_nil_r.
      repeat split; auto. constructor. exact En.
  - cbn [orderLoop]. destruct (n <? maxAttempts)%nat eqn:En.
    + apply Nat.ltb_lt in En. intros H.
      apply bind_run in H as [(a & w1 & Ha & H)|[(e & Ha & ->)|[Ha ->]]].
      * apply attemptOrder_shape in Ha as (evs & Hh & Hsdk1 & HA); [|exact Hsdk].
        destruct a as [res|].
        -- apply ret_run in H as [-> ->]. exists evs.
           repeat split; auto. apply returned; assumption.
        -- apply IH in H as (evs' & Hh' & Hsdk' & HAs); [|exact Hsdk1|lia].
           exists (evs ++ evs')%list. rewrite Hh', Hh, app_assoc.
           repeat split; auto. eapply retried; eassumption.
      * apply attemptOrder_shape in Ha as (evs & Hh & Hsdk1 & HA); [|exact Hsdk].
        exists evs. repeat split; auto. apply rethrown; assumption.
      * apply attemptOrder_shape in Ha as (evs & Hh & Hsdk1 & HA); [|exact Hsdk].
        exfalso. inversion HA; destruct (S n <? maxAttempts)%nat; discriminate.
    + apply Nat.ltb_ge in En. rewrite exhaustedMessage_eq.
      intros H. inversion H; subst. exists []. rewrite app_nil_r.
      repeat split; auto. constructor. exact En.
Qed.

End Loop.

(** Three attempts at most: a run of the protocol from attempt [0] is one of
    finitely many shapes, which the next tactic enumerates. *)

Ltac unroll_attempts :=
  repeat match goal with
  | H : Attempts _ _ _ _ _ _ |- _ =>
      inversion H; clear H; subst; try (exfalso; unfold maxAttempts in *; lia)
  | H : Attempt _ _ _ _ _ |- _ => inversion H; clear H; subst
  end.

Ltac use_statuses :=
  repeat match goal with
  | H : statuses ?res = _ |- _ => rewrite H in *; clear H
  | H : allFilled ?sts = _ |- _ => rewrite H in *; clear H
  end.

Lemma attempts_discipline kind c build evs r :
  Attempts kind c build 0 evs r ->
  match evs with EvGetAllMids _ :: _ => True | _ => False end /\
  eachPair (pricedBefore c build) evs /\
  eachPair lastWhenFilled evs /\
  eachPair waitsAfter evs /\
  succeeded r = existsb filledOrder evs /\
  r <> Diverge.
Proof.
  intros H. unroll_attempts.
  all: unfold backoff, pricedBefore, lastWhenFilled, waitsAfter; cbn.
  all: use_statuses; cbn.
  all: repeat split; intros; try discriminate; try congruence.
  all: try match goal with
           | H : EvPlaceOrder _ _ = EvPlaceOrder _ _ |- _ =>
               injection H as <- <-; eexists; split; reflexivity
           end.
Qed.

Lemma attempts_bounded kind c build evs r :
  Attempts kind c build 0 evs r ->
  (length (orderReplies evs) <= maxAttempts)%nat /\
  (length (sleeps evs) <= 2)%nat /\
  leverageCalls evs = [] /\
  alerts evs = [] /\
  Forall (fun req => exists px, req = build px) (orderRequests evs).
Proof.
  intros H. unroll_attempts.
  all: unfold backoff, maxAttempts; cbn.
  all: repeat split; try lia; repeat constructor; eauto.
Qed.

Lemma attempts_exhausted kind c build evs r :
  Attempts kind c build 0 evs r ->
  length (orderReplies evs) = maxAttempts ->
  forallb completesUnfilled (orderReplies evs) = true ->
  r = Throw (Error (exhaustedMessage kind)).
Proof.
  intros H. unroll_attempts.
  all: unfold backoff, maxAttempts; cbn.
  all: use_statuses; cbn.
  all: intros; try discriminate; try reflexivity.
Qed.


(* ================================================================== *)
(** * The two executors *)
(* ================================================================== *)

Section Executor.
Variable env : Env.

Lemma closePosition_shape c p w r w' :
  closePosition env c p w = (r, w') ->
  exists cevs,
    (cevs = [] \/ exists rep, cevs = [EvConnect rep]) /\
    ((exists e, r = Throw e /\ history w' = (history w ++ cevs)%list)
     \/ (exists evs r0,
           Attempts "Close" c (closeOrder c p (closesWithBuy p)) 0 evs r0 /\
           history w' = (history w ++ cevs ++ evs)%list /\
           hyperliquidSDK w' = true /\
           r = unitOf r0)).
Proof.
  unfold closePosition. intros H.
  apply bind_run in H as [(u & w1 & Hc & H)|[(e & Hc & ->)|[Hc ->]]].
  - apply getHyperliquidClient_run in Hc as (cevs & Hh & Hshape & _ & Hsdk).
    specialize (Hsdk u eq_refl).
    exists cevs. split; [exact Hshape|]. right.
    apply bind_run in H as [(res & w2 & Hl & H)|[(e & Hl & ->)|[Hl ->]]].
    + apply ret_run in H as [-> ->].
      apply orderLoop_shape in Hl as (evs & Hh' & Hsdk' & HA); [|exact Hsdk|lia].
      exists evs, (Normal res). rewrite Hh', Hh, app_assoc. auto.
    + apply orderLoop_shape in Hl as (evs & Hh' & Hsdk' & HA); [|exact Hsdk|lia].
      exists evs, (Throw e). rewrite Hh', Hh, app_assoc. auto.
    + apply orderLoop_shape in Hl as (evs & Hh' & Hsdk' & HA); [|exact Hsdk|lia].
      exists evs, Diverge. rewrite Hh', Hh, app_assoc. auto.
  - apply getHyperliquidClient_run in Hc as (cevs & Hh & Hshape & _ & _).
    exists cevs. split; [exact Hshape|]. left. eauto.
  - apply getHyperliquidClient_run in Hc as (cevs & Hh & Hshape & Hd & _).
    congruence.
Qed.

Lemma openPosition_shape c isBuy sz lev w r w' :
  openPosition env c isBuy sz lev w = (r, w') ->
  exists cevs,
    (cevs = [] \/ exists rep, cevs = [EvConnect rep]) /\
    ((exists e, r = Throw e /\ history w' = (history w ++ cevs)%list)
     \/ (exists e, r = Throw e /\
           history w' = (history w ++ cevs
                           ++ [EvUpdateLeverage c "cross" lev (Rejected e)])%list)
     \/ (exists evs,
           Attempts "Open" c (openOrder c isBuy sz) 0 evs r /\
           history w' = (history w ++ cevs
                           ++ EvUpdateLeverage c "cross" lev (Resolved tt) :: evs)%list /\
           hyperliquidSDK w' = true)).
Proof.
  unfold openPosition. intros H.
  apply bind_run in H as [(u & w1 & Hc & H)|[(e & Hc & ->)|[Hc ->]]].
  - apply getHyperliquidClient_run in Hc as (cevs & Hh & Hshape & _ & Hsdk).
    specialize (Hsdk u eq_refl).
    exists cevs. split; [exact Hshape|]. right.
    apply bind_run in H as [(u' & w2 & Hl & H)|[(e & Hl & ->)|[Hl ->]]];
      apply await_run in Hl as [Hw Hr];
      destruct (updateLeverage env (history w1) c "cross" lev) as [[]|e'] eqn:El;
      try discriminate.
    + right. subst w2.
      apply orderLoop_shape in H as (evs & Hh' & Hsdk' & HA); [|exact Hsdk|lia].
      exists evs. rewrite Hh', record_history, Hh, <- !app_assoc. auto.
    + left. injection Hr as <-. exists e. subst w'.
      rewrite record_history, Hh, <- app_assoc. auto.
  - apply getHyperliquidClient_run in Hc as (cevs & Hh & Hshape & _ & _).
    exists cevs. split; [exact Hshape|]. left. eauto.
  - apply getHyperliquidClient_run in Hc as (cevs & Hh & Hshape & Hd & _).
    congruence.
Qed.

End Executor.


Lemma setup_only_discipline c build cevs :
  (cevs = [] \/ exists rep, cevs = [EvConnect rep]) ->
  RetryDiscipline c build cevs false /\ orderReplies cevs = [] /\
  leverageCalls cevs = [] /\ sleeps cevs = [].
Proof.
  intros [->|[rep ->]]; unfold RetryDiscipline; cbn; auto 10.
Qed.

Lemma openPosition_ready env c isBuy sz lev w r w' :
  hyperliquidSDK w = true ->
  openPosition env c isBuy sz lev w = (r, w') ->
  exists rep after,
    history w' = (history w ++ EvUpdateLeverage c "cross" lev rep :: after)%list /\
    leverageCalls after = [] /\
    (forall e, rep = Rejected e -> after = [] /\ r = Throw e).
Proof.
  intros Hsdk. unfold openPosition, bind at 1.
  rewrite getHyperliquidClient_ready by exact Hsdk.
  unfold bind at 1, await.
  destruct (updateLeverage env (history w) c "cross" lev) as [[]|e] eqn:El.
  - intros H. apply orderLoop_shape in H as (evs & Hh & _ & HA);
      [|rewrite record_sdk; exact Hsdk|lia].
    exists (Resolved tt), evs. rewrite Hh, record_history, <- app_assoc.
    destruct (attempts_bounded HA) as (_ & _ & Hl & _).
    repeat split; auto; discriminate.
  - intros H. inversion H; subst. exists (Rejected e), [].
    rewrite record_history. repeat split; auto; congruence.
Qed.

(* ================================================================== *)
(** * The orchestrator *)
(* ================================================================== *)

Section Orchestrator.
Variable env : Env.

Lemma ensureWalletAddress_run w r w' :
  ensureWalletAddress env w = (r, w') ->
  history w' = history w /\ hyperliquidSDK w' = hyperliquidSDK w /\ r <> Diverge.
Proof.
  unfold ensureWalletAddress, bind, getWalletAddress, newWallet, setWalletAddress, ret, throw.
  destruct (String.eqb (walletAddress w) "");
    [destruct (Wallet_address env (HYPERLIQUID_PRIVATE_KEY env))|];
    intros H; inversion H; subst; cbn; repeat split; discriminate.
Qed.

Lemma getAvailableBalance_run w r w' :
  hyperliquidSDK w = true ->
  getAvailableBalance env w = (r, w') ->
  exists evs,
    history w' = (history w ++ evs)%list /\ quiet evs /\
    hyperliquidSDK w' = true /\ r <> Diverge.
Proof.
  intros Hsdk. unfold getAvailableBalance, bind at 1.
  rewrite getHyperliquidClient_ready by exact Hsdk.
  unfold bind at 1.
  destruct (ensureWalletAddress env w) as [[[]|e|] w1] eqn:E;
    apply ensureWalletAddress_run in E as (Hh & Hs & Hd).
  - unfold bind, getWalletAddress, await, ret.
    destruct (getClearinghouseState env (history w1) (walletAddress w1));
      intros H; inversion H; subst; cbn; rewrite Hh;
      (eexists; split; [reflexivity|]; repeat split; try congruence; discriminate).
  - intros H; inversion H; subst. exists []. rewrite app_nil_r, Hs.
    repeat split; auto; discriminate.
  - congruence.
Qed.

Lemma getMarketPrice_quiet c w r w' :
  hyperliquidSDK w = true ->
  getMarketPrice env c w = (r, w') ->
  exists evs,
    history w' = (history w ++ evs)%list /\ quiet evs /\
    hyperliquidSDK w' = true /\ r <> Diverge.
Proof.
  intros Hsdk. rewrite getMarketPrice_run by exact Hsdk.
  destruct (getAllMids env (history w)); intros H; inversion H; subst; cbn;
    (eexists; split; [reflexivity|]; repeat split; try assumption; discriminate).
Qed.



Lemma getCurrentPosition_ready c w cur w1 :
  getCurrentPosition env c w = (Normal cur, w1) -> hyperliquidSDK w1 = true.
Proof.
  unfold getCurrentPosition. intros H.
  apply bind_Normal in H as (u & w0 & Hc & H).
  apply getHyperliquidClient_run in Hc as (_ & _ & _ & _ & Hsdk).
  specialize (Hsdk u eq_refl).
  apply bind_Normal in H as (u' & w2 & He & H).
  apply ensureWalletAddress_run in He as (_ & Hs & _).
  apply bind_Normal in H as (a & w3 & Ha & H).
  unfold getWalletAddress in Ha. injection Ha as _ <-.
  apply bind_Normal in H as (st & w4 & Hst & H).
  apply await_run in Hst as [-> _].
  assert (w1 = record (EvGetClearinghouseState a
                         (getClearinghouseState env (history w2) a)) w2) as ->.
  { destruct (find _ _); [destruct (strictEq _ _)|];
      apply ret_run in H as [_ ->]; reflexivity. }
  rewrite record_sdk. congruence.
Qed.

Lemma getCurrentPosition_footprint c w cur w1 :
  getCurrentPosition env c w = (Normal cur, w1) ->
  exists evs,
    history w1 = (history w ++ evs)%list /\
    quiet evs /\ priceFetches evs = 0%nat /\ sleeps evs = [].
Proof.
  unfold getCurrentPosition. intros H.
  apply bind_Normal in H as (u & w0 & Hc & H).
  apply getHyperliquidClient_run in Hc as (cevs & Hh0 & Hshape & _ & _).
  apply bind_Normal in H as (u' & w2 & He & H).
  apply ensureWalletAddress_run in He as (Hh2 & _ & _).
  apply bind_Normal in H as (a & w3 & Ha & H).
  unfold getWalletAddress in Ha. injection Ha as _ <-.
  apply bind_Normal in H as (st & w4 & Hst & H).
  apply await_run in Hst as [-> _].
  assert (w1 = record (EvGetClearinghouseState a
                         (getClearinghouseState env (history w2) a)) w2) as ->.
  { destruct (find _ _); [destruct (strictEq _ _)|];
      apply ret_run in H as [_ ->]; reflexivity. }
  eexists. rewrite record_history, Hh2, Hh0, <- app_assoc.
  split; [reflexivity|].
  destruct Hshape as [->|[rep ->]]; cbn; repeat split.
Qed.


End Orchestrator.


(** With the action ['NONE'] the [switch] returns at once. *)
Lemma executeTrade_without_action env payload w cur w1 :
  getCurrentPosition env (convertMarketToCoin (market payload)) w = (Normal cur, w1) ->
  determineAction (position payload) cur = "NONE" ->
  executeTradeFromWebhook env payload w = (Normal tt, w1).
Proof.
  intros Hcur Hact. unfold executeTradeFromWebhook, bind.
  rewrite Hcur, Hact. reflexivity.
Qed.

Lemma determineAction_falls_through desiredPosition current :
  desiredPosition <> "flat" -> desiredPosition <> "long" -> desiredPosition <> "short" ->
  determineAction desiredPosition current = "NONE".
Proof.
  intros Hf Hl Hs. unfold determineAction.
  apply String.eqb_neq in Hf, Hl, Hs. rewrite Hf, Hl, Hs. reflexivity.
Qed.

(* ================================================================== *)
(** * The reconciliation decider *)
(* ================================================================== *)

(** C1.  For each desired position among flat, long and short and each
    current position (none, long or short), [determineAction] returns the
    action the table of section 4.1 gives for that cell.  The function is
    pure and total: it reads its two arguments and has no other outcome
    than the returned string. *)
Theorem determineAction_table (d : Desired) (current : option Position) :
  determineAction (desiredName d) current
  = actionName (decideTable d (option_map side current)).
Proof.
  destruct d, current as [[c [|] sz ep pnl lev]|]; reflexivity.
Qed.

(** C10.  For a desired position that is none of ['flat'], ['long'] and
    ['short'], [determineAction] returns ['NONE'] whatever the current
    position: an unrecognized value raises no error, and a signal that
    carries it ends, once the position is fetched, with no trade and no
    notification. *)
Theorem determineAction_unrecognized (desiredPosition : string) :
  desiredPosition <> "flat" -> desiredPosition <> "long" -> desiredPosition <> "short" ->
  (forall current, determineAction desiredPosition current = "NONE") /\
  (forall env (payload : WebhookPayload) w cur w1,
     position payload = desiredPosition ->
     getCurrentPosition env (convertMarketToCoin (market payload)) w = (Normal cur, w1) ->
     executeTradeFromWebhook env payload w = (Normal tt, w1)).
Proof.
  intros Hf Hl Hs. split.
  - intros current. apply determineAction_falls_through; assumption.
  - intros env payload w cur w1 Hpos Hcur.
    apply executeTrade_without_action with (cur := cur); [exact Hcur|].
    rewrite Hpos. apply determineAction_falls_through; assumption.
Qed.

(** The desired position ['sideways'] against a held short. *)
Lemma determineAction_unrecognized_witness :
  determineAction "sideways" (Some heldShort) = "NONE".
Proof.
  apply (@determineAction_unrecognized "sideways"); discriminate.
Defined.

(* ================================================================== *)
(** * The sizing calculator *)
(* ================================================================== *)

(** C2, as the code has it.  [calculatePositionSize] has no error case.
    At a market price of zero it returns [Infinity], [-Infinity] or [NaN],
    by the sign of balance times leverage.  At any other price, negative
    ones included, it returns a finite number, which is zero or negative
    when the exact quotient is.  [executeLong] and [executeShort] hand the
    number to [openPosition] as it is. *)
Theorem calculatePositionSize_never_fails :
  (forall a l : Q,
     (0 < a * l -> calculatePositionSize (Fin a) (Fin l) (Fin 0) = PInf) /\
     (a * l < 0 -> calculatePositionSize (Fin a) (Fin l) (Fin 0) = NInf) /\
     (a * l == 0 -> calculatePositionSize (Fin a) (Fin l) (Fin 0) = NaN)) /\
  (forall a l p : Q,
     ~ p == 0 ->
     exists q, calculatePositionSize (Fin a) (Fin l) (Fin p) = Fin q /\
               (a * l / p <= 0 -> q <= 0)) /\
  (forall env c lev w bal w1 px w2,
     getAvailableBalance env w = (Normal bal, w1) ->
     getMarketPrice env c w1 = (Normal px, w2) ->
     let size := calculatePositionSize bal lev px in
     executeLong env c lev w
     = (openPosition env c true size lev ;; ret size)%js w2 /\
     executeShort env c lev w
     = (openPosition env c false size lev ;; ret size)%js w2).
Proof.
  split; [exact calculatePositionSize_zero_price|]. split.
  - intros a l p Hp. eexists. split; [apply calculatePositionSize_finite; exact Hp|].
    intros Hx. rewrite Qred_correct.
    assert (H : (ticks a l p <= 0)%Z).
    { unfold ticks. change 0%Z with (Qfloor (1 # 2)). apply Qfloor_resp_le. lra. }
    rewrite Zle_Qle in H. change (inject_Z 0) with 0 in H.
    apply Qle_shift_div_r; [reflexivity|]. lra.
  - intros env c lev w bal w1 px w2 Hb Hp size.
    split.
    + unfold executeLong, bind at 1. rewrite Hb.
      unfold bind at 1. rewrite Hp. reflexivity.
    + unfold executeShort, bind at 1. rewrite Hb.
      unfold bind at 1. rewrite Hp. reflexivity.
Qed.

(** A zero price, and a negative balance at price 2. *)
Lemma calculatePositionSize_never_fails_witness :
  calculatePositionSize (Fin 1) (Fin 1) (Fin 0) = PInf /\
  exists q, calculatePositionSize (Fin (-1)) (Fin 1) (Fin 2) = Fin q /\ q <= 0.
Proof.
  destruct calculatePositionSize_never_fails as (Hzero & Hfinite & _).
  split.
  - apply (Hzero 1 1). reflexivity.
  - destruct (Hfinite (-1) 1 2) as (q & Hq & Hle); [discriminate|].
    exists q. split; [exact Hq|]. apply Hle. unfold Qle. simpl. lia.
Defined.

(** C2 as stated does not hold: with a price of zero, a price of -1 and a
    balance of -1 the calculator returns a number, and [executeLong] run
    against an exchange that quotes 0 completes after an order of size
    [Infinity] was placed. *)
Lemma calculatePositionSize_returns_on_bad_input :
  calculatePositionSize (Fin 10000) (Fin (5 # 2)) (Fin 0) = PInf /\
  calculatePositionSize (Fin 10000) (Fin (5 # 2)) (Fin (-1)) = Fin (-25000) /\
  calculatePositionSize (Fin (-1)) (Fin (5 # 2)) (Fin 50) = Fin (-1 # 20) /\
  let run := executeLong (scripted [] "0" (Some 0%nat)) "BTC-PERP" (Fin (5 # 2)) world0 in
  fst run = Normal PInf /\
  map sz (orderRequests (history (snd run))) = [PInf].
Proof. vm_compute. repeat split. Qed.




(* ================================================================== *)
(** * The position snapshot reader *)
(* ================================================================== *)

(** C9, as the code has it.  A position returned by [getCurrentPosition]
    never has size 0.  The result is computed from the snapshot the
    exchange returned last: no holding for the instrument, or a signed
    size that parses to 0, gives absence; any other signed size gives a
    position whose side is LONG exactly when the signed size is above 0;
    and when the signed size parses to a number the size is above 0 and
    the side is SHORT exactly when the signed size is below 0. *)
Theorem getCurrentPosition_never_zero env coin w cur w' :
  getCurrentPosition env coin w = (Normal cur, w') ->
  exists h a userState,
    history w' = (h ++ [EvGetClearinghouseState a (Resolved userState)])%list /\
    match find (fun assetPos => String.eqb (pos_coin assetPos) (replace "-PERP" "" coin))
               (assetPositions userState) with
    | None => cur = None
    | Some pos =>
        let raw := parseFloat (szi pos) in
        (strictEq raw (Fin 0) = true -> cur = None) /\
        (strictEq raw (Fin 0) = false -> exists p, cur = Some p) /\
        (forall p, cur = Some p ->
           strictEq (size p) (Fin 0) = false /\
           (side p = LONG <-> gt raw (Fin 0) = true) /\
           (raw <> NaN ->
              gt (size p) (Fin 0) = true /\
              (side p = SHORT <-> gt (Fin 0) raw = true)))
    end.
Proof.
  unfold getCurrentPosition. intros H.
  apply bind_Normal in H as (_ & w1 & _ & H).
  apply bind_Normal in H as (_ & w2 & _ & H).
  apply bind_Normal in H as (a & w3 & Ha & H).
  apply bind_Normal in H as (userState & w4 & Hst & H).
  apply await_run in Hst as [Hw4 Hr].
  destruct (getClearinghouseState env (history w3) a) as [st|e] eqn:Est; [|discriminate].
  injection Hr as Hr. subst userState.
  exists (history w3), a, st.
  destruct (find _ (assetPositions st)) as [pos|] eqn:Ef.
  - cbv zeta. destruct (strictEq (parseFloat (szi pos)) (Fin 0)) eqn:Ez;
      apply ret_run in H as [Hc ->]; injection Hc as ->.
    + split; [subst w4; reflexivity|].
      split; [reflexivity|]. split; [discriminate|]. discriminate.
    + split; [subst w4; reflexivity|].
      split; [discriminate|]. split; [eauto|].
      intros p [= <-]. cbn [size side].
      split; [rewrite strictEq_abs; exact Ez|].
      split.
      * destruct (gt (parseFloat (szi pos)) (Fin 0)); split; congruence.
      * intros Hnan. split; [apply gt_abs_zero; assumption|].
        rewrite <- (gt_zero_trichotomy Hnan Ez).
        destruct (gt (parseFloat (szi pos)) (Fin 0)); split; congruence.
  - apply ret_run in H as [Hc ->]. injection Hc as ->.
    split; [subst w4; reflexivity|reflexivity].
Qed.

(** A short of 1.2 BTC. *)
Lemma getCurrentPosition_never_zero_witness :
  let run := getCurrentPosition (scripted [shortBTC] "50000" None) "BTC-PERP" world0 in
  fst run = Normal (Some heldShort) /\
  strictEq (size heldShort) (Fin 0) = false /\
  gt (size heldShort) (Fin 0) = true /\
  (side heldShort = SHORT <-> gt (Fin 0) (parseFloat (szi shortBTC)) = true).
Proof.
  intros run. split; [vm_compute; reflexivity|].
  destruct (@getCurrentPosition_never_zero (scripted [shortBTC] "50000" None) "BTC-PERP"
              world0 (Some heldShort) (snd run))
    as (h & a & userState & Hh & Hheld); [vm_compute; reflexivity|].
  change (history (snd run))
    with ([EvConnect (Resolved tt)]
            ++ [EvGetClearinghouseState "0xabc"
                  (Resolved {| assetPositions := [shortBTC];
                               accountValue := "10000";
                               totalMarginUsed := "0" |})])%list in Hh.
  apply app_inj_tail in Hh as [_ Hev]. injection Hev as _ <-.
  destruct Hheld as (_ & _ & Hp).
  destruct (Hp heldShort eq_refl) as (Hnz & _ & Hnum).
  destruct Hnum as [Hpos Hshort]; [discriminate|].
  repeat split; try assumption; apply Hshort.
Defined.

(** C9 as stated does not hold: a holding whose size field does not parse
    is returned as a position of size [NaN], which is not above 0, on the
    side SHORT although its signed size is not below 0. *)
Lemma getCurrentPosition_unparsed_size :
  let run := getCurrentPosition (scripted [unparsedBTC] "50000" None) "BTC-PERP" world0 in
  parseFloat (szi unparsedBTC) = NaN /\
  exists p,
    fst run = Normal (Some p) /\
    size p = NaN /\
    gt (size p) (Fin 0) = false /\
    side p = SHORT /\
    gt (Fin 0) (parseFloat (szi unparsedBTC)) = false.
Proof.
  split; [reflexivity|]. eexists. vm_compute. repeat split.
Qed.

(* ================================================================== *)
(** * The order executor *)
(* ================================================================== *)

(** C6.  [openPosition] asks for the leverage once, before anything else
    than obtaining the client, so before every price fetch and every
    order; no second leverage call follows.  When the call is rejected
    nothing follows it at all and [openPosition] fails with the rejection.
    With the client at hand, as it is whenever the orchestrator opens, the
    leverage call is the first event.  (Without a client and without the
    means to obtain one, [openPosition] fails before it asks anything.) *)
Theorem leverage_before_orders env c isBuy sz lev w r w' :
  openPosition env c isBuy sz lev w = (r, w') ->
  (exists before,
     (before = [] \/ exists rep, before = [EvConnect rep]) /\
     ((history w' = (history w ++ before)%list /\ exists e, r = Throw e)
      \/ exists rep after,
           history w' = (history w ++ before
                           ++ EvUpdateLeverage c "cross" lev rep :: after)%list /\
           leverageCalls after = [] /\
           (forall e, rep = Rejected e -> after = [] /\ r = Throw e)))
  /\
  (hyperliquidSDK w = true ->
   exists rep after,
     history w' = (history w ++ EvUpdateLeverage c "cross" lev rep :: after)%list /\
     leverageCalls after = [] /\
     (forall e, rep = Rejected e -> after = [] /\ r = Throw e)).
Proof.
  intros H. split; [|intros Hsdk; eapply openPosition_ready; eassumption].
  apply openPosition_shape in H
    as (cevs & Hc & [(e & -> & Hh)|[(e & -> & Hh)|(evs & HA & Hh & _)]]);
    exists cevs; (split; [exact Hc|]).
  - left. eauto.
  - right. exists (Rejected e), []. split; [exact Hh|]. split; [reflexivity|].
    intros e' [= ->]. auto.
  - right. exists (Resolved tt), evs. split; [exact Hh|].
    destruct (attempts_bounded HA) as (_ & _ & Hl & _).
    split; [exact Hl|]. intros e' E. discriminate.
Qed.

(** An open of 0.5 BTC at leverage 2.5. *)
Lemma leverage_before_orders_witness :
  let run := openPosition (scripted [] "50000" (Some 0%nat)) "BTC-PERP" true
                          (Fin (1 # 2)) (Fin (5 # 2)) world0 in
  fst run = Normal filledAck /\
  exists before rep after,
    history (snd run)
    = (history world0 ++ before
         ++ EvUpdateLeverage "BTC-PERP" "cross" (Fin (5 # 2)) rep :: after)%list /\
    leverageCalls after = [].
Proof.
  intros run. split; [vm_compute; reflexivity|].
  destruct (@leverage_before_orders (scripted [] "50000" (Some 0%nat)) "BTC-PERP" true
              (Fin (1 # 2)) (Fin (5 # 2)) world0 (fst run) (snd run))
    as [(before & _ & [(_ & e & He)|(rep & after & Hh & Hl & _)]) _];
    [vm_compute; reflexivity|discriminate He|].
  exists before, rep, after. split; assumption.
Defined.



(** C3, as the code has it.  [closePosition] and [openPosition] never
    place a fourth order.  When three orders were placed and each
    completed without all legs filled, the call fails with the error
    ['Close order failed after 3 attempts'], respectively
    ['Open order failed after 3 attempts']: the message names the kind of
    action and nothing else. *)
Theorem retries_exhausted env c :
  (forall p w r w',
     closePosition env c p w = (r, w') ->
     exists evs,
       history w' = (history w ++ evs)%list /\
       (length (orderReplies evs) <= 3)%nat /\
       (length (orderReplies evs) = 3%nat ->
        forallb completesUnfilled (orderReplies evs) = true ->
        r = Throw (Error "Close order failed after 3 attempts")))
  /\
  (forall isBuy sz lev w r w',
     openPosition env c isBuy sz lev w = (r, w') ->
     exists evs,
       history w' = (history w ++ evs)%list /\
       (length (orderReplies evs) <= 3)%nat /\
       (length (orderReplies evs) = 3%nat ->
        forallb completesUnfilled (orderReplies evs) = true ->
        r = Throw (Error "Open order failed after 3 attempts"))).
Proof.
  split.
  - intros p w r w' H.
    apply closePosition_shape in H as (cevs & Hc & [(e & -> & Hh)|(evs & r0 & HA & Hh & _ & ->)]).
    + exists cevs. split; [exact Hh|].
      destruct (setup_only_discipline c (closeOrder c p (closesWithBuy p)) Hc)
        as (_ & Ho & _ & _).
      rewrite Ho. cbn. split; [lia|discriminate].
    + exists (cevs ++ evs)%list. split; [exact Hh|].
      assert (Ho : orderReplies (cevs ++ evs) = orderReplies evs)
        by (destruct Hc as [->|[rep ->]]; reflexivity).
      rewrite Ho. destruct (attempts_bounded HA) as (Hb & _).
      split; [exact Hb|]. intros Hlen Hall.
      rewrite (attempts_exhausted HA Hlen Hall). reflexivity.
  - intros isBuy sz lev w r w' H.
    apply openPosition_shape in H
      as (cevs & Hc & [(e & -> & Hh)|[(e & -> & Hh)|(evs & HA & Hh & _)]]).
    + exists cevs. split; [exact Hh|].
      destruct (setup_only_discipline c (openOrder c isBuy sz) Hc) as (_ & Ho & _ & _).
      rewrite Ho. cbn. split; [lia|discriminate].
    + eexists. split; [exact Hh|].
      destruct Hc as [->|[rep ->]]; cbn; (split; [lia|discriminate]).
    + eexists. split; [exact Hh|].
      assert (Ho : orderReplies (cevs ++ EvUpdateLeverage c "cross" lev (Resolved tt) :: evs)
                   = orderReplies evs)
        by (destruct Hc as [->|[rep ->]]; reflexivity).
      rewrite Ho. destruct (attempts_bounded HA) as (Hb & _).
      split; [exact Hb|]. intros Hlen Hall.
      rewrite (attempts_exhausted HA Hlen Hall). reflexivity.
Qed.

(** An exchange that never fills. *)
Lemma retries_exhausted_witness :
  let run := closePosition (scripted [shortBTC] "50000" None) "BTC-PERP" heldShort world0 in
  length (orderReplies (history (snd run))) = 3%nat /\
  fst run = Throw (Error "Close order failed after 3 attempts").
Proof.
  intros run.
  destruct (proj1 (retries_exhausted (scripted [shortBTC] "50000" None) "BTC-PERP")
              heldShort world0 (fst run) (snd run))
    as (evs & Hh & _ & Hex); [vm_compute; reflexivity|].
  cbn [history world0 app] in Hh. rewrite <- Hh in Hex.
  split; [vm_compute; reflexivity|].
  apply Hex; vm_compute; reflexivity.
Defined.

(** C3 as stated does not hold: closing a BTC-PERP short against an
    exchange that never fills ends, after three unfilled orders, with a
    message that contains the kind of action and not the instrument. *)
Lemma exhausted_message_omits_instrument :
  let run := closePosition (scripted [shortBTC] "50000" None) "BTC-PERP" heldShort world0 in
  length (orderReplies (history (snd run))) = 3%nat /\
  forallb completesUnfilled (orderReplies (history (snd run))) = true /\
  fst run = Throw (Error "Close order failed after 3 attempts") /\
  includes "Close" "Close order failed after 3 attempts" = true /\
  includes "BTC-PERP" "Close order failed after 3 attempts" = false /\
  includes "BTC" "Close order failed after 3 attempts" = false.
Proof. vm_compute. repeat split. Qed.

(* ================================================================== *)
(** * The trade orchestrator *)
(* ================================================================== *)



(** C7.  When the action decided from the fetched position is ['NONE'],
    [executeTradeFromWebhook] completes normally in the world the fetch
    left: after the decision nothing is asked of the exchange and nothing
    is sent to the notification sink.  The whole run holds no order, no
    leverage call, no price fetch, no wait and no alert: what it asked is
    what the position snapshot needs. *)
Theorem no_action_no_effect env payload w cur w1 :
  getCurrentPosition env (convertMarketToCoin (market payload)) w = (Normal cur, w1) ->
  determineAction (position payload) cur = "NONE" ->
  executeTradeFromWebhook env payload w = (Normal tt, w1) /\
  exists evs,
    history w1 = (history w ++ evs)%list /\
    orderRequests evs = [] /\ leverageCalls evs = [] /\ alerts evs = [] /\
    priceFetches evs = 0%nat /\ sleeps evs = [].
Proof.
  intros Hcur Hact. split.
  - apply executeTrade_without_action with (cur := cur); assumption.
  - apply getCurrentPosition_footprint in Hcur
      as (evs & Hh & (Ho & Hl & Ha) & Hp & Hs).
    exists evs. auto 10.
Qed.

(** A signal for short while a short is held. *)
Lemma no_action_no_effect_witness :
  let env := scripted [shortBTC] "50000" (Some 0%nat) in
  let seen := getCurrentPosition env "BTC-PERP" world0 in
  fst seen = Normal (Some heldShort) /\
  determineAction "short" (Some heldShort) = "NONE" /\
  executeTradeFromWebhook env (signal "short") world0 = (Normal tt, snd seen).
Proof.
  intros env seen.
  split; [vm_compute; reflexivity|]. split; [reflexivity|].
  apply (@no_action_no_effect env (signal "short") world0 (Some heldShort) (snd seen));
    vm_compute; reflexivity.
Defined.

(* ================================================================== *)
(** * Further facts about the executors *)
(* ================================================================== *)

Lemma attempts_no_contact kind c build evs r :
  Attempts kind c build 0 evs r ->
  connects evs = 0%nat /\ stateReads evs = [].
Proof.
  intros H. unroll_attempts.
  all: unfold backoff, maxAttempts; cbn.
  all: split; reflexivity.
Qed.

Section Ready.
Variable env : Env.

(** With the client at hand [closePosition] is its retry loop. *)
Lemma closePosition_loop c p w r w' :
  hyperliquidSDK w = true ->
  closePosition env c p w = (r, w') ->
  exists evs r0,
    Attempts "Close" c (closeOrder c p (closesWithBuy p)) 0 evs r0 /\
    history w' = (history w ++ evs)%list /\
    hyperliquidSDK w' = true /\
    r = unitOf r0.
Proof.
  intros Hsdk. unfold closePosition, bind at 1.
  rewrite getHyperliquidClient_ready by exact Hsdk.
  intros H.
  apply bind_run in H as [(res & w2 & Hl & H)|[(e & Hl & ->)|[Hl ->]]].
  - apply ret_run in H as [-> ->].
    apply orderLoop_shape in Hl as (evs & Hh & Hsdk' & HA); [|exact Hsdk|lia].
    exists evs, (Normal res). auto.
  - apply orderLoop_shape in Hl as (evs & Hh & Hsdk' & HA); [|exact Hsdk|lia].
    exists evs, (Throw e). auto.
  - apply orderLoop_shape in Hl as (evs & Hh & Hsdk' & HA); [|exact Hsdk|lia].
    exists evs, Diverge. auto.
Qed.

(** With the client at hand [openPosition] is the leverage call and, when
    that was accepted, its retry loop. *)
Lemma openPosition_loop c isBuy sz lev w r w' :
  hyperliquidSDK w = true ->
  openPosition env c isBuy sz lev w = (r, w') ->
  hyperliquidSDK w' = true /\
  ((exists e, r = Throw e /\
      history w' = (history w ++ [EvUpdateLeverage c "cross" lev (Rejected e)])%list)
   \/ (exists evs,
         Attempts "Open" c (openOrder c isBuy sz) 0 evs r /\
         history w' = (history w
                         ++ EvUpdateLeverage c "cross" lev (Resolved tt) :: evs)%list)).
Proof.
  intros Hsdk. unfold openPosition, bind at 1.
  rewrite getHyperliquidClient_ready by exact Hsdk.
  unfold bind at 1, await.
  destruct (updateLeverage env (history w) c "cross" lev) as [[]|e] eqn:El.
  - intros H. apply orderLoop_shape in H as (evs & Hh & Hsdk' & HA);
      [|rewrite record_sdk; exact Hsdk|lia].
    split; [exact Hsdk'|]. right. exists evs. split; [exact HA|].
    rewrite Hh, record_history, <- app_assoc. reflexivity.
  - intros H. inversion H; subst. split; [rewrite record_sdk; exact Hsdk|].
    left. exists e. rewrite record_history. auto.
Qed.

Lemma getAvailableBalance_ready w bal w1 :
  getAvailableBalance env w = (Normal bal, w1) -> hyperliquidSDK w1 = true.
Proof.
  unfold getAvailableBalance. intros H.
  apply bind_Normal in H as (u & w0 & Hc & H).
  apply getHyperliquidClient_run in Hc as (_ & _ & _ & _ & Hsdk).
  specialize (Hsdk u eq_refl).
  apply bind_Normal in H as (u' & w2 & He & H).
  apply ensureWalletAddress_run in He as (_ & Hs & _).
  apply bind_Normal in H as (a & w3 & Ha & H).
  unfold getWalletAddress in Ha. injection Ha as _ <-.
  apply bind_Normal in H as (st & w4 & Hst & H).
  apply await_run in Hst as [-> _].
  apply ret_run in H as [_ ->].
  rewrite record_sdk. congruence.
Qed.

(** Once [getHyperliquidClient] got as far as the connect, the client
    counts as obtained, however the connect ended. *)
Lemma getHyperliquidClient_marks w r w' :
  getHyperliquidClient env w = (r, w') ->
  history w' <> history w \/ hyperliquidSDK w = true ->
  hyperliquidSDK w' = true.
Proof.
  unfold getHyperliquidClient.
  destruct (hyperliquidSDK w) eqn:Esdk.
  - intros H _. apply ret_run in H as [_ ->]. exact Esdk.
  - destruct (negb (truthyString (HYPERLIQUID_PRIVATE_KEY env))).
    + intros H. inversion H; subst. intros [Hne|]; congruence.
    + unfold bind, setHyperliquidSDK, await, newWallet, setWalletAddress, ret, throw.
      cbn [history hyperliquidSDK walletAddress].
      destruct (connect env (history w)) as [[]|e];
        [destruct (Wallet_address env (HYPERLIQUID_PRIVATE_KEY env)) as [a|e]|];
        intros H; inversion H; subst; reflexivity.
Qed.

(** What the readers leave in the history, however they end. *)
Lemma reader_events (A : Type) (k : ClearinghouseState -> M A) w r w' :
  (forall st w0 r0 w1, k st w0 = (r0, w1) -> w1 = w0 /\ r0 <> Diverge) ->
  (getHyperliquidClient env ;;
   ensureWalletAddress env ;;
   a <- getWalletAddress ;;
   userState <- await (fun h => getClearinghouseState env h a)
                      (EvGetClearinghouseState a) ;;
   k userState) w = (r, w') ->
  exists cevs revs,
    history w' = (history w ++ cevs ++ revs)%list /\
    (cevs = [] \/ exists rep, cevs = [EvConnect rep]) /\
    (hyperliquidSDK w = true -> cevs = []) /\
    (revs = [] \/ exists a rep, revs = [EvGetClearinghouseState a rep]) /\
    r <> Diverge /\
    ((cevs ++ revs)%list <> [] \/ hyperliquidSDK w = true -> hyperliquidSDK w' = true).
Proof.
  intros Hk H.
  assert (Hc0 : hyperliquidSDK w = true ->
                forall cevs, history (snd (getHyperliquidClient env w))
                             = (history w ++ cevs)%list -> cevs = []).
  { intros Hsdk cevs. rewrite getHyperliquidClient_ready by exact Hsdk. cbn.
    intros E. rewrite <- (app_nil_r (history w)) in E at 1.
    apply app_inv_head in E. auto. }
  apply bind_run in H as [(u & w0 & Hc & H)|[(e & Hc & ->)|[Hc ->]]].
  2:{ pose proof Hc as Hc'. pose proof (@getHyperliquidClient_marks _ _ _ Hc) as Hm.
      apply getHyperliquidClient_run in Hc as (cevs & Hh & Hshape & _ & _).
      exists cevs, []. rewrite app_nil_r.
      split; [exact Hh|]. split; [exact Hshape|].
      split; [intros Hsdk; apply (Hc0 Hsdk); rewrite Hc'; exact Hh|].
      split; [auto|]. split; [discriminate|].
      intros [Hne|Hsdk]; [apply Hm; left|apply Hm; right; exact Hsdk].
      rewrite Hh. intros E. rewrite <- (app_nil_r (history w)) in E at 2.
      apply app_inv_head in E. contradiction. }
  2:{ apply getHyperliquidClient_run in Hc as (cevs & Hh & Hshape & Hd & _). congruence. }
  pose proof Hc as Hc'.
  apply getHyperliquidClient_run in Hc as (cevs & Hh & Hshape & _ & Hsdk0).
  specialize (Hsdk0 u eq_refl).
  assert (Hready : hyperliquidSDK w = true -> cevs = []).
  { intros Hsdk. apply (Hc0 Hsdk). rewrite Hc'. exact Hh. }
  exists cevs.
  apply bind_run in H as [(u' & w2 & He & H)|[(e & He & ->)|[He ->]]];
    apply ensureWalletAddress_run in He as (Hh2 & Hs2 & Hd2); [| |congruence].
  2:{ exists []. rewrite app_nil_r, Hh2. repeat split; auto; try discriminate;
        try congruence. }
  apply bind_run in H as [(a & w3 & Ha & H)|[(e & Ha & ->)|[Ha ->]]];
    unfold getWalletAddress in Ha; try discriminate.
  injection Ha as <- <-.
  apply bind_run in H as [(st & w4 & Hst & H)|[(e & Hst & ->)|[Hst ->]]];
    apply await_run in Hst as [-> Hr].
  - apply Hk in H as [-> Hd].
    exists [EvGetClearinghouseState (walletAddress w2)
              (getClearinghouseState env (history w2) (walletAddress w2))].
    rewrite record_history, record_sdk, Hh2, Hh, <- app_assoc.
    repeat split; eauto; try congruence.
  - exists [EvGetClearinghouseState (walletAddress w2)
              (getClearinghouseState env (history w2) (walletAddress w2))].
    rewrite record_history, record_sdk, Hh2, Hh, <- app_assoc.
    repeat split; eauto; try discriminate; try congruence.
  - destruct (getClearinghouseState env (history w2) (walletAddress w2)); discriminate.
Qed.

Lemma getCurrentPosition_events c w r w' :
  getCurrentPosition env c w = (r, w') ->
  exists cevs revs,
    history w' = (history w ++ cevs ++ revs)%list /\
    (cevs = [] \/ exists rep, cevs = [EvConnect rep]) /\
    (hyperliquidSDK w = true -> cevs = []) /\
    (revs = [] \/ exists a rep, revs = [EvGetClearinghouseState a rep]) /\
    r <> Diverge /\
    ((cevs ++ revs)%list <> [] \/ hyperliquidSDK w = true -> hyperliquidSDK w' = true).
Proof.
  unfold getCurrentPosition. apply reader_events.
  intros st w0 r0 w1.
  destruct (find _ _); [destruct (strictEq _ _)|];
    intros H; apply ret_run in H as [-> ->]; split; auto; discriminate.
Qed.

Lemma getAvailableBalance_events w r w' :
  getAvailableBalance env w = (r, w') ->
  exists cevs revs,
    history w' = (history w ++ cevs ++ revs)%list /\
    (cevs = [] \/ exists rep, cevs = [EvConnect rep]) /\
    (hyperliquidSDK w = true -> cevs = []) /\
    (revs = [] \/ exists a rep, revs = [EvGetClearinghouseState a rep]) /\
    r <> Diverge /\
    ((cevs ++ revs)%list <> [] \/ hyperliquidSDK w = true -> hyperliquidSDK w' = true).
Proof.
  unfold getAvailableBalance. apply reader_events.
  intros st w0 r0 w1 H. apply ret_run in H as [-> ->]. split; auto; discriminate.
Qed.

End Ready.

(* ================================================================== *)
(** * Further facts about the orchestrator *)
(* ================================================================== *)

Lemma connects_app a b : connects (a ++ b) = (connects a + connects b)%nat.
Proof. unfold connects. rewrite filter_app, length_app. reflexivity. Qed.

Lemma alerts_app a b : alerts (a ++ b) = (alerts a ++ alerts b)%list.
Proof. apply filter_app. Qed.

Lemma orderRequests_app a b :
  orderRequests (a ++ b) = (orderRequests a ++ orderRequests b)%list.
Proof. apply flat_map_app. Qed.

Lemma orderRequests_length evs :
  length (orderRequests evs) = length (orderReplies evs).
Proof. induction evs as [|[] evs IH]; cbn; auto. Qed.

Lemma read_only_events revs :
  (revs = [] \/ exists a rep, revs = [EvGetClearinghouseState a rep]) ->
  connects revs = 0%nat /\ alerts revs = [] /\ orderRequests revs = [] /\
  leverageCalls revs = [] /\ priceFetches revs = 0%nat /\ sleeps revs = [].
Proof. intros [->|(a & rep & ->)]; cbn; auto 10. Qed.

Lemma connect_only_events cevs :
  (cevs = [] \/ exists rep, cevs = [EvConnect rep]) ->
  (connects cevs <= 1)%nat /\ alerts cevs = [] /\ orderRequests cevs = [] /\
  leverageCalls cevs = [] /\ priceFetches cevs = 0%nat /\ sleeps cevs = [] /\
  stateReads cevs = [].
Proof. intros [->|(rep & ->)]; cbn; auto 10. Qed.

Section Dispatch.
Variable env : Env.
Variable payload : WebhookPayload.

Lemma afterSwitch_run o w r w' :
  afterSwitch env payload o w = (r, w') ->
  r = Normal tt /\
  history w' = (history w ++ match o with
                             | Some filledSize => notice env payload (Normal filledSize)
                             | None => []
                             end)%list /\
  hyperliquidSDK w' = hyperliquidSDK w.
Proof.
  unfold afterSwitch, when, sendTradeAlert, emit, ret, notice.
  destruct o; [destruct (discordWebhook env)|]; intros H; inversion H; subst; cbn;
    rewrite ?app_nil_r; auto.
Qed.

Lemma closePosition_events c p w r w' :
  hyperliquidSDK w = true ->
  closePosition env c p w = (r, w') ->
  exists evs,
    history w' = (history w ++ evs)%list /\
    connects evs = 0%nat /\ alerts evs = [] /\ stateReads evs = [] /\
    leverageCalls evs = [] /\
    Forall (fun req => exists px, req = closeOrder c p (closesWithBuy p) px)
           (orderRequests evs) /\
    r <> Diverge /\ hyperliquidSDK w' = true.
Proof.
  intros Hsdk H.
  apply closePosition_loop in H as (evs & r0 & HA & Hh & Hsdk' & ->); [|exact Hsdk].
  exists evs. split; [exact Hh|].
  destruct (attempts_no_contact HA) as (Hc & Hr).
  destruct (attempts_bounded HA) as (_ & _ & Hl & Ha & Hreq).
  destruct (attempts_discipline HA) as (_ & _ & _ & _ & _ & Hd).
  repeat split; auto.
  destruct r0; cbn; congruence.
Qed.

Lemma openPosition_events c isBuy sz0 lev w r w' :
  hyperliquidSDK w = true ->
  openPosition env c isBuy sz0 lev w = (r, w') ->
  exists rep after,
    history w' = (history w ++ EvUpdateLeverage c "cross" lev rep :: after)%list /\
    connects after = 0%nat /\ alerts after = [] /\ stateReads after = [] /\
    leverageCalls after = [] /\
    (length (orderRequests after) <= 3)%nat /\
    Forall (fun req => exists px, req = openOrder c isBuy sz0 px) (orderRequests after) /\
    r <> Diverge /\ hyperliquidSDK w' = true.
Proof.
  intros Hsdk H.
  apply openPosition_loop in H as (Hsdk' & [(e & -> & Hh)|(evs & HA & Hh)]); [| |exact Hsdk].
  - exists (Rejected e), []. cbn. repeat split; auto; discriminate.
  - exists (Resolved tt), evs. split; [exact Hh|].
    destruct (attempts_no_contact HA) as (Hc & Hr).
    destruct (attempts_bounded HA) as (Hb & _ & Hl & Ha & Hreq).
    destruct (attempts_discipline HA) as (_ & _ & _ & _ & _ & Hd).
    repeat split; auto.
    rewrite orderRequests_length. exact Hb.
Qed.

Lemma executeOpen_events isBuy c lev w r w' :
  hyperliquidSDK w = true ->
  executeOpen env isBuy c lev w = (r, w') ->
  exists evs,
    history w' = (history w ++ evs)%list /\
    connects evs = 0%nat /\ alerts evs = [] /\
    Forall (fun req => exists size0 px, req = openOrder c isBuy size0 px)
           (orderRequests evs) /\
    r <> Diverge /\ hyperliquidSDK w' = true.
Proof.
  intros Hsdk. unfold executeOpen. intros H.
  assert (Hbal : forall rb wb, getAvailableBalance env w = (rb, wb) ->
            exists revs, history wb = (history w ++ revs)%list /\
              connects revs = 0%nat /\ alerts revs = [] /\ orderRequests revs = [] /\
              hyperliquidSDK wb = true /\ rb <> Diverge).
  { intros rb wb Hb. pose proof Hb as Hb'.
    apply getAvailableBalance_run in Hb as (ev1 & Hh1 & _ & Hsdk1 & Hd1); [|exact Hsdk].
    apply getAvailableBalance_events in Hb' as (cevs & revs & Hh1' & _ & Hc & Hr & _).
    rewrite (Hc Hsdk) in Hh1'. cbn [app] in Hh1'.
    destruct (read_only_events Hr) as (? & ? & ? & _).
    exists revs. auto 10. }
  apply bind_run in H as [(bal & w1 & Hb & H)|[(e & Hb & ->)|[Hb ->]]];
    apply Hbal in Hb as (revs & Hh1 & Hc1 & Ha1 & Ho1 & Hsdk1 & Hd1); try congruence.
  2:{ exists revs. rewrite Ho1. repeat split; auto; discriminate. }
  unfold bind at 1 in H. rewrite getMarketPrice_run in H by exact Hsdk1.
  destruct (getAllMids env (history w1)) as [m|e] eqn:Em.
  2:{ inversion H; subst. exists (revs ++ [EvGetAllMids (Rejected e)])%list.
      rewrite record_history, Hh1, <- app_assoc.
      rewrite connects_app, alerts_app, orderRequests_app, Hc1, Ha1, Ho1.
      cbn. repeat split; auto; discriminate. }
  set (w2 := record (EvGetAllMids (Resolved m)) w1) in H.
  assert (Hfoot : forall (r0 : completion OrderResult) w3,
            openPosition env c isBuy (calculatePositionSize bal lev (midPrice m c)) lev w2
            = (r0, w3) ->
            exists evs, history w3 = (history w ++ evs)%list /\
                        connects evs = 0%nat /\ alerts evs = [] /\
                        Forall (fun req => exists size0 px,
                                  req = openOrder c isBuy size0 px)
                               (orderRequests evs) /\ r0 <> Diverge /\
                        hyperliquidSDK w3 = true).
  { intros r0 w3 Ho.
    apply openPosition_events in Ho
      as (rep & after & Hh3 & Hc3 & Ha3 & _ & _ & _ & Hreq & Hd3 & Hsdk3);
      [|unfold w2; rewrite record_sdk; exact Hsdk1].
    exists (revs ++ EvGetAllMids (Resolved m)
              :: EvUpdateLeverage c "cross" lev rep :: after)%list.
    rewrite Hh3. unfold w2. rewrite record_history, Hh1, <- !app_assoc. cbn [app].
    split; [reflexivity|].
    rewrite connects_app, alerts_app, orderRequests_app, Hc1, Ha1, Ho1.
    cbn. repeat split; auto.
    eapply Forall_impl; [|exact Hreq]. intros req [px ->]. eauto. }
  apply bind_run in H as [(res & w3 & Ho & H)|[(e & Ho & ->)|[Ho ->]]];
    apply Hfoot in Ho as (evs & Hh & Hc & Ha & Hall & Hd & Hsdk3).
  - apply ret_run in H as [-> ->]. exists evs. repeat split; auto; discriminate.
  - exists evs. repeat split; auto; discriminate.
  - congruence.
Qed.

Lemma open_then_alert isBuy c w r w' :
  hyperliquidSDK w = true ->
  (size <- executeOpen env isBuy c (sizeByLeverage payload) ;;
   afterSwitch env payload (Some size)) w = (r, w') ->
  exists evs, history w' = (history w ++ evs)%list /\ dispatchOutcome env payload evs r /\
              hyperliquidSDK w' = true.
Proof.
  intros Hsdk H.
  apply bind_run in H as [(sz0 & w1 & Ho & H)|[(e & Ho & ->)|[Ho ->]]];
    apply executeOpen_events in Ho as (evs & Hh & Hc & Ha & _ & Hd & Hsdk1);
    try exact Hsdk; try congruence.
  - apply afterSwitch_run in H as (-> & Hh' & Hs').
    exists (evs ++ notice env payload (Normal sz0))%list.
    rewrite Hh', Hh, app_assoc. split; [reflexivity|].
    split; [|congruence].
    unfold dispatchOutcome, notice.
    destruct (discordWebhook env) eqn:Ed.
    + split; [rewrite connects_app, Hc; reflexivity|].
      right. split; [reflexivity|]. exists sz0, evs. auto.
    + rewrite app_nil_r. split; [exact Hc|]. left. exists evs.
      rewrite app_nil_r. auto.
  - exists evs. split; [exact Hh|]. split; [split; assumption|exact Hsdk1].
Qed.

Lemma outcome_after_close w w1 r w' closing evs :
  history w1 = (history w ++ closing)%list ->
  connects closing = 0%nat -> alerts closing = [] ->
  history w' = (history w1 ++ evs)%list ->
  dispatchOutcome env payload evs r ->
  exists evs', history w' = (history w ++ evs')%list /\ dispatchOutcome env payload evs' r.
Proof.
  intros Hh1 Hc Ha Hh [Hc' Hout].
  exists (closing ++ evs)%list. rewrite Hh, Hh1, app_assoc. split; [reflexivity|].
  split; [rewrite connects_app, Hc, Hc'; reflexivity|].
  destruct r as [[]|e|]; [| |exact Hout].
  - destruct Hout as [(front & -> & Hf)|(Hd & sz0 & front & -> & Hf)].
    + left. exists (closing ++ front)%list. rewrite alerts_app, Ha, Hf, !app_nil_r. auto.
    + right. split; [exact Hd|]. exists sz0, (closing ++ front)%list.
      rewrite alerts_app, Ha, Hf, app_assoc. auto.
  - rewrite alerts_app, Ha, Hout. reflexivity.
Qed.

Lemma close_then_open isBuy c cur w r w' :
  hyperliquidSDK w = true ->
  (closeIfHeld env c cur ;;
   size <- executeOpen env isBuy c (sizeByLeverage payload) ;;
   afterSwitch env payload (Some size)) w = (r, w') ->
  exists evs, history w' = (history w ++ evs)%list /\ dispatchOutcome env payload evs r /\
              hyperliquidSDK w' = true.
Proof.
  intros Hsdk H. destruct cur as [p|]; cbn [closeIfHeld] in H.
  - apply bind_run in H as [([] & w1 & Hcl & H)|[(e & Hcl & ->)|[Hcl ->]]];
      apply closePosition_events in Hcl
        as (closing & Hh1 & Hc & Ha & _ & _ & _ & Hd & Hsdk1);
      try exact Hsdk; try congruence.
    + apply open_then_alert in H as (evs & Hh & Hout & Hsdk'); [|exact Hsdk1].
      destruct (@outcome_after_close w w1 r w' closing evs Hh1 Hc Ha Hh Hout)
        as (evs' & ? & ?).
      exists evs'. auto.
    + exists closing. split; [exact Hh1|]. split; [split; assumption|exact Hsdk1].
  - unfold bind at 1, ret in H. apply open_then_alert in H; assumption.
Qed.

Lemma dispatch_outcome c cur action w r w' :
  hyperliquidSDK w = true ->
  dispatch env payload c cur action w = (r, w') ->
  exists evs, history w' = (history w ++ evs)%list /\ dispatchOutcome env payload evs r /\
              hyperliquidSDK w' = true.
Proof.
  intros Hsdk. unfold dispatch.
  assert (Hnone : afterSwitch env payload None w = (r, w') ->
            exists evs, history w' = (history w ++ evs)%list /\
                        dispatchOutcome env payload evs r /\ hyperliquidSDK w' = true).
  { intros H. apply afterSwitch_run in H as (-> & Hh & Hs).
    exists []. split; [exact Hh|]. split; [|congruence].
    split; [reflexivity|]. left. exists []. auto. }
  destruct (String.eqb action "OPEN_LONG");
    [intros H; exact (@open_then_alert true c w r w' Hsdk H)|].
  destruct (String.eqb action "OPEN_SHORT");
    [intros H; exact (@open_then_alert false c w r w' Hsdk H)|].
  destruct (String.eqb action "CLOSE").
  { destruct cur as [p|]; [|exact Hnone].
    intros H.
    apply bind_run in H as [([] & w1 & Hcl & H)|[(e & Hcl & ->)|[Hcl ->]]];
      apply closePosition_events in Hcl
        as (closing & Hh1 & Hc & Ha & _ & _ & _ & Hd & Hsdk1);
      try exact Hsdk; try congruence.
    - apply afterSwitch_run in H as (-> & Hh & Hs).
      exists (closing ++ notice env payload (Normal (size p)))%list.
      rewrite Hh, Hh1, app_assoc. split; [reflexivity|].
      split; [|congruence].
      unfold dispatchOutcome, notice. destruct (discordWebhook env).
      + split; [rewrite connects_app, Hc; reflexivity|].
        right. split; [reflexivity|]. exists (size p), closing. auto.
      + rewrite app_nil_r. split; [exact Hc|]. left. exists closing.
        rewrite app_nil_r. auto.
    - exists closing. split; [exact Hh1|]. split; [split; assumption|exact Hsdk1]. }
  destruct (String.eqb action "REVERSE_TO_LONG");
    [intros H; exact (@close_then_open true c cur w r w' Hsdk H)|].
  destruct (String.eqb action "REVERSE_TO_SHORT");
    [intros H; exact (@close_then_open false c cur w r w' Hsdk H)|].
  destruct (String.eqb action "NONE").
  - intros H. apply ret_run in H as [-> ->]. exists []. rewrite app_nil_r.
    split; [reflexivity|]. split; [|exact Hsdk].
    split; [reflexivity|]. left. exists []. auto.
  - exact Hnone.
Qed.

End Dispatch.

Section Run.
Variable env : Env.
Variable payload : WebhookPayload.

(** The run of [executeTradeFromWebhook], phase by phase. *)
Lemma executeTrade_run w r w' :
  executeTradeFromWebhook env payload w = (r, w') ->
  exists rc w1,
    getCurrentPosition env (convertMarketToCoin (market payload)) w = (rc, w1) /\
    match rc with
    | Normal cur =>
        hyperliquidSDK w1 = true /\
        exists rd wd devs,
          dispatch env payload (convertMarketToCoin (market payload)) cur
                   (determineAction (position payload) cur) w1 = (rd, wd) /\
          history wd = (history w1 ++ devs)%list /\
          dispatchOutcome env payload devs rd /\
          hyperliquidSDK w' = true /\
          match rd with
          | Normal _ => r = rd /\ w' = wd
          | Throw e =>
              r = Throw e /\
              history w' = (history wd ++ notice env payload (Throw e))%list
          | Diverge => False
          end
    | Throw e => r = Throw e /\ w' = w1
    | Diverge => False
    end.
Proof.
  unfold executeTradeFromWebhook. intros H.
  destruct (getCurrentPosition env (convertMarketToCoin (market payload)) w)
    as [rc w1] eqn:Hcur.
  exists rc, w1. split; [reflexivity|].
  unfold bind at 1 in H. rewrite Hcur in H.
  destruct rc as [cur|e|].
  - pose proof (getCurrentPosition_ready _ _ _ Hcur) as Hsdk1.
    split; [exact Hsdk1|].
    unfold tryCatch in H.
    destruct (dispatch env payload (convertMarketToCoin (market payload)) cur
                (determineAction (position payload) cur) w1) as [rd wd] eqn:Hd.
    exists rd, wd.
    pose proof Hd as Hd'.
    apply dispatch_outcome in Hd' as (devs & Hh & Hout & Hsdkd); [|exact Hsdk1].
    exists devs. split; [reflexivity|]. split; [exact Hh|]. split; [exact Hout|].
    destruct rd as [[]|e|].
    + inversion H; subst. auto.
    + unfold bind, when, sendErrorAlert, emit, ret, throw in H. unfold notice.
      destruct (discordWebhook env); inversion H; subst; cbn;
        rewrite ?app_nil_r; auto.
    + destruct Hout as [_ []].
  - inversion H; subst. auto.
  - apply getCurrentPosition_events in Hcur as (_ & _ & _ & _ & _ & _ & Hd & _).
    congruence.
Qed.

End Run.

(* ================================================================== *)
(** * The notification sink, the client and the endpoints *)
(* ================================================================== *)

(** X1.  A run of [executeTradeFromWebhook] holds at most one alert, and
    it is the last event.  When reading the position fails the run fails
    with the same error in the world the read left: nothing is sent.  When
    the run fails later, the error alert with the error's message is sent
    (if a webhook is configured) and no trade alert; when it succeeds, at
    most the trade alert is sent and no error alert.  The run always
    ends. *)
Theorem signal_alerts env payload w r w' :
  executeTradeFromWebhook env payload w = (r, w') ->
  exists rc w1 reading evs,
    getCurrentPosition env (convertMarketToCoin (market payload)) w = (rc, w1) /\
    history w1 = (history w ++ reading)%list /\ alerts reading = [] /\
    history w' = (history w1 ++ evs)%list /\
    match rc, r with
    | Normal _, Normal _ =>
        alertsAtEnd evs []
        \/ (discordWebhook env = true /\
            exists filledSize, alertsAtEnd evs [EvTradeAlert payload filledSize])
    | Normal _, Throw e =>
        alertsAtEnd evs (if discordWebhook env
                         then [EvErrorAlert payload (messageOf e)] else [])
    | Throw e, Throw e' => e' = e /\ evs = []
    | _, _ => False
    end.
Proof.
  intros H. apply executeTrade_run in H as (rc & w1 & Hcur & H).
  exists rc, w1.
  pose proof Hcur as Hev.
  apply getCurrentPosition_events in Hev as (cevs & revs & Hh1 & Hc & _ & Hr & _).
  exists (cevs ++ revs)%list.
  assert (Hal : alerts (cevs ++ revs) = []).
  { rewrite alerts_app.
    destruct (connect_only_events Hc) as (_ & -> & _).
    destruct (read_only_events Hr) as (_ & -> & _). reflexivity. }
  destruct rc as [cur|e|]; [| |contradiction].
  - destruct H as (_ & rd & wd & devs & _ & Hh & [_ Hout] & _ & H).
    destruct rd as [[]|e|]; [| |contradiction].
    + destruct H as [-> ->]. exists devs.
      split; [exact Hcur|]. split; [exact Hh1|]. split; [exact Hal|].
      split; [exact Hh|exact Hout].
    + destruct H as [-> Hh']. exists (devs ++ notice env payload (Throw e))%list.
      split; [exact Hcur|]. split; [exact Hh1|]. split; [exact Hal|].
      split; [rewrite Hh', Hh, app_assoc; reflexivity|].
      exists devs. unfold notice. auto.
  - destruct H as [-> ->]. exists [].
    split; [exact Hcur|]. split; [exact Hh1|]. split; [exact Hal|].
    rewrite app_nil_r. auto.
Qed.

(** A reversal against an exchange that never fills: the close fails and
    the error alert ends the run. *)
Lemma signal_alerts_witness :
  let env := scripted [shortBTC] "50000" None in
  let run := executeTradeFromWebhook env (signal "long") world0 in
  fst run = Throw (Error "Close order failed after 3 attempts") /\
  exists evs,
    alertsAtEnd evs [EvErrorAlert (signal "long") "Close order failed after 3 attempts"] /\
    exists reading, history (snd run) = ((history world0 ++ reading) ++ evs)%list.
Proof.
  intros env run.
  split; [vm_compute; reflexivity|].
  destruct (@signal_alerts env (signal "long") world0 (fst run) (snd run))
    as (rc & w1 & reading & evs & Hcur & Hh1 & _ & Hh & H); [vm_compute; reflexivity|].
  assert (rc = Normal (Some heldShort)) as ->
    by (vm_compute in Hcur; injection Hcur as <- _; reflexivity).
  assert (fst run = Throw (Error "Close order failed after 3 attempts")) as E
    by (vm_compute; reflexivity).
  rewrite E in H. exists evs. split; [exact H|].
  exists reading. rewrite Hh, Hh1. reflexivity.
Defined.

(** X2.  In a run of [executeTradeFromWebhook] only the first event can be
    a request to connect the exchange client.  A run that asked anything
    of the outside leaves the client marked as obtained, also when the
    connect was rejected; and a run that starts with the client marked as
    obtained does not connect and leaves it so.  Over any sequence of
    runs the client is therefore asked to connect at most once, and a
    rejected connect is never tried again. *)
Theorem connects_at_most_once env payload w r w' :
  executeTradeFromWebhook env payload w = (r, w') ->
  exists evs,
    history w' = (history w ++ evs)%list /\
    connects (tl evs) = 0%nat /\
    (evs <> [] -> hyperliquidSDK w' = true) /\
    (hyperliquidSDK w = true -> connects evs = 0%nat /\ hyperliquidSDK w' = true).
Proof.
  intros H. apply executeTrade_run in H as (rc & w1 & Hcur & H).
  apply getCurrentPosition_events in Hcur
    as (cevs & revs & Hh1 & Hc & Hready & Hr & _ & Hmark).
  destruct (read_only_events Hr) as (Hcr & _).
  assert (Hfirst : forall rest, connects rest = 0%nat ->
            connects (tl ((cevs ++ revs) ++ rest)) = 0%nat).
  { intros rest Hrest.
    destruct Hc as [->|(rep & ->)]; cbn [app tl].
    - destruct Hr as [->|(a & rep & ->)]; cbn [app tl]; [|exact Hrest].
      destruct rest as [|[] rest]; cbn [tl]; [reflexivity|..];
        unfold connects in *; cbn in *; try discriminate; exact Hrest.
    - rewrite connects_app, Hcr, Hrest. reflexivity. }
  destruct rc as [cur|e|]; [| |contradiction].
  - destruct H as (Hsdk1 & rd & wd & devs & _ & Hh & [Hcd _] & Hsdk' & H).
    assert (exists tail, history w' = (history wd ++ tail)%list /\ connects tail = 0%nat)
      as (tail & Hh' & Hct).
    { destruct rd as [[]|e|]; [| |contradiction].
      - destruct H as [_ ->]. exists []. rewrite app_nil_r. auto.
      - destruct H as [_ Hh']. eexists. split; [exact Hh'|].
        unfold notice. destruct (discordWebhook env); reflexivity. }
    exists ((cevs ++ revs) ++ devs ++ tail)%list.
    assert (Hrest : connects (devs ++ tail) = 0%nat)
      by (rewrite connects_app, Hcd, Hct; reflexivity).
    split; [rewrite Hh', Hh, Hh1, <- !app_assoc; reflexivity|].
    split; [apply Hfirst; exact Hrest|].
    split; [intros _; exact Hsdk'|].
    intros Hsdk. split; [|exact Hsdk'].
    rewrite (Hready Hsdk). cbn [app]. rewrite connects_app, Hcr, Hrest. reflexivity.
  - destruct H as [-> ->]. exists (cevs ++ revs)%list.
    split; [exact Hh1|].
    split; [rewrite <- (app_nil_r (cevs ++ revs)); apply Hfirst; reflexivity|].
    split; [intros Hne; apply Hmark; left; exact Hne|].
    intros Hsdk. split; [|apply Hmark; right; exact Hsdk].
    rewrite (Hready Hsdk). exact Hcr.
Qed.

(** An exchange that refuses the connect: the first signal fails on it,
    the second one starts with the client marked as obtained and asks
    for the account without connecting. *)
Lemma connects_at_most_once_witness :
  let env := refusing in
  let first := executeTradeFromWebhook env (signal "long") world0 in
  let second := executeTradeFromWebhook env (signal "long") (snd first) in
  fst first = Throw (Error "connect refused") /\
  hyperliquidSDK (snd first) = true /\
  exists evs,
    history (snd second) = (history (snd first) ++ evs)%list /\
    connects evs = 0%nat /\ evs <> [].
Proof.
  intros env first second.
  split; [vm_compute; reflexivity|]. split; [vm_compute; reflexivity|].
  destruct (@connects_at_most_once env (signal "long") (snd first) (fst second) (snd second))
    as (evs & Hh & _ & _ & Hready); [vm_compute; reflexivity|].
  destruct Hready as [Hc _]; [vm_compute; reflexivity|].
  exists evs. split; [exact Hh|]. split; [exact Hc|].
  intros ->. vm_compute in Hh. discriminate Hh.
Defined.



(** X4.  Without [HYPERLIQUID_PRIVATE_KEY], and before a client was ever
    obtained, every operation fails with the error
    ['HYPERLIQUID_PRIVATE_KEY not configured'] before anything is asked
    of the exchange: the world is unchanged, so no error alert is sent
    either.  The two endpoints answer 500 with that message and the
    start-up report completes. *)
Theorem unconfigured_key_stops_everything env w :
  hyperliquidSDK w = false ->
  truthyString (HYPERLIQUID_PRIVATE_KEY env) = false ->
  let e := Error "HYPERLIQUID_PRIVATE_KEY not configured" in
  let answer := {| statusCode := 500;
                   json := Failed "HYPERLIQUID_PRIVATE_KEY not configured" |} in
  (forall payload, executeTradeFromWebhook env payload w = (Throw e, w)) /\
  (forall c, getCurrentPosition env c w = (Throw e, w)) /\
  getAvailableBalance env w = (Throw e, w) /\
  (forall c, getMarketPrice env c w = (Throw e, w)) /\
  (forall c p, closePosition env c p w = (Throw e, w)) /\
  (forall c isBuy sz0 lev, openPosition env c isBuy sz0 lev w = (Throw e, w)) /\
  (forall body, wellFormed body = true -> postWebhook env body w = (Normal answer, w)) /\
  getPositions env w = (Normal answer, w) /\
  displayAccountInfo env w = (Normal tt, w).
Proof.
  intros Hsdk Hkey e answer.
  assert (Hc : getHyperliquidClient env w = (Throw e, w)).
  { unfold getHyperliquidClient. rewrite Hsdk, Hkey. reflexivity. }
  assert (Hcur : forall c, getCurrentPosition env c w = (Throw e, w)).
  { intros c. unfold getCurrentPosition, bind at 1. rewrite Hc. reflexivity. }
  assert (Hrun : forall payload, executeTradeFromWebhook env payload w = (Throw e, w)).
  { intros payload. unfold executeTradeFromWebhook, bind at 1. rewrite Hcur. reflexivity. }
  split; [exact Hrun|]. split; [exact Hcur|].
  split; [unfold getAvailableBalance, bind at 1; rewrite Hc; reflexivity|].
  split; [intros c; unfold getMarketPrice, bind at 1; rewrite Hc; reflexivity|].
  split; [intros c p; unfold closePosition, bind at 1; rewrite Hc; reflexivity|].
  split; [intros c isBuy sz0 lev; unfold openPosition, bind at 1; rewrite Hc; reflexivity|].
  split.
  - intros body Hwf. unfold wellFormed in Hwf.
    apply andb_true_iff in Hwf as [Hwf Hex].
    apply andb_true_iff in Hwf as [Hwf Hpos].
    apply andb_true_iff in Hwf as [Hm Hord].
    apply negb_true_iff in Hex.
    unfold postWebhook, tryCatch, bind. rewrite Hm, Hord, Hpos, Hex.
    cbn [negb orb]. rewrite Hrun. reflexivity.
  - split.
    + unfold getPositions, tryCatch, bind at 1. rewrite Hc. reflexivity.
    + unfold displayAccountInfo, tryCatch, bind at 1. rewrite Hc. reflexivity.
Qed.

Lemma unconfigured_key_stops_everything_witness :
  executeTradeFromWebhook unkeyed (signal "long") world0
  = (Throw (Error "HYPERLIQUID_PRIVATE_KEY not configured"), world0) /\
  postWebhook unkeyed (sampleBody (Some "long")) world0
  = (Normal {| statusCode := 500;
               json := Failed "HYPERLIQUID_PRIVATE_KEY not configured" |}, world0).
Proof.
  destruct (@unconfigured_key_stops_everything unkeyed world0)
    as (Hrun & _ & _ & _ & _ & _ & Hpost & _); [reflexivity|reflexivity|].
  split; [apply Hrun|apply Hpost; reflexivity].
Defined.

(* ================================================================== *)
(** * The position listing *)
(* ================================================================== *)

Lemma listedPosition_nonzero pos :
  negb (strictEq (parseFloat (szi pos)) (Fin 0)) = true ->
  strictEq (size (listedPosition pos)) (Fin 0) = false.
Proof.
  intros H. apply negb_true_iff in H. cbn [listedPosition size].
  rewrite strictEq_abs. exact H.
Qed.

(** X5.  [GET /positions] always answers and only reads: it places no
    order, sets no leverage and sends no alert.  The answer is either 500
    with an error message, or 200 with the list built from the holdings
    of the one snapshot it read whose size is not zero; no listed
    position has size zero and [count] is the length of the list.  With
    the client at hand the snapshot is asked for the address as it
    stands, without deriving it. *)
Theorem positions_are_listed env w :
  exists resp w' evs,
    getPositions env w = (Normal resp, w') /\
    history w' = (history w ++ evs)%list /\
    orderRequests evs = [] /\ leverageCalls evs = [] /\ alerts evs = [] /\
    (hyperliquidSDK w = true -> stateReads evs = [walletAddress w]) /\
    match json resp with
    | Listed positions count =>
        statusCode resp = 200%Z /\
        count = length positions /\
        Forall (fun p => strictEq (size p) (Fin 0) = false) positions /\
        exists a userState,
          final evs = Some (EvGetClearinghouseState a (Resolved userState)) /\
          positions = map listedPosition (activePositions userState)
    | Failed _ => statusCode resp = 500%Z
    | Succeeded _ => False
    end.
Proof.
  unfold getPositions, tryCatch, bind at 1.
  destruct (getHyperliquidClient env w) as [[[]|e|] w0] eqn:Hc.
  - pose proof Hc as Hc'.
    apply getHyperliquidClient_run in Hc as (cevs & Hh & Hshape & _ & _).
    destruct (connect_only_events Hshape) as (_ & Ha & Ho & Hl & _ & _ & Hr).
    assert (Hready : hyperliquidSDK w = true -> cevs = [] /\ w0 = w).
    { intros Hsdk. rewrite getHyperliquidClient_ready in Hc' by exact Hsdk.
      injection Hc' as <-. rewrite <- (app_nil_r (history w)) in Hh at 1.
      apply app_inv_head in Hh. auto. }
    unfold bind, getWalletAddress, await.
    destruct (getClearinghouseState env (history w0) (walletAddress w0)) as [st|e] eqn:Est.
    + eexists; eexists;
        exists (cevs ++ [EvGetClearinghouseState (walletAddress w0) (Resolved st)])%list.
      split; [reflexivity|]. rewrite record_history, Hh, <- app_assoc.
      split; [reflexivity|].
      rewrite orderRequests_app, alerts_app, Ho, Ha.
      unfold leverageCalls, stateReads in *. rewrite !flat_map_app, Hl, Hr.
      cbn [json statusCode]. repeat split.
      * intros Hsdk. destruct (Hready Hsdk) as [_ ->]. reflexivity.
      * apply Forall_map, Forall_forall. intros pos Hin.
        apply filter_In in Hin as [_ Hin]. apply listedPosition_nonzero, Hin.
      * exists (walletAddress w0), st. split; [|reflexivity].
        unfold final. rewrite rev_app_distr. reflexivity.
    + eexists; eexists;
        exists (cevs ++ [EvGetClearinghouseState (walletAddress w0) (Rejected e)])%list.
      split; [reflexivity|]. unfold ret. cbn [snd]. rewrite record_history, Hh, <- app_assoc.
      split; [reflexivity|].
      rewrite orderRequests_app, alerts_app, Ho, Ha.
      unfold leverageCalls, stateReads in *. rewrite !flat_map_app, Hl, Hr.
      cbn [json statusCode]. repeat split.
      intros Hsdk. destruct (Hready Hsdk) as [_ ->]. reflexivity.
  - pose proof Hc as Hc'.
    apply getHyperliquidClient_run in Hc as (cevs & Hh & Hshape & _ & _).
    destruct (connect_only_events Hshape) as (_ & Ha & Ho & Hl & _ & _ & Hr).
    eexists; eexists; exists cevs. split; [reflexivity|]. unfold ret. cbn [snd].
    repeat split; auto.
    intros Hsdk. rewrite getHyperliquidClient_ready in Hc' by exact Hsdk. discriminate.
  - apply getHyperliquidClient_run in Hc as (_ & _ & _ & Hd & _). congruence.
Qed.

(** X6.  The position [getCurrentPosition] reports is one of those the
    listing shows for the same snapshot: the one built from the first
    holding whose coin is the instrument without its [-PERP]. *)
Theorem held_position_is_listed env c w p w' :
  getCurrentPosition env c w = (Normal (Some p), w') ->
  exists a userState,
    final (history w') = Some (EvGetClearinghouseState a (Resolved userState)) /\
    In p (map listedPosition (activePositions userState)) /\
    coin p = replace "-PERP" "" c.
Proof.
  unfold getCurrentPosition. intros H.
  apply bind_Normal in H as (_ & w1 & _ & H).
  apply bind_Normal in H as (_ & w2 & _ & H).
  apply bind_Normal in H as (a & w3 & Ha & H).
  apply bind_Normal in H as (userState & w4 & Hst & H).
  apply await_run in Hst as [Hw4 Hr].
  destruct (getClearinghouseState env (history w3) a) as [st|e] eqn:Est; [|discriminate].
  injection Hr as Hr. subst userState.
  exists a, st.
  destruct (find _ (assetPositions st)) as [pos|] eqn:Ef;
    [|apply ret_run in H as [Hc _]; discriminate].
  destruct (strictEq (parseFloat (szi pos)) (Fin 0)) eqn:Ez;
    apply ret_run in H as [Hc ->]; [discriminate|].
  injection Hc as Hp. subst p.
  apply find_some in Ef as [Hin Heq]. apply String.eqb_eq in Heq.
  split; [subst w4; rewrite record_history; unfold final; rewrite rev_app_distr;
          reflexivity|].
  split; [|exact Heq].
  change (In (listedPosition pos) (map listedPosition (activePositions st))).
  apply in_map, filter_In. split; [exact Hin|]. rewrite Ez. reflexivity.
Qed.

Lemma held_position_is_listed_witness :
  let seen := getCurrentPosition (scripted [shortBTC] "50000" None) "BTC-PERP" world0 in
  fst seen = Normal (Some heldShort) /\
  exists a userState,
    final (history (snd seen)) = Some (EvGetClearinghouseState a (Resolved userState)) /\
    In heldShort (map listedPosition (activePositions userState)).
Proof.
  intros seen. split; [vm_compute; reflexivity|].
  destruct (@held_position_is_listed (scripted [shortBTC] "50000" None) "BTC-PERP"
              world0 heldShort (snd seen)) as (a & st & Hf & Hin & _);
    [vm_compute; reflexivity|].
  exists a, st. split; assumption.
Defined.

(* ================================================================== *)
(** * Closing, opening and the errors of the last attempt *)
(* ================================================================== *)

Lemma determineAction_close desiredPosition cur :
  determineAction desiredPosition cur = "CLOSE" ->
  desiredPosition = "flat" /\ exists p, cur = Some p.
Proof.
  unfold determineAction.
  destruct (String.eqb desiredPosition "flat") eqn:Ef.
  - apply String.eqb_eq in Ef. destruct cur as [p|]; [eauto|discriminate].
  - destruct (String.eqb desiredPosition "long"), (String.eqb desiredPosition "short"),
      cur as [p|]; try discriminate; destruct (side p); discriminate.
Qed.

Lemma determineAction_open desiredPosition cur (toLong : bool) :
  determineAction desiredPosition cur = (if toLong then "OPEN_LONG" else "OPEN_SHORT") ->
  desiredPosition = (if toLong then "long" else "short") /\ cur = None.
Proof.
  unfold determineAction.
  destruct (String.eqb desiredPosition "flat") eqn:Ef.
  - destruct cur, toLong; discriminate.
  - destruct (String.eqb desiredPosition "long") eqn:El.
    + apply String.eqb_eq in El.
      destruct cur as [p|], toLong; try discriminate; auto; destruct (side p); discriminate.
    + destruct (String.eqb desiredPosition "short") eqn:Es.
      * apply String.eqb_eq in Es.
        destruct cur as [p|], toLong; try discriminate; auto; destruct (side p); discriminate.
      * destruct toLong; discriminate.
Qed.

(** X7.  When the action is ['CLOSE'] a position is held, the signal asks
    for flat, and [executeTradeFromWebhook] runs [closePosition] on the
    held position and nothing else: its orders are reduce-only for the
    held size on the opposite side, no leverage is set and the account is
    not read again.  The run ends as the close ends; the trade alert
    carries the held size, the error alert the error of the close. *)
Theorem close_runs_one_close env payload w cur w1 r w' :
  let c := convertMarketToCoin (market payload) in
  getCurrentPosition env c w = (Normal cur, w1) ->
  determineAction (position payload) cur = "CLOSE" ->
  executeTradeFromWebhook env payload w = (r, w') ->
  exists p rc w2 closing,
    cur = Some p /\ position payload = "flat" /\
    closePosition env c p w1 = (rc, w2) /\
    history w2 = (history w1 ++ closing)%list /\
    Forall (closes p) (orderRequests closing) /\
    leverageCalls closing = [] /\ stateReads closing = [] /\
    r = rc /\ r <> Diverge /\
    history w' = (history w2
                    ++ notice env payload
                         match rc with
                         | Normal _ => Normal (size p)
                         | Throw e => Throw e
                         | Diverge => Diverge
                         end)%list.
Proof.
  intros c Hcur Hact Hrun.
  pose proof Hact as Hp. apply determineAction_close in Hp as (Hflat & p & ->).
  pose proof Hcur as Hsdk1. apply getCurrentPosition_ready in Hsdk1.
  destruct (closePosition env c p w1) as [rc w2] eqn:Hclose.
  exists p, rc, w2.
  pose proof Hclose as Hev.
  apply closePosition_events in Hev
    as (closing & Hh & _ & _ & Hr & Hl & Hcl & Hd & _); [|exact Hsdk1].
  exists closing.
  assert (Hcl' : Forall (closes p) (orderRequests closing)).
  { eapply Forall_impl; [|exact Hcl]. intros req [px ->]. repeat split. }
  clear Hcl.
  unfold executeTradeFromWebhook in Hrun. fold c in Hrun.
  unfold bind at 1 in Hrun. rewrite Hcur, Hact in Hrun.
  change (dispatch env payload c (Some p) "CLOSE")
    with (closePosition env c p ;; afterSwitch env payload (Some (size p)))%js in Hrun.
  unfold tryCatch, bind at 1 in Hrun. rewrite Hclose in Hrun.
  destruct rc as [[]|e|]; [| |congruence].
  - destruct (afterSwitch env payload (Some (size p)) w2) as [ra wa] eqn:Ha.
    apply afterSwitch_run in Ha as (-> & Hh' & _). inversion Hrun; subst.
    repeat split; auto; discriminate.
  - unfold bind, when, sendErrorAlert, emit, ret, throw in Hrun. unfold notice.
    destruct (discordWebhook env); inversion Hrun; subst; cbn;
      rewrite ?app_nil_r; repeat split; auto; discriminate.
Qed.

(** A signal for flat while a short is held; the second order fills. *)
Lemma close_runs_one_close_witness :
  let env := scripted [shortBTC] "50000" (Some 1%nat) in
  let seen := getCurrentPosition env "BTC-PERP" world0 in
  let run := executeTradeFromWebhook env (signal "flat") world0 in
  fst run = Normal tt /\
  exists rc w2 closing,
    closePosition env "BTC-PERP" heldShort (snd seen) = (rc, w2) /\
    Forall (closes heldShort) (orderRequests closing) /\
    history (snd run)
    = ((history (snd seen) ++ closing)
         ++ [EvTradeAlert (signal "flat") (Fin (6 # 5))])%list.
Proof.
  intros env seen run.
  split; [vm_compute; reflexivity|].
  destruct (@close_runs_one_close env (signal "flat") world0 (Some heldShort)
              (snd seen) (fst run) (snd run))
    as (p & rc & w2 & closing & Hp & _ & Hc & Hh2 & Hcl & _ & _ & Hr & _ & Hh);
    try (vm_compute; reflexivity).
  injection Hp as <-.
  exists rc, w2, closing. split; [exact Hc|]. split; [exact Hcl|].
  rewrite Hh, Hh2. subst rc.
  replace (fst run) with (@Normal unit tt) by (vm_compute; reflexivity).
  reflexivity.
Defined.

(** X8.  When the action is ['OPEN_LONG'] or ['OPEN_SHORT'] no position
    is held and [executeTradeFromWebhook] runs [executeLong], respectively
    [executeShort], and nothing else: no order of the run is reduce-only
    and each is on the side asked for.  The run ends as the executor
    ends; the trade alert carries the size the executor returned. *)
Theorem open_runs_one_executor env payload w cur w1 r w' (toLong : bool) :
  let c := convertMarketToCoin (market payload) in
  getCurrentPosition env c w = (Normal cur, w1) ->
  determineAction (position payload) cur
  = (if toLong then "OPEN_LONG" else "OPEN_SHORT") ->
  executeTradeFromWebhook env payload w = (r, w') ->
  cur = None /\
  exists ro w2 opening,
    (if toLong then executeLong else executeShort)
      env c (sizeByLeverage payload) w1 = (ro, w2) /\
    history w2 = (history w1 ++ opening)%list /\
    Forall (opens toLong) (orderRequests opening) /\
    r = unitOf ro /\ r <> Diverge /\
    history w' = (history w2 ++ notice env payload ro)%list.
Proof.
  intros c Hcur Hact Hrun.
  pose proof Hact as Hp. apply determineAction_open in Hp as (_ & ->).
  split; [reflexivity|].
  pose proof Hcur as Hsdk1. apply getCurrentPosition_ready in Hsdk1.
  destruct (executeOpen env toLong c (sizeByLeverage payload) w1) as [ro w2] eqn:Hopen.
  exists ro, w2.
  pose proof Hopen as Hev.
  apply executeOpen_events in Hev as (opening & Hh & _ & _ & Hop & Hd & _); [|exact Hsdk1].
  exists opening.
  assert (Hop' : Forall (opens toLong) (orderRequests opening)).
  { eapply Forall_impl; [|exact Hop]. intros req (size0 & px & ->). split; reflexivity. }
  clear Hop.
  split; [destruct toLong; exact Hopen|].
  unfold executeTradeFromWebhook in Hrun. fold c in Hrun.
  unfold bind at 1 in Hrun. rewrite Hcur, Hact in Hrun.
  assert (Hdisp :
    dispatch env payload c None (if toLong then "OPEN_LONG" else "OPEN_SHORT")
    = (size <- executeOpen env toLong c (sizeByLeverage payload) ;;
       afterSwitch env payload (Some size))%js)
    by (destruct toLong; reflexivity).
  rewrite Hdisp in Hrun. clear Hdisp.
  unfold tryCatch, bind at 1 in Hrun. rewrite Hopen in Hrun.
  destruct ro as [sz0|e|]; [| |congruence].
  - destruct (afterSwitch env payload (Some sz0) w2) as [ra wa] eqn:Ha.
    apply afterSwitch_run in Ha as (-> & Hh' & _). inversion Hrun; subst.
    repeat split; auto; discriminate.
  - unfold bind, when, sendErrorAlert, emit, ret, throw in Hrun. unfold notice.
    destruct (discordWebhook env); inversion Hrun; subst; cbn;
      rewrite ?app_nil_r; repeat split; auto; discriminate.
Qed.

(** A signal for long while nothing is held. *)
Lemma open_runs_one_executor_witness :
  let env := scripted [] "50000" (Some 0%nat) in
  let seen := getCurrentPosition env "BTC-PERP" world0 in
  let run := executeTradeFromWebhook env (signal "long") world0 in
  fst run = Normal tt /\
  exists ro w2 opening,
    executeLong env "BTC-PERP" (Fin (5 # 2)) (snd seen) = (ro, w2) /\
    Forall (opens true) (orderRequests opening) /\
    history (snd run) = ((history (snd seen) ++ opening) ++ notice env (signal "long") ro)%list.
Proof.
  intros env seen run.
  split; [vm_compute; reflexivity|].
  destruct (@open_runs_one_executor env (signal "long") world0 None
              (snd seen) (fst run) (snd run) true)
    as (_ & ro & w2 & opening & Ho & Hh2 & Hop & _ & _ & Hh);
    try (vm_compute; reflexivity).
  exists ro, w2, opening. split; [exact Ho|]. split; [exact Hop|].
  rewrite Hh, Hh2. reflexivity.
Defined.

Lemma calculatePositionSize_NaN_price availableBalance leverage :
  calculatePositionSize availableBalance leverage NaN = NaN.
Proof.
  unfold calculatePositionSize.
  assert (E : forall x, div x NaN = NaN) by (intros []; reflexivity).
  rewrite E. reflexivity.
Qed.

Lemma executeOpen_sized env isBuy c lev w bal w1 px w2 r w' :
  getAvailableBalance env w = (Normal bal, w1) ->
  getMarketPrice env c w1 = (Normal px, w2) ->
  executeOpen env isBuy c lev w = (r, w') ->
  exists rep after,
    history w' = (history w2 ++ EvUpdateLeverage c "cross" lev rep :: after)%list /\
    Forall (fun req => exists limit,
              req = openOrder c isBuy (calculatePositionSize bal lev px) limit)
           (orderRequests after) /\
    (length (orderRequests after) <= 3)%nat /\
    stateReads after = [] /\
    (forall s, r = Normal s -> s = calculatePositionSize bal lev px) /\
    r <> Diverge.
Proof.
  intros Hbal Hpx. unfold executeOpen, bind at 1. rewrite Hbal.
  unfold bind at 1. rewrite Hpx. intros H.
  assert (Hsdk2 : hyperliquidSDK w2 = true).
  { apply getAvailableBalance_ready in Hbal.
    apply getMarketPrice_quiet in Hpx as (_ & _ & _ & Hs & _); assumption. }
  apply bind_run in H as [(res & w3 & Ho & H)|[(e & Ho & ->)|[Ho ->]]];
    apply openPosition_events in Ho
      as (rep & after & Hh & _ & _ & Hr & _ & Hlen & Hreq & Hd & _);
    try exact Hsdk2; try congruence.
  - apply ret_run in H as [-> ->]. exists rep, after.
    repeat split; auto; try discriminate. intros s [= <-]. reflexivity.
  - exists rep, after. repeat split; auto; discriminate.
Qed.

(** X9.  [executeLong] and [executeShort] compute the size once, from the
    balance read and the price fetched before the leverage call, and
    every order of the run carries that size, also when a later attempt
    fetched another price for its limit; the account is not read again.
    The orders are for the instrument, on the side of the executor,
    immediate-or-cancel and not reduce-only, and the size is what the
    executor returns. *)
Theorem open_is_sized_once env c lev (isBuy : bool) w bal w1 px w2 r w' :
  getAvailableBalance env w = (Normal bal, w1) ->
  getMarketPrice env c w1 = (Normal px, w2) ->
  (if isBuy then executeLong else executeShort) env c lev w = (r, w') ->
  exists rep after,
    history w' = (history w2 ++ EvUpdateLeverage c "cross" lev rep :: after)%list /\
    Forall (fun req =>
              order_coin req = c /\ is_buy req = isBuy /\ reduce_only req = false /\
              tif req = "Ioc" /\ sz req = calculatePositionSize bal lev px)
           (orderRequests after) /\
    (length (orderRequests after) <= 3)%nat /\
    stateReads after = [] /\
    (forall s, r = Normal s -> s = calculatePositionSize bal lev px) /\
    r <> Diverge.
Proof.
  intros Hbal Hpx H.
  assert (H' : executeOpen env isBuy c lev w = (r, w')) by (destruct isBuy; exact H).
  destruct (@executeOpen_sized env isBuy c lev w bal w1 _ _ r w' Hbal Hpx H')
    as (rep & after & Hh & Hreq & Hlen & Hr & Hs & Hd).
  exists rep, after. repeat split; auto.
  eapply Forall_impl; [|exact Hreq]. intros req [limit ->]. repeat split.
Qed.

(** A long on an exchange that fills the third order: three orders of
    the one size 0.5. *)
Lemma open_is_sized_once_witness :
  let env := scripted [] "50000" (Some 2%nat) in
  let funds := getAvailableBalance env world0 in
  let quote := getMarketPrice env "BTC-PERP" (snd funds) in
  let run := executeLong env "BTC-PERP" (Fin (5 # 2)) world0 in
  fst run = Normal (Fin (1 # 2)) /\
  length (orderRequests (history (snd run))) = 3%nat /\
  exists rep after,
    history (snd run)
    = (history (snd quote) ++ EvUpdateLeverage "BTC-PERP" "cross" (Fin (5 # 2)) rep
         :: after)%list /\
    Forall (fun req => sz req = Fin (1 # 2)) (orderRequests after).
Proof.
  intros env funds quote run.
  split; [vm_compute; reflexivity|]. split; [vm_compute; reflexivity|].
  destruct (@open_is_sized_once env "BTC-PERP" (Fin (5 # 2)) true world0
              (Fin 10000) (snd funds) (Fin 50000) (snd quote) (fst run) (snd run))
    as (rep & after & Hh & Hreq & _); try (vm_compute; reflexivity).
  exists rep, after. split; [exact Hh|].
  eapply Forall_impl; [|exact Hreq]. intros req (_ & _ & _ & _ & ->).
  vm_compute. reflexivity.
Defined.

(** X10.  A coin the exchange does not quote does not stop an open: the
    price reads as [NaN] without an error, the leverage is still set, and
    every order that follows has the size [NaN], which is also the size
    reported on success. *)
Theorem unquoted_coin_is_ordered_anyway env c lev (isBuy : bool) w bal w1 m r w' :
  getAvailableBalance env w = (Normal bal, w1) ->
  getAllMids env (history w1) = Resolved m ->
  lookupMid m c = None ->
  (if isBuy then executeLong else executeShort) env c lev w = (r, w') ->
  getMarketPrice env c w1 = (Normal NaN, record (EvGetAllMids (Resolved m)) w1) /\
  exists rep after,
    history w' = (history w1 ++ EvGetAllMids (Resolved m)
                    :: EvUpdateLeverage c "cross" lev rep :: after)%list /\
    Forall (fun req => sz req = NaN) (orderRequests after) /\
    (forall s, r = Normal s -> s = NaN).
Proof.
  intros Hbal Hm Hlook H.
  assert (Hpx : getMarketPrice env c w1
                = (Normal NaN, record (EvGetAllMids (Resolved m)) w1)).
  { rewrite getMarketPrice_run by (eapply getAvailableBalance_ready; exact Hbal).
    rewrite Hm. unfold midPrice. rewrite Hlook. reflexivity. }
  split; [exact Hpx|].
  assert (H' : executeOpen env isBuy c lev w = (r, w')) by (destruct isBuy; exact H).
  destruct (@executeOpen_sized env isBuy c lev w bal w1 _ _ r w' Hbal Hpx H')
    as (rep & after & Hh & Hreq & _ & _ & Hs & _).
  rewrite calculatePositionSize_NaN_price in Hreq, Hs.
  exists rep, after. rewrite Hh, record_history, <- app_assoc.
  repeat split; auto.
  eapply Forall_impl; [|exact Hreq]. intros req [limit ->]. reflexivity.
Qed.

(** A long on [ETH-PERP] against an exchange that quotes [BTC-PERP] only
    and fills whatever it gets. *)
Lemma unquoted_coin_is_ordered_anyway_witness :
  let env := scripted [] "50000" (Some 0%nat) in
  let funds := getAvailableBalance env world0 in
  let run := executeLong env "ETH-PERP" (Fin (5 # 2)) world0 in
  fst run = Normal NaN /\
  orderRequests (history (snd run))
  = [{| order_coin := "ETH-PERP"; is_buy := true; sz := NaN; limit_px := NaN;
        tif := "Ioc"; reduce_only := false |}] /\
  exists rep after,
    history (snd run)
    = (history (snd funds) ++ EvGetAllMids (Resolved [("BTC-PERP", "50000")])
         :: EvUpdateLeverage "ETH-PERP" "cross" (Fin (5 # 2)) rep :: after)%list /\
    Forall (fun req => sz req = NaN) (orderRequests after).
Proof.
  intros env funds run.
  split; [vm_compute; reflexivity|]. split; [vm_compute; reflexivity|].
  destruct (@unquoted_coin_is_ordered_anyway env "ETH-PERP" (Fin (5 # 2)) true world0
              (Fin 10000) (snd funds) [("BTC-PERP", "50000")] (fst run) (snd run))
    as (_ & rep & after & Hh & Hreq & _); try (vm_compute; reflexivity).
  exists rep, after. split; assumption.
Defined.

Lemma attempts_failure kind c build evs r :
  Attempts kind c build 0 evs r ->
  (forall e ev, final evs = Some ev -> rejectedWith e ev -> r = Throw e) /\
  (forall e, r = Throw e ->
     priceFetches evs = 3%nat /\
     ((exists ev, final evs = Some ev /\ rejectedWith e ev)
      \/ e = Error (exhaustedMessage kind))).
Proof.
  intros H. unroll_attempts.
  all: unfold backoff, maxAttempts, rejectedWith; cbn.
  all: split;
    [ intros ? ? Hf Hr; injection Hf as <-; destruct Hr as [Hr|[? Hr]];
      try discriminate Hr; injection Hr; intros; subst; reflexivity
    | intros ? He; try discriminate He; injection He as <-;
      (split; [reflexivity|]);
      first [ right; reflexivity
            | left; eexists; split; [reflexivity|]; left; reflexivity
            | left; eexists; split; [reflexivity|]; right; eexists; reflexivity ] ].
Qed.

(** X11.  With the client at hand, [closePosition] and [openPosition]
    fail only in their third attempt (or, for the open, on the leverage
    call): whatever goes wrong in the first two attempts is retried.  A
    rejection of the price fetch or of the order in the third attempt is
    thrown on as it is; a failure that does not end on such a rejection
    carries the message of the exhausted attempts. *)
Theorem last_attempt_errors_surface env c :
  (forall p w r w',
     hyperliquidSDK w = true ->
     closePosition env c p w = (r, w') ->
     exists evs,
       history w' = (history w ++ evs)%list /\
       (forall e ev, final evs = Some ev -> rejectedWith e ev -> r = Throw e) /\
       (forall e, r = Throw e ->
          priceFetches evs = 3%nat /\
          ((exists ev, final evs = Some ev /\ rejectedWith e ev)
           \/ e = Error "Close order failed after 3 attempts")))
  /\
  (forall isBuy sz0 lev w r w',
     hyperliquidSDK w = true ->
     openPosition env c isBuy sz0 lev w = (r, w') ->
     exists rep evs,
       history w' = (history w ++ EvUpdateLeverage c "cross" lev rep :: evs)%list /\
       (forall e, rep = Rejected e -> r = Throw e /\ evs = []) /\
       (rep = Resolved tt ->
        (forall e ev, final evs = Some ev -> rejectedWith e ev -> r = Throw e) /\
        (forall e, r = Throw e ->
           priceFetches evs = 3%nat /\
           ((exists ev, final evs = Some ev /\ rejectedWith e ev)
            \/ e = Error "Open order failed after 3 attempts")))).
Proof.
  split.
  - intros p w r w' Hsdk H.
    apply closePosition_loop in H as (evs & r0 & HA & Hh & _ & ->); [|exact Hsdk].
    exists evs. split; [exact Hh|].
    destruct (attempts_failure HA) as [H1 H2]. split.
    + intros e ev Hf Hr. rewrite (H1 e ev Hf Hr). reflexivity.
    + intros e He. destruct r0 as [res|e0|]; try discriminate He.
      injection He as ->. exact (H2 e eq_refl).
  - intros isBuy sz0 lev w r w' Hsdk H.
    apply openPosition_loop in H as (_ & [(e & -> & Hh)|(evs & HA & Hh)]); [| |exact Hsdk].
    + exists (Rejected e), []. split; [exact Hh|]. split.
      * intros e' [= ->]. auto.
      * discriminate.
    + exists (Resolved tt), evs. split; [exact Hh|]. split; [discriminate|].
      intros _. exact (attempts_failure HA).
Qed.

(** An exchange that leaves two orders unfilled and then rejects the
    third: the close fails with the rejection, not with the message of
    the exhausted attempts. *)
Lemma last_attempt_errors_surface_witness :
  let env := rejectingThird in
  let seen := getCurrentPosition env "BTC-PERP" world0 in
  let run := closePosition env "BTC-PERP" heldShort (snd seen) in
  fst run = Throw (Error "insufficient margin") /\
  exists evs,
    history (snd run) = (history (snd seen) ++ evs)%list /\
    priceFetches evs = 3%nat.
Proof.
  intros env seen run.
  split; [vm_compute; reflexivity|].
  destruct (proj1 (last_attempt_errors_surface env "BTC-PERP")
              heldShort (snd seen) (fst run) (snd run))
    as (evs & Hh & _ & Hthrow); try (vm_compute; reflexivity).
  exists evs. split; [exact Hh|].
  apply (Hthrow (Error "insufficient margin")). vm_compute. reflexivity.
Defined.

(* ================================================================== *)
(** * The delivery of Discord messages *)
(* ================================================================== *)

Section Delivery.
Variable Payload : Type.
Variable webhookUrl : string.
Variable fetch : list (Discord.Delivery Payload) -> string -> Payload
                 -> reply Discord.Response.

(** The loop, unrolled: one, two or three requests. *)
Lemma sendWebhookWithRetry_unrolled payload h :
  exists ds a,
    snd (Discord.sendWebhookWithRetry webhookUrl fetch payload h) = (h ++ ds)%list /\
    Discord.lastAnswer ds = Some a /\
    fst (Discord.sendWebhookWithRetry webhookUrl fetch payload h) = Discord.outcomeOf a /\
    forallb Discord.retriable (Discord.earlierAnswers ds) = true /\
    (Discord.retriable a = true -> length (Discord.responses ds) = 3%nat) /\
    (length (Discord.responses ds) <= 3)%nat /\
    Discord.waits ds = Discord.linearBackoff (length (Discord.responses ds)) /\
    Discord.payloads ds = repeat payload (length (Discord.responses ds)) /\
    Discord.urls ds = repeat webhookUrl (length (Discord.responses ds)).
Proof.
  unfold Discord.sendWebhookWithRetry, Discord.MAX_RETRIES.
  cbn [Discord.retryFrom Nat.leb Nat.ltb andb].
  repeat match goal with
         | |- context [fetch ?hh webhookUrl payload] =>
             let E := fresh "E" in
             destruct (fetch hh webhookUrl payload) as [?|?] eqn:E
         | |- context [Discord.ok ?x] =>
             let O := fresh "O" in destruct (Discord.ok x) eqn:O
         | |- context [(500 <=? Discord.status ?x)%Z] =>
             let S := fresh "S" in destruct (500 <=? Discord.status x)%Z eqn:S
         | _ => progress cbn [andb Nat.leb Nat.ltb fst snd]
         end.
  all: eexists; eexists; (split; [rewrite <- ?app_assoc; cbn [app]; reflexivity|]).
  all: (split; [unfold Discord.lastAnswer; cbn; reflexivity|]).
  all: cbn [fst]; (split; [reflexivity|]).
  all: unfold Discord.lastAnswer, Discord.earlierAnswers, Discord.linearBackoff,
         Discord.retriable, Discord.RETRY_DELAY_MS; cbn.
  all: repeat match goal with
              | H : Discord.ok _ = _ |- _ => rewrite H
              | H : (500 <=? Discord.status _)%Z = _ |- _ => rewrite H
              end; cbn.
  all: repeat split; try reflexivity; try lia; try discriminate.
Qed.

(** A delivery behind [try]/[catch]: it completes, after at most three
    requests for the one payload. *)
Lemma swallowed_delivery payload h :
  exists ds,
    Discord.swallow (Discord.deliver webhookUrl fetch payload) h
    = (Normal tt, (h ++ ds)%list) /\
    (1 <= length (Discord.responses ds) <= 3)%nat /\
    Discord.waits ds = Discord.linearBackoff (length (Discord.responses ds)) /\
    Discord.payloads ds = repeat payload (length (Discord.responses ds)) /\
    Discord.urls ds = repeat webhookUrl (length (Discord.responses ds)).
Proof.
  destruct (sendWebhookWithRetry_unrolled payload h)
    as (ds & a & Hh & Hl & Hr & _ & _ & Hn & Hw & Hp & Hu).
  exists ds. unfold Discord.swallow, Discord.deliver.
  destruct (Discord.sendWebhookWithRetry webhookUrl fetch payload h) as [r h'].
  cbn [fst snd] in Hh, Hr. subst h' r.
  split; [destruct a; reflexivity|].
  split; [|auto].
  split; [|exact Hn].
  unfold Discord.lastAnswer in Hl.
  destruct (Discord.responses ds); [discriminate|cbn; lia].
Qed.

End Delivery.

(** X12.  [sendWebhookWithRetry] makes one, two or three requests and
    never returns [null].  It stops at the first answer that is not a
    rejection and not a status from 500 on, and then returns that
    response, also when it is not [ok]; as long as the answers are
    rejections or statuses from 500 on it goes on to the third request.
    It returns the last response, or throws the error of the last
    request when that one was rejected. *)
Theorem delivery_stops_at_first_final_answer (Payload : Type) webhookUrl
    (fetch : list (Discord.Delivery Payload) -> string -> Payload -> reply Discord.Response)
    payload h :
  let run := Discord.sendWebhookWithRetry webhookUrl fetch payload h in
  exists ds a,
    snd run = (h ++ ds)%list /\
    Discord.lastAnswer ds = Some a /\
    fst run = Discord.outcomeOf a /\
    fst run <> Normal None /\ fst run <> Diverge /\
    forallb Discord.retriable (Discord.earlierAnswers ds) = true /\
    (Discord.retriable a = true -> length (Discord.responses ds) = 3%nat) /\
    (length (Discord.responses ds) <= 3)%nat.
Proof.
  intros run.
  destruct (sendWebhookWithRetry_unrolled webhookUrl fetch payload h)
    as (ds & a & Hh & Hl & Hr & He & Hthree & Hn & _).
  exists ds, a. fold run in Hh, Hr. rewrite Hr.
  repeat split; auto; destruct a; discriminate.
Qed.


(** X14.  [sendTradeAlert] and [sendErrorAlert] never fail and always
    return, whatever happens to the requests: what the delivery throws is
    caught.  With an empty URL nothing is requested.  Otherwise one to
    three requests are made, all with the one payload: for a trade alert
    the entry message when the position is ['long'] or ['short'], the
    exit message when it is ['flat'], the generic one for anything
    else. *)
Theorem discord_alerts_never_fail (Payload : Type)
    (entryPayload exitPayload genericPayload : WebhookPayload -> number -> Payload)
    (errorPayload : WebhookPayload -> string -> Payload)
    webhookUrl
    (fetch : list (Discord.Delivery Payload) -> string -> Payload -> reply Discord.Response)
    webhookPayload orderResult error h :
  (exists ds,
     Discord.sendTradeAlert entryPayload exitPayload genericPayload webhookUrl fetch
       webhookPayload orderResult h = (Normal tt, (h ++ ds)%list) /\
     (length (Discord.responses ds) <= 3)%nat /\
     (length (Discord.responses ds) = 0%nat <-> webhookUrl = "") /\
     Discord.payloads ds
     = repeat (if Discord.isEntryWebhook (position webhookPayload)
               then entryPayload webhookPayload orderResult
               else if Discord.isExitWebhook (position webhookPayload)
                    then exitPayload webhookPayload orderResult
                    else genericPayload webhookPayload orderResult)
              (length (Discord.responses ds)))
  /\
  (exists ds,
     Discord.sendErrorAlert errorPayload webhookUrl fetch webhookPayload error h
     = (Normal tt, (h ++ ds)%list) /\
     (length (Discord.responses ds) <= 3)%nat /\
     (length (Discord.responses ds) = 0%nat <-> webhookUrl = "") /\
     Discord.payloads ds
     = repeat (errorPayload webhookPayload error) (length (Discord.responses ds))).
Proof.
  assert (Hsw : forall payload,
            webhookUrl <> "" ->
            exists ds,
              Discord.swallow (Discord.deliver webhookUrl fetch payload) h
              = (Normal tt, (h ++ ds)%list) /\
              (length (Discord.responses ds) <= 3)%nat /\
              (length (Discord.responses ds) = 0%nat <-> webhookUrl = "") /\
              Discord.payloads ds = repeat payload (length (Discord.responses ds))).
  { intros payload Hne.
    destruct (swallowed_delivery webhookUrl fetch payload h)
      as (ds & Hrun & Hn & _ & Hp & _).
    exists ds. split; [exact Hrun|]. split; [lia|]. split; [|exact Hp].
    split; [lia|contradiction]. }
  split.
  - unfold Discord.sendTradeAlert.
    destruct (String.eqb webhookUrl "") eqn:E.
    + apply String.eqb_eq in E. exists []. rewrite app_nil_r. cbn.
      repeat split; auto.
    + apply String.eqb_neq in E.
      destruct (Discord.isEntryWebhook (position webhookPayload));
        [|destruct (Discord.isExitWebhook (position webhookPayload))];
        apply Hsw; exact E.
  - unfold Discord.sendErrorAlert.
    destruct (String.eqb webhookUrl "") eqn:E.
    + apply String.eqb_eq in E. exists []. rewrite app_nil_r. cbn.
      repeat split; auto.
    + apply String.eqb_neq in E. apply Hsw; exact E.
Qed.

Lemma trade_alert_among_alerts p filledSize evs :
  In (EvTradeAlert p filledSize) evs -> In (EvTradeAlert p filledSize) (alerts evs).
Proof. intros H. apply filter_In. split; [exact H|reflexivity]. Qed.

(** X15.  A trade alert is sent only by a run that succeeds, it is about
    the payload of that run, and the position the payload names is
    ['long'], ['short'] or ['flat']: the server never makes the service
    send its generic message. *)
Theorem trade_alerts_are_entries_or_exits env payload w r w' :
  executeTradeFromWebhook env payload w = (r, w') ->
  exists evs,
    history w' = (history w ++ evs)%list /\
    forall p filledSize,
      In (EvTradeAlert p filledSize) evs ->
      p = payload /\ r = Normal tt /\
      Discord.isEntryWebhook (position p) || Discord.isExitWebhook (position p) = true.
Proof.
  intros H. apply executeTrade_run in H as (rc & w1 & Hcur & H).
  apply getCurrentPosition_events in Hcur as (cevs & revs & Hh1 & Hc & _ & Hr & _).
  assert (Hal : alerts (cevs ++ revs) = []).
  { rewrite alerts_app.
    destruct (connect_only_events Hc) as (_ & -> & _).
    destruct (read_only_events Hr) as (_ & -> & _). reflexivity. }
  destruct rc as [cur|e|]; [| |contradiction].
  - destruct H as (_ & rd & wd & devs & Hd & Hh & [_ Hout] & _ & H).
    assert (Hknown : devs <> [] ->
              Discord.isEntryWebhook (position payload)
              || Discord.isExitWebhook (position payload) = true).
    { intros Hne. unfold Discord.isEntryWebhook, Discord.isExitWebhook.
      destruct (String.eqb (position payload) "long") eqn:El; [reflexivity|].
      destruct (String.eqb (position payload) "short") eqn:Es; [reflexivity|].
      destruct (String.eqb (position payload) "flat") eqn:Ef; [reflexivity|].
      exfalso. apply Hne.
      apply String.eqb_neq in El, Es, Ef.
      rewrite (determineAction_falls_through cur Ef El Es) in Hd.
      change (dispatch env payload (convertMarketToCoin (market payload)) cur "NONE" w1)
        with (@Normal unit tt, w1) in Hd.
      injection Hd as _ <-.
      rewrite <- (app_nil_r (history w1)) in Hh at 1.
      apply app_inv_head in Hh. auto. }
    destruct rd as [[]|e|]; [| |contradiction].
    + destruct H as [-> ->]. exists ((cevs ++ revs) ++ devs)%list.
      split; [rewrite Hh, Hh1, <- !app_assoc; reflexivity|].
      intros p fs Hin. apply trade_alert_among_alerts in Hin.
      rewrite alerts_app, Hal in Hin. cbn [app] in Hin.
      destruct Hout as [(front & -> & Hf)|(_ & sz0 & front & -> & Hf)];
        rewrite alerts_app, Hf in Hin; cbn in Hin; [contradiction|].
      destruct Hin as [[= <- <-]|[]].
      split; [reflexivity|]. split; [reflexivity|].
      apply Hknown. destruct front; discriminate.
    + destruct H as [-> Hh'].
      exists ((cevs ++ revs) ++ devs ++ notice env payload (Throw e))%list.
      split; [rewrite Hh', Hh, Hh1, <- !app_assoc; reflexivity|].
      intros p fs Hin. apply trade_alert_among_alerts in Hin.
      rewrite alerts_app, Hal, alerts_app, Hout in Hin. cbn [app] in Hin.
      unfold notice in Hin. destruct (discordWebhook env); cbn in Hin;
        [destruct Hin as [Hin|[]]; discriminate|contradiction].
  - destruct H as [-> ->]. exists (cevs ++ revs)%list. split; [exact Hh1|].
    intros p fs Hin. apply trade_alert_among_alerts in Hin.
    rewrite Hal in Hin. contradiction.
Qed.

(** A signal for long while nothing is held: the one trade alert is an
    entry. *)
Lemma trade_alerts_are_entries_or_exits_witness :
  let env := scripted [] "50000" (Some 0%nat) in
  let run := executeTradeFromWebhook env (signal "long") world0 in
  In (EvTradeAlert (signal "long") (Fin (1 # 2))) (history (snd run)) /\
  Discord.isEntryWebhook (position (signal "long"))
  || Discord.isExitWebhook (position (signal "long")) = true.
Proof.
  intros env run.
  destruct (@trade_alerts_are_entries_or_exits env (signal "long") world0 (fst run) (snd run))
    as (evs & Hh & Hall); [vm_compute; reflexivity|].
  assert (Hin : In (EvTradeAlert (signal "long") (Fin (1 # 2))) (history (snd run))).
  { vm_compute. repeat first [left; reflexivity | right]. }
  split; [exact Hin|].
  rewrite Hh in Hin. cbn [history world0 app] in Hin.
  exact (proj2 (proj2 (Hall _ _ Hin))).
Defined.

(* ================================================================== *)
(** * Market symbols *)
(* ================================================================== *)

Lemma toUpperCase_idempotent s : toUpperCase (toUpperCase s) = toUpperCase s.
Proof.
  induction s as [|c s IH]; [reflexivity|]. cbn [toUpperCase]. rewrite IH. f_equal.
  unfold upcase.
  destruct ((97 <=? nat_of_ascii c)%nat && (nat_of_ascii c <=? 122)%nat) eqn:E.
  - apply andb_true_iff in E as [E1 E2].
    apply Nat.leb_le in E1, E2.
    rewrite nat_ascii_embedding by lia.
    replace ((97 <=? nat_of_ascii c - 32)%nat && (nat_of_ascii c - 32 <=? 122)%nat)
      with false; [reflexivity|].
    symmetry. apply andb_false_iff. left. apply Nat.leb_gt. lia.
  - rewrite E. reflexivity.
Qed.

Lemma toUpperCase_substring n s :
  toUpperCase (substring 0 n s) = substring 0 n (toUpperCase s).
Proof.
  revert s. induction n as [|n IH]; intros [|c s]; cbn [substring toUpperCase];
    try reflexivity. rewrite IH. reflexivity.
Qed.

Lemma prefix_empty s : prefix "" s = true.
Proof. destruct s; reflexivity. Qed.

Lemma includes_char c x s :
  includes (String c "") (String x s) = Ascii.eqb c x || includes (String c "") s.
Proof.
  cbn [includes prefix]. rewrite prefix_empty.
  destruct (ascii_dec c x) as [->|Hne].
  - rewrite Ascii.eqb_refl. reflexivity.
  - apply Ascii.eqb_neq in Hne. rewrite Hne. reflexivity.
Qed.

Lemma includes_char_empty c : includes (String c "") "" = false.
Proof. reflexivity. Qed.

Lemma splitHead_without_separator sep s :
  includes (String sep "") (splitHead sep s) = false.
Proof.
  induction s as [|x s IH]; [reflexivity|].
  cbn [splitHead]. destruct (Ascii.eqb x sep) eqn:E; [reflexivity|].
  rewrite includes_char, IH, Ascii.eqb_sym, E. reflexivity.
Qed.

Lemma splitHead_keeps_absent c sep s :
  includes (String c "") s = false ->
  includes (String c "") (splitHead sep s) = false.
Proof.
  induction s as [|x s IH]; [reflexivity|].
  rewrite includes_char. intros H. apply orb_false_iff in H as [Hx Hs].
  cbn [splitHead]. destruct (Ascii.eqb x sep); [reflexivity|].
  rewrite includes_char, Hx, (IH Hs). reflexivity.
Qed.

Lemma splitHead_identity sep s :
  includes (String sep "") s = false -> splitHead sep s = s.
Proof.
  induction s as [|x s IH]; [reflexivity|].
  rewrite includes_char. intros H. apply orb_false_iff in H as [Hx Hs].
  cbn [splitHead]. rewrite Ascii.eqb_sym, Hx, (IH Hs). reflexivity.
Qed.

(** X16.  For a market symbol of the documented form, with an underscore
    and neither a slash nor a hyphen, the token the Discord messages show
    is the part before the first underscore, the very part from which
    [convertMarketToCoin] makes the traded coin; it holds none of the
    three separators. *)
Theorem alert_token_is_the_traded_base market :
  includes "/" market = false ->
  includes "-" market = false ->
  includes "_" market = true ->
  Discord.extractBaseToken market = splitHead "_" market /\
  convertMarketToCoin market = toUpperCase (Discord.extractBaseToken market) ++ "-PERP" /\
  includes "/" (Discord.extractBaseToken market) = false /\
  includes "-" (Discord.extractBaseToken market) = false /\
  includes "_" (Discord.extractBaseToken market) = false.
Proof.
  intros Hs Hh Hu.
  assert (E : Discord.extractBaseToken market = splitHead "_" market).
  { unfold Discord.extractBaseToken. cbn [Discord.splitAtFirst].
    rewrite Hs, Hh, Hu. reflexivity. }
  rewrite E. split; [reflexivity|]. split; [reflexivity|].
  split; [apply splitHead_keeps_absent; exact Hs|].
  split; [apply splitHead_keeps_absent; exact Hh|].
  apply splitHead_without_separator.
Qed.

Lemma alert_token_is_the_traded_base_witness :
  Discord.extractBaseToken "BTC_USD" = "BTC" /\
  convertMarketToCoin "BTC_USD" = "BTC-PERP".
Proof.
  destruct (@alert_token_is_the_traded_base "BTC_USD") as (E & C & _);
    try reflexivity.
  split; [exact E|]. rewrite C, E. reflexivity.
Defined.

(** X17.  [formatMarketPair] keeps the length of the symbol, turns every
    underscore into a slash and leaves every other character where it
    is: no underscore remains, and a symbol without one is unchanged. *)
Theorem formatMarketPair_replaces_every_underscore market :
  String.length (Discord.formatMarketPair market) = String.length market /\
  includes "_" (Discord.formatMarketPair market) = false /\
  (forall i, get i (Discord.formatMarketPair market)
             = option_map (fun c => if Ascii.eqb c "_" then "/"%char else c)
                          (get i market)) /\
  (includes "_" market = false -> Discord.formatMarketPair market = market).
Proof.
  unfold Discord.formatMarketPair.
  induction market as [|x s (IHl & IHi & IHg & IHs)]; [repeat split; intros []; reflexivity|].
  cbn [replaceEach String.length].
  split; [rewrite IHl; reflexivity|].
  split.
  - rewrite includes_char, IHi.
    destruct (Ascii.eqb x "_") eqn:E; [reflexivity|].
    rewrite Ascii.eqb_sym, E. reflexivity.
  - split.
    + intros [|i]; [reflexivity|]. cbn [get]. apply IHg.
    + rewrite includes_char. intros H. apply orb_false_iff in H as [Hx Hs].
      rewrite Ascii.eqb_sym, Hx, (IHs Hs). reflexivity.
Qed.

(* ================================================================== *)
(** * The coin under which the position is looked up *)
(* ================================================================== *)

Lemma prefix_cons a p b s :
  prefix (String a p) (String b s) = Ascii.eqb a b && prefix p s.
Proof.
  cbn [prefix]. destruct (ascii_dec a b) as [->|Hne].
  - rewrite Ascii.eqb_refl. reflexivity.
  - apply Ascii.eqb_neq in Hne. rewrite Hne. reflexivity.
Qed.

(** [-PERP] does not overlap itself: it starts inside [s ++ "-PERP"] only
    where it starts inside [s], or at the end. *)
Lemma prefix_PERP_after c s :
  prefix "-PERP" (String c s) = false ->
  prefix "-PERP" (String c s ++ "-PERP") = false.
Proof.
  destruct s as [|c2 [|c3 [|c4 [|c5 s]]]]; cbn [append];
    rewrite ?prefix_cons, ?prefix_empty; intros H; try exact H;
    repeat match goal with
           | |- context [Ascii.eqb ?a ?b] =>
               is_var b; destruct (Ascii.eqb a b)
           end; reflexivity.
Qed.

Lemma replace_PERP_suffix s :
  includes "-PERP" s = false -> replace "-PERP" "" (s ++ "-PERP") = s.
Proof.
  induction s as [|c s IH]; [reflexivity|].
  intros H. cbn [includes] in H.
  destruct (prefix "-PERP" (String c s)) eqn:Ep; [discriminate|].
  change (String c s ++ "-PERP") with (String c (s ++ "-PERP")).
  cbn [replace].
  change (String c (s ++ "-PERP")) with (String c s ++ "-PERP").
  rewrite (prefix_PERP_after _ _ Ep).
  rewrite (IH H). reflexivity.
Qed.

(** X18.  The coin [convertMarketToCoin] makes from a market symbol is
    the upper-case part before the first underscore followed by
    [-PERP], and the name under which [getCurrentPosition] then looks
    for the holding is that upper-case part again, provided it does not
    itself contain [-PERP].  What follows the first underscore and the
    case of the letters do not matter. *)
Theorem coin_is_looked_up_by_its_base market :
  let base := toUpperCase (splitHead "_" market) in
  includes "-PERP" base = false ->
  convertMarketToCoin market = base ++ "-PERP" /\
  replace "-PERP" "" (convertMarketToCoin market) = base /\
  convertMarketToCoin base = convertMarketToCoin market.
Proof.
  intros base H. split; [reflexivity|]. split.
  - unfold convertMarketToCoin. fold base. apply replace_PERP_suffix. exact H.
  - unfold convertMarketToCoin. fold base. f_equal.
    assert (Hsplit : forall s, splitHead "_" (toUpperCase (splitHead "_" s))
                               = toUpperCase (splitHead "_" s)).
    { intros s. apply splitHead_identity.
      induction s as [|c s IH]; [reflexivity|].
      cbn [splitHead]. destruct (Ascii.eqb c "_") eqn:E; [reflexivity|].
      cbn [toUpperCase]. rewrite includes_char, IH, orb_false_r.
      apply Ascii.eqb_neq. intros Heq. apply Ascii.eqb_neq in E. apply E.
      unfold upcase in Heq.
      destruct ((97 <=? nat_of_ascii c)%nat && (nat_of_ascii c <=? 122)%nat) eqn:E';
        [|congruence].
      apply andb_true_iff in E' as [E1 E2]. apply Nat.leb_le in E1, E2.
      exfalso.
      assert (Hn : nat_of_ascii (ascii_of_nat (nat_of_ascii c - 32)) = 95%nat)
        by (rewrite <- Heq; reflexivity).
      rewrite nat_ascii_embedding in Hn by lia. lia. }
    unfold base. rewrite Hsplit. apply toUpperCase_idempotent.
Qed.

Lemma coin_is_looked_up_by_its_base_witness :
  replace "-PERP" "" (convertMarketToCoin "btc_usd") = "BTC".
Proof.
  destruct (@coin_is_looked_up_by_its_base "btc_usd") as (_ & E & _); [reflexivity|].
  exact E.
Defined.

(* ================================================================== *)
(** * Printing a price with two decimals and reading it back *)
(* ================================================================== *)











(* ================================================================== *)
(** * Every order of a run is one the signal calls for *)
(* ================================================================== *)

Lemma determineAction_direction desiredPosition cur :
  (determineAction desiredPosition cur = "OPEN_LONG"
   \/ determineAction desiredPosition cur = "REVERSE_TO_LONG" -> desiredPosition = "long") /\
  (determineAction desiredPosition cur = "OPEN_SHORT"
   \/ determineAction desiredPosition cur = "REVERSE_TO_SHORT" -> desiredPosition = "short").
Proof.
  unfold determineAction.
  destruct (String.eqb desiredPosition "flat") eqn:Ef.
  - destruct cur; split; intros [H|H]; discriminate H.
  - destruct (String.eqb desiredPosition "long") eqn:El.
    + apply String.eqb_eq in El. split; [auto|].
      destruct cur as [p|]; [destruct (side p)|]; intros [H|H]; discriminate H.
    + destruct (String.eqb desiredPosition "short") eqn:Es.
      * apply String.eqb_eq in Es. split; [|auto].
        destruct cur as [p|]; [destruct (side p)|]; intros [H|H]; discriminate H.
      * split; intros [H|H]; discriminate H.
Qed.

Section Requests.
Variable env : Env.
Variable payload : WebhookPayload.

Lemma afterSwitch_requests o w r w' evs :
  afterSwitch env payload o w = (r, w') ->
  history w' = (history w ++ evs)%list -> orderRequests evs = [].
Proof.
  intros H Hh. apply afterSwitch_run in H as (_ & Hh' & _).
  rewrite Hh' in Hh. apply app_inv_head in Hh. subst evs.
  destruct o; [|reflexivity]. unfold notice. destruct (discordWebhook env); reflexivity.
Qed.

Lemma open_then_alert_requests isBuy c w r w' :
  hyperliquidSDK w = true ->
  (size <- executeOpen env isBuy c (sizeByLeverage payload) ;;
   afterSwitch env payload (Some size)) w = (r, w') ->
  exists evs,
    history w' = (history w ++ evs)%list /\
    Forall (fun req => exists size0 px, req = openOrder c isBuy size0 px)
           (orderRequests evs).
Proof.
  intros Hsdk H.
  apply bind_run in H as [(sz0 & w1 & Ho & H)|[(e & Ho & ->)|[Ho ->]]];
    apply executeOpen_events in Ho as (evs & Hh & _ & _ & Hreq & Hd & _);
    try exact Hsdk; try congruence.
  - apply afterSwitch_run in H as (_ & Hh' & _).
    eexists. rewrite Hh', Hh, <- app_assoc. split; [reflexivity|].
    rewrite orderRequests_app.
    replace (orderRequests (notice env payload (Normal sz0))) with (@nil OrderRequest)
      by (unfold notice; destruct (discordWebhook env); reflexivity).
    rewrite app_nil_r. exact Hreq.
  - exists evs. auto.
Qed.

Lemma dispatch_requests c cur action w r w' :
  hyperliquidSDK w = true ->
  dispatch env payload c cur action w = (r, w') ->
  exists evs,
    history w' = (history w ++ evs)%list /\
    Forall (orderOfAction c cur action) (orderRequests evs).
Proof.
  intros Hsdk. unfold dispatch.
  assert (Hnone : afterSwitch env payload None w = (r, w') ->
            exists evs, history w' = (history w ++ evs)%list /\
              Forall (orderOfAction c cur action) (orderRequests evs)).
  { intros H. apply afterSwitch_run in H as (_ & Hh & _). exists [].
    split; [exact Hh|constructor]. }
  assert (Hrev : forall isBuy,
            (isBuy = true -> action = "REVERSE_TO_LONG") ->
            (isBuy = false -> action = "REVERSE_TO_SHORT") ->
            (closeIfHeld env c cur ;;
             size <- executeOpen env isBuy c (sizeByLeverage payload) ;;
             afterSwitch env payload (Some size)) w = (r, w') ->
            exists evs, history w' = (history w ++ evs)%list /\
              Forall (orderOfAction c cur action) (orderRequests evs)).
  { intros isBuy Ht Hf H.
    assert (Hopen : forall evs,
              Forall (fun req => exists size0 px, req = openOrder c isBuy size0 px)
                     (orderRequests evs) ->
              Forall (orderOfAction c cur action) (orderRequests evs)).
    { intros evs Hall. eapply Forall_impl; [|exact Hall].
      intros req (size0 & px & ->). right.
      destruct isBuy; [left|right]; exists size0, px; auto. }
    destruct cur as [p|]; cbn [closeIfHeld] in H.
    - apply bind_run in H as [([] & w1 & Hcl & H)|[(e & Hcl & ->)|[Hcl ->]]];
        apply closePosition_events in Hcl
          as (closing & Hh1 & _ & _ & _ & _ & Hreq & Hd & Hsdk1);
        try exact Hsdk; try congruence.
      + apply open_then_alert_requests in H as (evs & Hh & Hall); [|exact Hsdk1].
        exists (closing ++ evs)%list. rewrite Hh, Hh1, app_assoc.
        split; [reflexivity|]. rewrite orderRequests_app. apply Forall_app. split.
        * eapply Forall_impl; [|exact Hreq]. intros req [px ->]. left. eauto.
        * apply Hopen, Hall.
      + exists closing. split; [exact Hh1|].
        eapply Forall_impl; [|exact Hreq]. intros req [px ->]. left. eauto.
    - unfold bind at 1, ret in H.
      apply open_then_alert_requests in H as (evs & Hh & Hall); [|exact Hsdk].
      exists evs. split; [exact Hh|]. apply Hopen, Hall. }
  destruct (String.eqb action "OPEN_LONG") eqn:E1.
  { apply String.eqb_eq in E1. intros H.
    apply open_then_alert_requests in H as (evs & Hh & Hall); [|exact Hsdk].
    exists evs. split; [exact Hh|]. eapply Forall_impl; [|exact Hall].
    intros req (size0 & px & ->). right. left. eauto. }
  destruct (String.eqb action "OPEN_SHORT") eqn:E2.
  { apply String.eqb_eq in E2. intros H.
    apply open_then_alert_requests in H as (evs & Hh & Hall); [|exact Hsdk].
    exists evs. split; [exact Hh|]. eapply Forall_impl; [|exact Hall].
    intros req (size0 & px & ->). right. right. eauto. }
  destruct (String.eqb action "CLOSE").
  { destruct cur as [p|]; [|exact Hnone].
    intros H.
    apply bind_run in H as [([] & w1 & Hcl & H)|[(e & Hcl & ->)|[Hcl ->]]];
      apply closePosition_events in Hcl
        as (closing & Hh1 & _ & _ & _ & _ & Hreq & Hd & Hsdk1);
      try exact Hsdk; try congruence.
    - apply afterSwitch_run in H as (_ & Hh & _).
      eexists. rewrite Hh, Hh1, <- app_assoc. split; [reflexivity|].
      rewrite orderRequests_app.
      replace (orderRequests (notice env payload (Normal (size p))))
        with (@nil OrderRequest)
        by (unfold notice; destruct (discordWebhook env); reflexivity).
      rewrite app_nil_r.
      eapply Forall_impl; [|exact Hreq]. intros req [px ->]. left. eauto.
    - exists closing. split; [exact Hh1|].
      eapply Forall_impl; [|exact Hreq]. intros req [px ->]. left. eauto. }
  destruct (String.eqb action "REVERSE_TO_LONG") eqn:E4.
  { apply String.eqb_eq in E4. apply (Hrev true); [auto|discriminate]. }
  destruct (String.eqb action "REVERSE_TO_SHORT") eqn:E5.
  { apply String.eqb_eq in E5. apply (Hrev false); [discriminate|auto]. }
  destruct (String.eqb action "NONE").
  - intros H. apply ret_run in H as [_ ->]. exists []. rewrite app_nil_r.
    split; [reflexivity|constructor].
  - exact Hnone.
Qed.

End Requests.

(** X20.  Every order of a run of [executeTradeFromWebhook] is one the
    signal calls for.  It is for the instrument of the signal and
    immediate-or-cancel.  A reduce-only order is placed only when the
    snapshot showed a position, for the whole size of that position and on
    the side that closes it.  Any other order is a buy when the signal
    asks for long and a sell when it asks for short: a signal for flat, or
    for anything else, never opens. *)
Theorem orders_follow_the_signal env payload w cur w1 r w' :
  let c := convertMarketToCoin (market payload) in
  getCurrentPosition env c w = (Normal cur, w1) ->
  executeTradeFromWebhook env payload w = (r, w') ->
  exists evs,
    history w' = (history w1 ++ evs)%list /\
    Forall (orderFollows c cur (position payload)) (orderRequests evs).
Proof.
  intros c Hcur H. apply executeTrade_run in H as (rc & w1' & Hcur' & H).
  fold c in Hcur', H. rewrite Hcur in Hcur'. injection Hcur' as <- <-.
  destruct H as (Hsdk1 & rd & wd & devs & Hd & Hh & _ & _ & H).
  pose proof Hd as Hreq.
  apply dispatch_requests in Hreq as (devs' & Hh' & Hreq); [|exact Hsdk1].
  rewrite Hh in Hh'. apply app_inv_head in Hh'. subst devs'.
  assert (Hall : Forall (orderFollows c cur (position payload)) (orderRequests devs)).
  { eapply Forall_impl; [|exact Hreq].
    destruct (determineAction_direction (position payload) cur) as [Hlong Hshort].
    intros req [(p & px & -> & ->)|[(size0 & px & -> & Ha)|(size0 & px & -> & Ha)]];
      unfold orderFollows; cbn [closeOrder openOrder order_coin tif reduce_only sz is_buy].
    - repeat split. eauto.
    - repeat split. left. split; [apply Hlong; exact Ha|reflexivity].
    - repeat split. right. split; [apply Hshort; exact Ha|reflexivity]. }
  destruct rd as [[]|e|]; [| |contradiction].
  - destruct H as [_ ->]. exists devs. auto.
  - destruct H as [_ Hh'].
    exists (devs ++ notice env payload (Throw e))%list.
    rewrite Hh', Hh, app_assoc. split; [reflexivity|].
    rewrite orderRequests_app.
    replace (orderRequests (notice env payload (Throw e))) with (@nil OrderRequest)
      by (unfold notice; destruct (discordWebhook env); reflexivity).
    rewrite app_nil_r. exact Hall.
Qed.

(** A held short reversed to long: buys only, the first ones reduce-only
    for 1.2, the last one not. *)
Lemma orders_follow_the_signal_witness :
  let env := scripted [shortBTC] "50000" (Some 1%nat) in
  let seen := getCurrentPosition env "BTC-PERP" world0 in
  let run := executeTradeFromWebhook env (signal "long") world0 in
  length (orderRequests (history (snd run))) = 3%nat /\
  exists evs,
    history (snd run) = (history (snd seen) ++ evs)%list /\
    Forall (orderFollows "BTC-PERP" (Some heldShort) "long") (orderRequests evs).
Proof.
  intros env seen run.
  split; [vm_compute; reflexivity|].
  exact (@orders_follow_the_signal env (signal "long") world0 (Some heldShort)
           (snd seen) (fst run) (snd run)
           ltac:(vm_compute; reflexivity) ltac:(vm_compute; reflexivity)).
Defined.

(* ================================================================== *)
(** * The start-up report and the token emoji *)
(* ================================================================== *)

(** X21.  [displayAccountInfo] never fails, whatever the client and the
    exchange do: it obtains the client and reads the account once, at
    most, and neither fetches a price, nor sets leverage, nor places an
    order, nor sends an alert.  When it did anything the client is marked
    as obtained afterwards. *)
Theorem startup_report_only_reads env w :
  exists w' evs,
    displayAccountInfo env w = (Normal tt, w') /\
    history w' = (history w ++ evs)%list /\
    (connects evs <= 1)%nat /\ (length (stateReads evs) <= 1)%nat /\
    (length evs <= 2)%nat /\
    orderRequests evs = [] /\ leverageCalls evs = [] /\ alerts evs = [] /\
    priceFetches evs = 0%nat /\ sleeps evs = [] /\
    (evs <> [] -> hyperliquidSDK w' = true).
Proof.
  unfold displayAccountInfo, tryCatch.
  destruct ((getHyperliquidClient env ;;
             ensureWalletAddress env ;;
             a <- getWalletAddress ;;
             await (fun h => getClearinghouseState env h a) (EvGetClearinghouseState a) ;;
             ret tt) w) as [r w1] eqn:E.
  apply (@reader_events env unit (fun _ => ret tt)) in E
    as (cevs & revs & Hh & Hc & _ & Hr & Hd & Hmark).
  2:{ intros st w0 r0 w2 H. apply ret_run in H as [-> ->]. split; [reflexivity|discriminate]. }
  assert (Hlen : (length (cevs ++ revs) <= 2)%nat).
  { rewrite length_app. destruct Hc as [->|(rep & ->)], Hr as [->|(a & rep' & ->)]; cbn; lia. }
  destruct (connect_only_events Hc) as (_ & Ha1 & Ho1 & Hl1 & Hp1 & Hs1 & _).
  destruct (read_only_events Hr) as (_ & Ha2 & Ho2 & Hl2 & Hp2 & Hs2).
  assert (Hquiet : orderRequests (cevs ++ revs) = [] /\ leverageCalls (cevs ++ revs) = []
                   /\ alerts (cevs ++ revs) = [] /\ priceFetches (cevs ++ revs) = 0%nat
                   /\ sleeps (cevs ++ revs) = []).
  { rewrite orderRequests_app, alerts_app, Ho1, Ho2, Ha1, Ha2.
    unfold leverageCalls, sleeps, priceFetches in *.
    rewrite !flat_map_app, filter_app, length_app, Hl1, Hl2, Hs1, Hs2, Hp1, Hp2. auto. }
  destruct Hquiet as (Ho & Hl & Ha & Hp & Hs).
  assert (Hcount : (connects (cevs ++ revs) <= 1)%nat
                   /\ (length (stateReads (cevs ++ revs)) <= 1)%nat).
  { rewrite connects_app. unfold stateReads. rewrite flat_map_app, length_app.
    destruct Hc as [->|(rep & ->)], Hr as [->|(a & rep' & ->)]; cbn; lia. }
  destruct Hcount as (Hcn & Hrd).
  destruct r as [[]|e|]; [| |congruence].
  - exists w1, (cevs ++ revs)%list. repeat split; auto.
  - exists w1, (cevs ++ revs)%list. unfold ret. repeat split; auto.
Qed.

(** X22.  [getTokenEmoji] looks at the first three characters of the
    market symbol only and does not tell upper from lower case; it gives
    an emoji for the tickers BTC, SOL and ETH and the empty string for
    every other symbol. *)
Theorem token_emoji_reads_three_letters market :
  Discord.getTokenEmoji (toUpperCase market) = Discord.getTokenEmoji market /\
  Discord.getTokenEmoji (substring 0 3 market) = Discord.getTokenEmoji market /\
  (Discord.getTokenEmoji market <> "" ->
   In (toUpperCase (substring 0 3 market)) ["BTC"; "SOL"; "ETH"]).
Proof.
  unfold Discord.getTokenEmoji. cbv zeta. repeat split.
  - rewrite <- toUpperCase_substring, toUpperCase_idempotent. reflexivity.
  - replace (substring 0 3 (substring 0 3 market)) with (substring 0 3 market);
      [reflexivity|].
    destruct market as [|c1 [|c2 [|c3 [|c4 s]]]]; reflexivity.
  - destruct (String.eqb (toUpperCase (substring 0 3 market)) "BTC") eqn:E1;
      [apply String.eqb_eq in E1; rewrite E1; cbn; auto|].
    destruct (String.eqb (toUpperCase (substring 0 3 market)) "SOL") eqn:E2;
      [apply String.eqb_eq in E2; rewrite E2; cbn; auto|].
    destruct (String.eqb (toUpperCase (substring 0 3 market)) "ETH") eqn:E3;
      [apply String.eqb_eq in E3; rewrite E3; cbn; auto|].
    intros H. contradiction.
Qed.

(* ================================================================== *)
(** * Symbols written without a separator *)
(* ================================================================== *)

Lemma includes_char_append c a b :
  includes (String c "") (a ++ b) = includes (String c "") a || includes (String c "") b.
Proof.
  induction a as [|x a IH]; [reflexivity|].
  cbn [append]. rewrite !includes_char, IH, orb_assoc. reflexivity.
Qed.

Lemma toUpperCase_append a b : toUpperCase (a ++ b) = toUpperCase a ++ toUpperCase b.
Proof. induction a as [|x a IH]; [reflexivity|]. cbn [append toUpperCase]. rewrite IH. reflexivity. Qed.

Lemma length_append a b : String.length (a ++ b) = (String.length a + String.length b)%nat.
Proof. induction a as [|x a IH]; [reflexivity|]. cbn [append String.length]. rewrite IH. reflexivity. Qed.

Lemma drop_length_append a b : drop (String.length a) (a ++ b) = b.
Proof.
  induction a as [|x a IH]; [destruct b; reflexivity|]. cbn [append String.length drop]. exact IH.
Qed.

Lemma drop_all_but_last a x b :
  exists y, drop (String.length a) (String x (a ++ b)) = String y b.
Proof.
  revert x. induction a as [|z a IH]; intros x; [exists x; reflexivity|].
  cbn [String.length append drop]. apply IH.
Qed.

Lemma substring_length_append a b : substring 0 (String.length a) (a ++ b) = a.
Proof.
  induction a as [|x a IH]; [destruct b; reflexivity|].
  cbn [String.length append substring]. rewrite IH. reflexivity.
Qed.

Lemma endsWith_append a suffix : endsWith suffix (a ++ suffix) = true.
Proof.
  unfold endsWith. rewrite length_append.
  replace (String.length a + String.length suffix - String.length suffix)%nat
    with (String.length a) by lia.
  rewrite drop_length_append, String.eqb_refl, andb_true_r.
  apply Nat.leb_le. lia.
Qed.

Lemma endsWith_other a suffix other :
  String.length other = String.length suffix ->
  String.eqb suffix other = false ->
  endsWith other (a ++ suffix) = false.
Proof.
  intros Hlen Hne. unfold endsWith. rewrite length_append, Hlen.
  replace (String.length a + String.length suffix - String.length suffix)%nat
    with (String.length a) by lia.
  rewrite drop_length_append, Hne. apply andb_false_r.
Qed.

Lemma endsWith_longer a other :
  String.length other = 4%nat ->
  (forall y, String.eqb (String y "USD") other = false) ->
  endsWith other (a ++ "USD") = false.
Proof.
  intros Hlen Hne. unfold endsWith. rewrite length_append, Hlen.
  destruct a as [|x a]; [reflexivity|].
  cbn [String.length append].
  replace (S (String.length a) + 3 - 4)%nat with (String.length a) by lia.
  destruct (drop_all_but_last a x "USD") as [y ->].
  rewrite Hne. apply andb_false_r.
Qed.

(** X23.  For a symbol without a separator that ends in [USD], [USDC] or
    [USDT], [extractBaseToken] returns the symbol without that ending,
    whatever the case of the letters before it. *)
Theorem suffixed_symbol_loses_its_quote base quote :
  includes "/" base = false -> includes "-" base = false -> includes "_" base = false ->
  In quote ["USD"; "USDC"; "USDT"] ->
  Discord.extractBaseToken (base ++ quote) = base.
Proof.
  intros Hs Hh Hu Hq.
  assert (Hsep : Discord.splitAtFirst ["/"; "-"; "_"]%char (base ++ quote) = None).
  { cbn [Discord.splitAtFirst]. rewrite !includes_char_append, Hs, Hh, Hu.
    destruct Hq as [<-|[<-|[<-|[]]]]; reflexivity. }
  unfold Discord.extractBaseToken. rewrite Hsep, toUpperCase_append.
  assert (Hslice : forall n, n = String.length quote -> sliceEnd n (base ++ quote) = base).
  { intros n ->. unfold sliceEnd. rewrite length_append.
    replace (String.length base + String.length quote - String.length quote)%nat
      with (String.length base) by lia.
    apply substring_length_append. }
  destruct Hq as [<-|[<-|[<-|[]]]]; cbn [toUpperCase upcase].
  - change (toUpperCase "USD") with "USD".
    rewrite (@endsWith_longer _ "USDC"), (@endsWith_longer _ "USDT"), endsWith_append;
      try reflexivity; [apply Hslice; reflexivity|..];
      intros y; cbn [String.eqb]; apply andb_false_r.
  - change (toUpperCase "USDC") with "USDC".
    rewrite endsWith_append. apply Hslice. reflexivity.
  - change (toUpperCase "USDT") with "USDT".
    rewrite (@endsWith_other _ "USDT" "USDC"), endsWith_append; try reflexivity.
    apply Hslice. reflexivity.
Qed.

Lemma suffixed_symbol_loses_its_quote_witness :
  Discord.extractBaseToken "btcUSDT" = "btc".
Proof.
  apply (@suffixed_symbol_loses_its_quote "btc" "USDT"); try reflexivity.
  cbn. auto.
Defined.
